(** * go-multicall: dispatch and reconciliation engine

    A shallow embedding of the batching client (the public entry points of
    [MultiCall] and the helpers [write], [asRead], [read], [getData],
    [makeCall], [parseResults], [decodeAggregateCallsResult]) together with
    the properties its specification states about them.

    Go values of static type [any] are a tagged tree; a Go multi-value return
    [(v, err)] is a tuple whose last component is an [option error]; a nil
    pointer is [None].  A run of a function is a pair: the network requests
    it issued, in order, and either the value it returned or the run-time
    panic that stopped it. *)

From Stdlib Require Import ZArith List Bool Lia.
From Stdlib Require Import Strings.String Strings.Ascii Strings.Byte.
Import ListNotations.
Local Open Scope string_scope.
Local Open Scope Z_scope.
Local Open Scope list_scope.

Set Implicit Arguments.
Local Set Warnings "-register-all".

(** ** Go data *)

Definition bytes : Type := list byte.

(** [common.Address], a 20-byte account address read as a number. *)
Definition Address : Type := Z.

(** The two fields of [types.Receipt] the engine reads. *)
Record Receipt : Type := mkReceipt {
  Status : Z;
  BlockNumber : option Z
}.

(** A value stored in an interface of type [any].  [Slice] is [[]any]; a nil
    [[]any] and an empty one are both [Slice []]: the engine observes such a
    slice only through [len], indexing and [range]. *)
Inductive any : Type :=
| Nil
| Bool (b : bool)
| Bytes (b : bytes)
| Str (s : string)
| BigInt (z : Z)
| Addr (a : Address)
| Slice (l : list any)
| ReceiptOf (r : Receipt).

(** [len] of a slice. *)
Definition len {A} (l : list A) : Z := Z.of_nat (List.length l).

(** A [[]string] is nil ([None]) or a list of type tags. *)
Definition types : Type := option (list string).

Definition len_types (t : types) : Z :=
  match t with None => 0 | Some l => len l end.

(** *** Errors

    [ErrText] is an error known only by its text; [ErrWrap p w s] is the value
    of [fmt.Errorf] on a format [p%ws] whose [%w] operand is [w] (nil when
    [None]). *)
Inductive error : Type :=
| ErrText (msg : string)
| ErrWrap (before : string) (wrapped : option error) (after : string).

Fixpoint Error (e : error) : string :=
  match e with
  | ErrText msg => msg
  | ErrWrap p (Some w) s => (p ++ Error w ++ s)%string
  | ErrWrap p None s => (p ++ "%!w(<nil>)" ++ s)%string
  end.

(** [errors.Unwrap], iterated: the error and everything it wraps. *)
Fixpoint chain (e : error) : list error :=
  e :: match e with
       | ErrWrap _ (Some w) _ => chain w
       | _ => []
       end.

Definition carries (e target : error) : Prop := In target (chain e).

(** [strings.Contains]. *)
Fixpoint Contains (s substr : string) : bool :=
  if String.prefix substr s then true
  else match s with
       | EmptyString => false
       | String _ rest => Contains rest substr
       end.

(** [common.Bytes2Hex]: two lower-case digits a byte, no prefix. *)
Definition hexDigit (n : N) : ascii :=
  match String.get (N.to_nat n) "0123456789abcdef" with
  | Some c => c
  | None => "0"%char
  end.

Fixpoint Bytes2Hex (b : bytes) : string :=
  match b with
  | [] => EmptyString
  | x :: rest =>
      let n := Byte.to_N x in
      String (hexDigit (N.div n 16)) (String (hexDigit (N.modulo n 16)) (Bytes2Hex rest))
  end.

(** [int64(x)] of a [uint64]. *)
Definition int64 (x : Z) : Z :=
  if x <? 2 ^ 63 then x else x - 2 ^ 64.

(** ** Runs *)

Inductive panic : Type :=
| NilDereference
| IndexOutOfRange
| TypeAssertion.

Inductive outcome (A : Type) : Type :=
| Returns (a : A)
| Panics (p : panic).

Arguments Panics {A} p.

Definition obind {A B} (o : outcome A) (f : A -> outcome B) : outcome B :=
  match o with
  | Returns a => f a
  | Panics p => Panics p
  end.

(** [ethereum.CallMsg], with the fields the engine sets. *)
Record CallMsg : Type := mkCallMsg {
  From : Address;
  To : option Address;
  Data : bytes
}.

(** The deployless counterparts, which live outside the engine. *)
Inductive Deployless : Type :=
| DlSimulation
| DlAggregateStatic
| DlTryAggregateStatic
| DlTryAggregateStatic3
| DlGetCodeLengths
| DlGetBalances
| DlGetAddressesData
| DlGetChainData.

(** [CallsInterface], implemented by [Calls] and [CallsWithFailure]. *)
Record CallsInterface : Type := mkCalls {
  Len : Z;
  GetReturnTypes : nat -> types;
  ToArray : bool -> bool -> any * option Z * option error
}.

(** The arguments of the deployless functions. *)
Record DeploylessArgs : Type := mkDlArgs {
  dl_calls : option CallsInterface;
  dl_addresses : option (list (option Address));
  dl_requireSuccess : bool;
  dl_blockNumber : option Z
}.

(** [Result], over the type of the network record; the payload field is
    [Result] in the source. *)
Record ResultOf (T : Type) : Type := mkResult {
  Success : bool;
  Result_ : any;
  Error_ : option error;
  TxOrCall_ : T
}.

(** ** The collaborators

    Everything the engine calls and does not define: the ABI codec, the RPC
    client, the transaction helpers, the network-record constructors and the
    deployless functions.  [Transaction] is [types.Transaction]; [TxOrCall]
    is the network record, [zeroTxOrCall] its zero value [TxOrCall{}]. *)
Class Collaborators : Type := {
  Transaction : Type;
  TxOrCall : Type;
  zeroTxOrCall : TxOrCall;
  ZERO_ADDRESS : Address;
  OMNES_MULTICALL_ADDRESS : Address;
  abi_EncodeWithSignature : string -> list any -> bytes * option error;
  abi_Decode : types -> bytes -> list any * option error;
  abi_DecodeWithSignature : string -> bytes -> list any * option error;
  parseRevertData : error -> bytes * bool;
  toAnyArray : list (option Address) -> any;
  FromTxToTxOrCall : option Transaction -> Address -> option Z -> TxOrCall;
  FromCallToTxOrCall : CallMsg -> option Z -> TxOrCall;
  rpc_createTransaction :
    option Address -> option Address -> option Z -> bytes ->
    option Transaction * option error;
  rpc_ChainID : option Z * option error;
  rpc_CallContract : CallMsg -> option Z -> bytes * option error;
  rpc_BlockNumber : Z * option error;
  rpc_CodeAt : Address -> option Z -> bytes * option error;
  rpc_sendSignedTransaction : option Transaction -> option Receipt * option error;
  rpc_readContract :
    Address -> option Address -> bytes -> option Z -> bytes * CallMsg * option error;
  rpc_deployless : Deployless -> DeploylessArgs -> ResultOf TxOrCall
}.

Section Engine.

Context {W : Collaborators}.

Record SignerInterface : Type := mkSigner {
  GetAddress : option Address;
  SignTx : option Transaction -> option Z -> option Transaction * option error
}.

Record MultiCall : Type := mkMultiCall {
  ContractAddress : option Address;
  Signer : option SignerInterface
}.

Definition Result : Type := ResultOf TxOrCall.

(** A request that leaves the process. *)
Inductive Event : Type :=
| EvCreateTransaction (from to : option Address) (value : option Z) (data : bytes)
| EvChainID
| EvCallContract (msg : CallMsg) (blockNumber : option Z)
| EvBlockNumber
| EvSendSignedTransaction (tx : option Transaction)
| EvReadContract (from : Address) (to : option Address) (data : bytes)
    (blockNumber : option Z)
| EvCodeAt (a : Address) (blockNumber : option Z)
| EvDeployless (which : Deployless) (args : DeploylessArgs).

Definition M (A : Type) : Type := (list Event * outcome A)%type.

Definition ret {A} (a : A) : M A := ([], Returns a).

Definition bind {A B} (m : M A) (f : A -> M B) : M B :=
  match m with
  | (t, Returns a) => let '(t', r) := f a in (t ++ t', r)
  | (t, Panics p) => (t, Panics p)
  end.

Definition throw {A} (p : panic) : M A := ([], Panics p).

Definition request {A} (e : Event) (a : A) : M A := ([e], Returns a).

Definition lift {A} (o : outcome A) : M A := ([], o).

Definition trace {A} (m : M A) : list Event := fst m.
Definition result {A} (m : M A) : outcome A := snd m.

Notation "x <- m ;; k" := (bind m (fun x => k))
  (at level 61, m at next level, right associativity).
Notation "' pat <- m ;; k" := (bind m (fun x => match x with pat => k end))
  (at level 61, pat pattern, m at next level, right associativity).

(** [*p] for a pointer to an address. *)
Definition deref (p : option Address) : M Address :=
  match p with
  | Some a => ret a
  | None => throw NilDereference
  end.

Definition createTransaction from to value data :=
  request (EvCreateTransaction from to value data)
          (rpc_createTransaction from to value data).
Definition ChainID := request EvChainID rpc_ChainID.
Definition CallContract msg bn :=
  request (EvCallContract msg bn) (rpc_CallContract msg bn).
Definition client_BlockNumber := request EvBlockNumber rpc_BlockNumber.
Definition CodeAt a bn := request (EvCodeAt a bn) (rpc_CodeAt a bn).
Definition sendSignedTransaction tx :=
  request (EvSendSignedTransaction tx) (rpc_sendSignedTransaction tx).
Definition readContract from to data bn :=
  request (EvReadContract from to data bn) (rpc_readContract from to data bn).
Definition deployless which args :=
  request (EvDeployless which args) (rpc_deployless which args).

(** ** Result production and reconciliation *)

Definition failure (e : error) (t : TxOrCall) : Result :=
  mkResult false Nil (Some e) t.

Definition parseResults (decodedCallResult : list any) (status : bool)
    (callOrTxResult : any) (callOrTx : TxOrCall) : Result :=
  if 0 <? len decodedCallResult
  then mkResult status (Slice decodedCallResult) None callOrTx
  else mkResult status callOrTxResult None callOrTx.

(** The body of the [range] loop of [decodeAggregateCallsResult], from slot
    [i] on; [decodedResult] is the list appended to so far. *)
Fixpoint decodeSlots (calls : CallsInterface) (i : nat) (result decodedResult : list any)
    : outcome (list any * option error) :=
  match result with
  | [] => Returns (decodedResult, None)
  | res :: rest =>
      let returnTypes := GetReturnTypes calls i in
      if match returnTypes with Some _ => true | None => false end
         || (0 <? len_types returnTypes)
      then
        match res with
        | Bytes r =>
            let '(decodedR, err) := abi_Decode returnTypes r in
            match err with
            | Some e => Returns ([], Some e)
            | None => decodeSlots calls (S i) rest (decodedResult ++ [Slice decodedR])
            end
        | Slice l => decodeSlots calls (S i) rest (decodedResult ++ [Slice l])
        | _ => Panics TypeAssertion
        end
      else
        match res with
        | Slice l => decodeSlots calls (S i) rest (decodedResult ++ [Slice l])
        | _ => Panics TypeAssertion
        end
  end.

Definition decodeAggregateCallsResult (result : list any) (calls : CallsInterface)
    : outcome (list any * option error) :=
  decodeSlots calls 0 result [].

(** The loop [for len(decodedCallResult) != calls.Len()] of [makeCall], entered
    with [decodedCallResult = v.([]any)]: each round replaces the list by its
    first element, asserted to be a list. *)
Fixpoint descend (n : Z) (v : any) : outcome (list any) :=
  match v with
  | Slice l =>
      if negb (len l =? n)
      then match l with
           | [] => Panics IndexOutOfRange
           | first :: _ => descend n first
           end
      else Returns l
  | _ => Panics TypeAssertion
  end.

Definition unwrap (n : Z) (decodedCallResult : list any) : outcome (list any) :=
  descend n (Slice decodedCallResult).

(** One round of the loop that rewrites the return data of a simulation
    triple as hex text. *)
Definition hexSlot (slot : any) : outcome any :=
  match slot with
  | Slice (success :: Bytes returnData :: rest) =>
      Returns (Slice (success :: Str (Bytes2Hex returnData) :: rest))
  | Slice (_ :: _ :: _) => Panics TypeAssertion
  | Slice _ => Panics IndexOutOfRange
  | _ => Panics TypeAssertion
  end.

Fixpoint hexSlots (l : list any) : outcome (list any) :=
  match l with
  | [] => Returns []
  | slot :: rest =>
      obind (hexSlot slot) (fun s => obind (hexSlots rest) (fun r => Returns (s :: r)))
  end.

(** The [else if isSimulation] block of [makeCall].  Its
    [decodedCallResult, err := abi.DecodeWithSignature(...)] sits in the inner
    block [if ok { ... }] and so declares two variables of that block.  The
    value is the error the function returns from inside the block, if it
    does, and the block's own [decodedCallResult] where the block ends. *)
Definition revertBlock (err : option error) : outcome (option error * list any) :=
  match err with
  | None => Panics NilDereference
  | Some e =>
      if Contains (Error e) "execution reverted"
      then
        let '(encodedRevert, ok) := parseRevertData e in
        if ok : bool
        then
          let '(decodedCallResult, err) :=
            abi_DecodeWithSignature "MultiCall__Simulation((bool,bytes,uint256)[])"
                                    encodedRevert in
          match err with
          | Some e' => Returns (Some e', [])
          | None =>
              match decodedCallResult with
              | [] => Panics IndexOutOfRange
              | Slice decodedCallResult :: _ =>
                  obind (hexSlots decodedCallResult)
                        (fun decodedCallResult => Returns (None, decodedCallResult))
              | _ :: _ => Panics TypeAssertion
              end
          end
        else Returns (None, [])
      else Returns (None, [])
  end.

Definition isSome {A} (o : option A) : bool :=
  match o with Some _ => true | None => false end.

Definition makeCall (calls : CallsInterface) (to : option Address) (callData : bytes)
    (txReturnTypes : types) (isSimulation : bool) (multicallAddress : option Address)
    (blockNumber : option Z) : M (list any * list any * TxOrCall * option error) :=
  let decodedCallResult : list any := [] in
  '(encodedCallResult, call, err) <- readContract ZERO_ADDRESS to callData blockNumber ;;
  if isSome err && negb isSimulation
  then ret ([], [], zeroTxOrCall, err)
  else
    inBlock <- (if isSimulation then lift (revertBlock err) else ret (None, [])) ;;
    match fst inBlock with
    | Some e => ret ([], [], zeroTxOrCall, Some e)
    | None =>
        let '(decodedCallResult, err) :=
          if negb isSimulation
          then abi_Decode txReturnTypes encodedCallResult
          else (decodedCallResult, None) in
        match err with
        | Some e => ret ([], [], zeroTxOrCall, Some e)
        | None =>
            decodedCallResult <- lift (unwrap (Len calls) decodedCallResult) ;;
            '(decodedAggregatedCallsResultVar, err) <-
              lift (decodeAggregateCallsResult decodedCallResult calls) ;;
            match err with
            | Some e => ret ([], [], zeroTxOrCall, Some e)
            | None =>
                match blockNumber with
                | None =>
                    '(blockNumberUint64, err) <- client_BlockNumber ;;
                    match err with
                    | Some e => ret ([], [], zeroTxOrCall, Some e)
                    | None =>
                        ret (decodedCallResult, decodedAggregatedCallsResultVar,
                             FromCallToTxOrCall call (Some (int64 blockNumberUint64)),
                             None)
                    end
                | Some _ =>
                    ret (decodedCallResult, decodedAggregatedCallsResultVar,
                         FromCallToTxOrCall call blockNumber, None)
                end
            end
        end
    end.

(** ** Dispatch helpers *)

Definition asRead (calls : CallsInterface) (requireSuccess : bool) (to : option Address)
    (funcSignature : string) (txReturnTypes : types) (blockNumber : option Z)
    : M Result :=
  let '(arrayfiedCalls, _, err) := ToArray calls true false in
  match err with
  | Some e => ret (failure e zeroTxOrCall)
  | None =>
      let '(callData, err) :=
        if (funcSignature =? "tryAggregateCalls((address,bytes,uint256)[],bool)")%string
        then abi_EncodeWithSignature funcSignature [arrayfiedCalls; Bool requireSuccess]
        else abi_EncodeWithSignature funcSignature [arrayfiedCalls] in
      match err with
      | Some e => ret (failure e zeroTxOrCall)
      | None =>
          '(decodedCallResult, decodedAggregatedCallsResultVar, call, err) <-
            makeCall calls to callData txReturnTypes false None blockNumber ;;
          match err with
          | Some e => ret (failure e call)
          | None =>
              ret (parseResults decodedAggregatedCallsResultVar true
                                (Slice decodedCallResult) call)
          end
      end
  end.

Definition read (calls : CallsInterface) (requireSuccess : bool) (to : option Address)
    (funcSignature : string) (txReturnTypes : types) (multicallAddress : option Address)
    (blockNumber : option Z) (isSimulation : bool) : M Result :=
  let '(arrayfiedCalls, _, err) := ToArray calls false false in
  match err with
  | Some e => ret (failure e zeroTxOrCall)
  | None =>
      let isSimulation :=
        if (funcSignature =? "tryAggregateStatic((address,bytes,bool)[])")%string
        then false else isSimulation in
      let '(isSimulation, (callData, err)) :=
        if (funcSignature =? "tryAggregateStatic((address,bytes)[],bool)")%string
        then (false,
              abi_EncodeWithSignature funcSignature [arrayfiedCalls; Bool requireSuccess])
        else (isSimulation, abi_EncodeWithSignature funcSignature [arrayfiedCalls]) in
      match err with
      | Some e => ret (failure e zeroTxOrCall)
      | None =>
          '(decodedCallResult, decodedAggregatedCallsResultVar, call, err) <-
            makeCall calls to callData txReturnTypes isSimulation multicallAddress
                     blockNumber ;;
          match err with
          | Some e => ret (failure e call)
          | None =>
              ret (parseResults decodedAggregatedCallsResultVar true
                                (Slice decodedCallResult) call)
          end
      end
  end.

Definition getData (addresses : option (list (option Address))) (to : option Address)
    (funcSignature : string) (returnTypes : types) (blockNumber : option Z) : M Result :=
  let '(callData, err) :=
    match addresses with
    | Some a => abi_EncodeWithSignature funcSignature [toAnyArray a]
    | None => abi_EncodeWithSignature funcSignature []
    end in
  match err with
  | Some e => ret (failure e zeroTxOrCall)
  | None =>
      '(encodedCallResult, call, err) <-
        readContract ZERO_ADDRESS to callData blockNumber ;;
      match err with
      | Some e => ret (failure e (FromCallToTxOrCall call blockNumber))
      | None =>
          let '(decodedCallResult, err) := abi_Decode returnTypes encodedCallResult in
          match err with
          | Some e => ret (failure e (FromCallToTxOrCall call blockNumber))
          | None =>
              match blockNumber with
              | None =>
                  '(blockNumberUint64, err) <- client_BlockNumber ;;
                  match err with
                  | Some e => ret (failure e (FromCallToTxOrCall call blockNumber))
                  | None =>
                      ret (mkResult true (Slice decodedCallResult) None
                             (FromCallToTxOrCall call (Some (int64 blockNumberUint64))))
                  end
              | Some _ =>
                  ret (mkResult true (Slice decodedCallResult) None
                         (FromCallToTxOrCall call blockNumber))
              end
          end
      end
  end.

(** [receipt.BlockNumber] for a receipt pointer. *)
Definition receiptBlockNumber (receipt : option Receipt) : M (option Z) :=
  match receipt with
  | Some r => ret (BlockNumber r)
  | None => throw NilDereference
  end.

(** A name is rebound below where the source declares it again with [:=]:
    in the branch taken when the dry run fails, [blockNumber, err :=] declares
    an [err] of that branch, and the [err] handed to [fmt.Errorf] is that
    one. *)
Definition write (calls : CallsInterface) (requireSuccess : bool)
    (signer : SignerInterface) (to : option Address) (funcSignature : string)
    (txReturnTypes : types) (withValue isMultiCall3Type : bool) : M Result :=
  let '(arrayfiedCalls, msgValue, err) := ToArray calls withValue isMultiCall3Type in
  match err with
  | Some e => ret (failure e zeroTxOrCall)
  | None =>
  let '(callData, err) :=
    if (funcSignature =? "tryAggregateCalls((address,bytes,uint256)[],bool)")%string
    then abi_EncodeWithSignature funcSignature [arrayfiedCalls; Bool requireSuccess]
    else abi_EncodeWithSignature funcSignature [arrayfiedCalls] in
  match err with
  | Some e => ret (failure e zeroTxOrCall)
  | None =>
  '(tx, err) <- createTransaction (GetAddress signer) to msgValue callData ;;
  match err with
  | Some e =>
      from <- deref (GetAddress signer) ;;
      ret (failure e (FromTxToTxOrCall tx from None))
  | None =>
  '(chainId, err) <- ChainID ;;
  match err with
  | Some e =>
      from <- deref (GetAddress signer) ;;
      ret (failure e (FromTxToTxOrCall tx from None))
  | None =>
  let '(signedTx, err) := SignTx signer tx chainId in
  match err with
  | Some e =>
      from <- deref (GetAddress signer) ;;
      ret (failure e (FromTxToTxOrCall tx from None))
  | None =>
  from <- deref (GetAddress signer) ;;
  '(encodedCallResult, err) <- CallContract (mkCallMsg from to callData) None ;;
  match err with
  | Some _ =>
      '(blockNumber, err) <- client_BlockNumber ;;
      match err with
      | Some e =>
          from <- deref (GetAddress signer) ;;
          ret (failure e (FromTxToTxOrCall tx from None))
      | None =>
          from <- deref (GetAddress signer) ;;
          ret (failure
                 (ErrWrap "error calling contract: " err
                          (", with data: " ++ Bytes2Hex callData)%string)
                 (FromTxToTxOrCall tx from (Some (int64 blockNumber))))
      end
  | None =>
  '(receipt, err) <- sendSignedTransaction signedTx ;;
  match err with
  | Some e =>
      from <- deref (GetAddress signer) ;;
      receiptBlock <- receiptBlockNumber receipt ;;
      ret (failure (ErrWrap "error sending signed transaction: " (Some e) "")
                   (FromTxToTxOrCall tx from receiptBlock))
  | None =>
  let '(decodedCallResult, err) := abi_Decode txReturnTypes encodedCallResult in
  match err with
  | Some e =>
      from <- deref (GetAddress signer) ;;
      receiptBlock <- receiptBlockNumber receipt ;;
      ret (failure (ErrWrap "error decoding call result: " (Some e) "")
                   (FromTxToTxOrCall tx from receiptBlock))
  | None =>
      match receipt with
      | None => throw NilDereference
      | Some r =>
          from <- deref (GetAddress signer) ;;
          ret (parseResults decodedCallResult (Status r =? 1) (ReceiptOf r)
                 (FromTxToTxOrCall signedTx from (BlockNumber r)))
      end
  end end end end end end end end.

Definition transactWithFailure := write.
Definition transact := write.
Definition txAsReadWithFailure := asRead.
Definition txAsRead := asRead.

Definition call (calls : CallsInterface) (requireSuccess : bool) (to : option Address)
    (funcSignature : string) (txReturnTypes : types) (multicallAddress : option Address)
    (blockNumber : option Z) (isSimulation : bool) : M Result :=
  read calls requireSuccess to funcSignature txReturnTypes multicallAddress blockNumber
       isSimulation.

Definition callWithFailure (calls : CallsInterface) (to : option Address)
    (funcSignature : string) (txReturnTypes : types) (multicallAddress : option Address)
    (blockNumber : option Z) : M Result :=
  read calls false to funcSignature txReturnTypes multicallAddress blockNumber false.

(** ** Public entry points

    A [[]Call] or [[]CallWithFailure] argument is taken as the [Calls] or
    [CallsWithFailure] value it converts to; the client is the one of
    [Collaborators]. *)

Definition NewMultiCall (signer : option SignerInterface)
    : M (option MultiCall * option error) :=
  '(bytecode, err) <- CodeAt OMNES_MULTICALL_ADDRESS None ;;
  match err with
  | Some e => ret (None, Some (ErrText ("error getting bytecode: " ++ Error e)%string))
  | None =>
      let multicallAddress :=
        if len bytecode =? 0 then None else Some OMNES_MULTICALL_ADDRESS in
      ret (Some (mkMultiCall multicallAddress signer), None)
  end.

Definition isNil {A} (o : option A) : bool := negb (isSome o).

(** [*m.Signer]. *)
Definition derefSigner (p : option SignerInterface) : M SignerInterface :=
  match p with
  | Some s => ret s
  | None => throw NilDereference
  end.

Definition AggregateCalls (m : MultiCall) (calls : CallsInterface)
    (blockNumber : option Z) (isCall : bool) : M Result :=
  if isNil (Signer m) && negb isCall
  then ret (failure (ErrText "no signer configured") zeroTxOrCall)
  else if isNil (ContractAddress m)
  then ret (failure (ErrText "no multicall contract on this chain") zeroTxOrCall)
  else if isCall
  then txAsRead calls false (ContractAddress m)
         "aggregateCalls((address,bytes,uint256)[])" (Some ["bytes[]"]) blockNumber
  else
    signer <- derefSigner (Signer m) ;;
    transact calls false signer (ContractAddress m)
      "aggregateCalls((address,bytes,uint256)[])" (Some ["bytes[]"]) true false.

Definition TryAggregateCalls (m : MultiCall) (calls : CallsInterface)
    (requireSuccess : bool) (blockNumber : option Z) (isCall : bool) : M Result :=
  if isNil (Signer m) && negb isCall
  then ret (failure (ErrText "no signer configured") zeroTxOrCall)
  else if isNil (ContractAddress m)
  then ret (failure (ErrText "no multicall contract on this chain") zeroTxOrCall)
  else if isCall
  then txAsRead calls requireSuccess (ContractAddress m)
         "tryAggregateCalls((address,bytes,uint256)[],bool)" (Some ["(bool,bytes)[]"])
         blockNumber
  else
    signer <- derefSigner (Signer m) ;;
    transact calls requireSuccess signer (ContractAddress m)
      "tryAggregateCalls((address,bytes,uint256)[],bool)" (Some ["(bool,bytes)[]"])
      true false.

Definition TryAggregateCalls3 (m : MultiCall) (calls : CallsInterface)
    (blockNumber : option Z) (isCall : bool) : M Result :=
  if isNil (Signer m) && negb isCall
  then ret (failure (ErrText "no signer configured") zeroTxOrCall)
  else if isNil (ContractAddress m)
  then ret (failure (ErrText "no multicall contract on this chain") zeroTxOrCall)
  else if isCall
  then txAsReadWithFailure calls false (ContractAddress m)
         "tryAggregateCalls((address,bytes,uint256,bool)[])" (Some ["(bool,bytes)[]"])
         blockNumber
  else
    signer <- derefSigner (Signer m) ;;
    transactWithFailure calls false signer (ContractAddress m)
      "tryAggregateCalls((address,bytes,uint256,bool)[])" (Some ["(bool,bytes)[]"])
      true false.

Definition SimulateCall (m : MultiCall) (calls : CallsInterface)
    (blockNumber : option Z) : M Result :=
  if isNil (ContractAddress m)
  then deployless DlSimulation (mkDlArgs (Some calls) None false blockNumber)
  else call calls false (ContractAddress m) "simulateCalls((address,bytes)[])" None
            (ContractAddress m) blockNumber true.

Definition AggregateStatic (m : MultiCall) (calls : CallsInterface)
    (blockNumber : option Z) : M Result :=
  if isNil (ContractAddress m)
  then deployless DlAggregateStatic (mkDlArgs (Some calls) None false blockNumber)
  else call calls false (ContractAddress m) "aggregateStatic((address,bytes)[])"
            (Some ["bytes[]"]) (ContractAddress m) blockNumber false.

Definition TryAggregateStatic (m : MultiCall) (calls : CallsInterface)
    (requireSuccess : bool) (blockNumber : option Z) : M Result :=
  if isNil (ContractAddress m)
  then deployless DlTryAggregateStatic
         (mkDlArgs (Some calls) None requireSuccess blockNumber)
  else call calls requireSuccess (ContractAddress m)
            "tryAggregateStatic((address,bytes)[],bool)" (Some ["(bool,bytes)[]"])
            (ContractAddress m) blockNumber false.

Definition TryAggregateStatic3 (m : MultiCall) (calls : CallsInterface)
    (blockNumber : option Z) : M Result :=
  if isNil (ContractAddress m)
  then deployless DlTryAggregateStatic3 (mkDlArgs (Some calls) None false blockNumber)
  else callWithFailure calls (ContractAddress m)
         "tryAggregateStatic((address,bytes,bool)[])" (Some ["(bool,bytes)[]"])
         (ContractAddress m) blockNumber.

Definition CodeLengths (m : MultiCall) (addresses : option (list (option Address)))
    (blockNumber : option Z) : M Result :=
  if isNil (ContractAddress m)
  then deployless DlGetCodeLengths (mkDlArgs None addresses false blockNumber)
  else getData addresses (ContractAddress m) "getCodeLengths(address[])"
               (Some ["uint256[]"]) blockNumber.

Definition Balances (m : MultiCall) (addresses : option (list (option Address)))
    (blockNumber : option Z) : M Result :=
  if isNil (ContractAddress m)
  then deployless DlGetBalances (mkDlArgs None addresses false blockNumber)
  else getData addresses (ContractAddress m) "getBalances(address[])"
               (Some ["uint256[]"]) blockNumber.

Definition AddressesData (m : MultiCall) (addresses : option (list (option Address)))
    (blockNumber : option Z) : M Result :=
  if isNil (ContractAddress m)
  then deployless DlGetAddressesData (mkDlArgs None addresses false blockNumber)
  else getData addresses (ContractAddress m) "getAddressesData(address[])"
               (Some ["uint256[]"; "uint256[]"]) blockNumber.

Definition ChainData (m : MultiCall) (blockNumber : option Z) : M Result :=
  if isNil (ContractAddress m)
  then deployless DlGetChainData (mkDlArgs None None false blockNumber)
  else getData None (ContractAddress m) "getChainData()"
               (Some ["uint256"; "uint256"; "bytes32"; "uint256"; "address";
                      "uint256"; "uint256"; "uint256"; "uint256"])
               blockNumber.

Definition IsDeployed (m : MultiCall) : bool := isSome (ContractAddress m).
Definition IsDeployless (m : MultiCall) : bool := isNil (ContractAddress m).

(** The public entry points that dispatch a batch or a query, and their
    arguments gathered in one record. *)
Inductive EntryPoint : Type :=
| EpAggregateCalls
| EpTryAggregateCalls
| EpTryAggregateCalls3
| EpSimulateCall
| EpAggregateStatic
| EpTryAggregateStatic
| EpTryAggregateStatic3
| EpCodeLengths
| EpBalances
| EpAddressesData
| EpChainData.

Record Args : Type := mkArgs {
  a_calls : CallsInterface;
  a_addresses : option (list (option Address));
  a_requireSuccess : bool;
  a_blockNumber : option Z;
  a_isCall : bool
}.

Definition invoke (ep : EntryPoint) (m : MultiCall) (a : Args) : M Result :=
  match ep with
  | EpAggregateCalls => AggregateCalls m (a_calls a) (a_blockNumber a) (a_isCall a)
  | EpTryAggregateCalls =>
      TryAggregateCalls m (a_calls a) (a_requireSuccess a) (a_blockNumber a) (a_isCall a)
  | EpTryAggregateCalls3 => TryAggregateCalls3 m (a_calls a) (a_blockNumber a) (a_isCall a)
  | EpSimulateCall => SimulateCall m (a_calls a) (a_blockNumber a)
  | EpAggregateStatic => AggregateStatic m (a_calls a) (a_blockNumber a)
  | EpTryAggregateStatic =>
      TryAggregateStatic m (a_calls a) (a_requireSuccess a) (a_blockNumber a)
  | EpTryAggregateStatic3 => TryAggregateStatic3 m (a_calls a) (a_blockNumber a)
  | EpCodeLengths => CodeLengths m (a_addresses a) (a_blockNumber a)
  | EpBalances => Balances m (a_addresses a) (a_blockNumber a)
  | EpAddressesData => AddressesData m (a_addresses a) (a_blockNumber a)
  | EpChainData => ChainData m (a_blockNumber a)
  end.

End Engine.

(** ** Vocabulary of the properties *)

(** The lists met by going down first elements: the value itself, its first
    element, the first element of that, as long as there is a list. *)
Fixpoint spine (v : any) : list (list any) :=
  match v with
  | Slice l => l :: match l with
                    | first :: _ => spine first
                    | [] => []
                    end
  | _ => []
  end.

Definition hasCount (n : Z) (l : list any) : bool := len l =? n.

Definition isBroadcast {W : Collaborators} (e : Event) : bool :=
  match e with
  | EvSendSignedTransaction _ => true
  | _ => false
  end.

(** What slot [res] becomes under the return types declared for its
    position, when the decode step gets past it. *)
Definition slotOutput {W : Collaborators} (returnTypes : types) (res : any) : option any :=
  match res with
  | Slice l => Some (Slice l)
  | Bytes r =>
      match returnTypes with
      | None => None
      | Some _ =>
          match abi_Decode returnTypes r with
          | (decodedR, None) => Some (Slice decodedR)
          | (_, Some _) => None
          end
      end
  | _ => None
  end.

(** An entry point uses the deployless fallback when, on a [MultiCall] with
    no contract address, its run is the run of a deployless function. *)
Definition usesDeployless (ep : EntryPoint) : Prop :=
  forall (W : Collaborators) (m : MultiCall) (a : Args),
    ContractAddress m = None ->
    exists which args, invoke ep m a = deployless which args.

Definition flagMatchesError {W : Collaborators} (r : Result) : Prop :=
  Success r = true <-> Error_ r = None.

(** The three helpers that encode a call set, the signature for which each
    hands [requireSuccess] to the encoder, and the arguments it hands over. *)
Inductive Path : Type :=
| ViaWrite
| ViaAsRead
| ViaRead.

Definition trailingBoolSignature (p : Path) : string :=
  match p with
  | ViaWrite | ViaAsRead => "tryAggregateCalls((address,bytes,uint256)[],bool)"
  | ViaRead => "tryAggregateStatic((address,bytes)[],bool)"
  end.

Definition encoderArguments (p : Path) (funcSignature : string) (arrayfiedCalls : any)
    (requireSuccess : bool) : list any :=
  if (funcSignature =? trailingBoolSignature p)%string
  then [arrayfiedCalls; Bool requireSuccess]
  else [arrayfiedCalls].

(** The calldata of the first request of a run. *)
Definition calldataOf {W : Collaborators} (e : Event) : option bytes :=
  match e with
  | EvCreateTransaction _ _ _ data => Some data
  | EvReadContract _ _ data _ => Some data
  | EvCallContract msg _ => Some (Data msg)
  | _ => None
  end.

Definition sentCalldata {W : Collaborators} (t : list Event) : option bytes :=
  match t with
  | e :: _ => calldataOf e
  | [] => None
  end.

Definition encodingOf {W : Collaborators} (funcSignature : string) (args : list any)
    : option bytes :=
  match abi_EncodeWithSignature funcSignature args with
  | (callData, None) => Some callData
  | (_, Some _) => None
  end.

(** The reconciliation of [makeCall]: the decoded response [raw] is unwrapped
    to [matched], whose slots are decoded into [perCall]. *)
Definition reconciles {W : Collaborators} (calls : CallsInterface)
    (raw matched perCall : list any) : Prop :=
  unwrap (Len calls) raw = Returns matched /\
  decodeAggregateCallsResult matched calls = Returns (perCall, None).

Definition deploylessOf (ep : EntryPoint) : option Deployless :=
  match ep with
  | EpAggregateCalls | EpTryAggregateCalls | EpTryAggregateCalls3 => None
  | EpSimulateCall => Some DlSimulation
  | EpAggregateStatic => Some DlAggregateStatic
  | EpTryAggregateStatic => Some DlTryAggregateStatic
  | EpTryAggregateStatic3 => Some DlTryAggregateStatic3
  | EpCodeLengths => Some DlGetCodeLengths
  | EpBalances => Some DlGetBalances
  | EpAddressesData => Some DlGetAddressesData
  | EpChainData => Some DlGetChainData
  end.

Definition entryPoints : list EntryPoint :=
  [EpAggregateCalls; EpTryAggregateCalls; EpTryAggregateCalls3; EpSimulateCall;
   EpAggregateStatic; EpTryAggregateStatic; EpTryAggregateStatic3; EpCodeLengths;
   EpBalances; EpAddressesData; EpChainData].

(** ** Scripted collaborators

    A family of concrete collaborators on which the engine runs by
    computation.  The encoder writes one byte for each argument it is handed
    ([01] and [00] for the booleans, [ff] for anything else); the answers of
    the codec and of the RPC client are read from a [Script]. *)
Module Sample.

Inductive NetworkRecord : Type :=
| NoRecord
| OfTx (tx : option bytes) (from : Address) (blockNumber : option Z)
| OfCall (msg : CallMsg) (blockNumber : option Z).

Record Script : Type := mkScript {
  onDecode : types -> bytes -> list any * option error;
  onDecodeWithSignature : bytes -> list any * option error;
  onRevertData : bytes * bool;
  onCreate : option error;
  onDryRun : bytes * option error;
  onBlockNumber : Z * option error;
  onSend : option Receipt * option error;
  onRead : bytes * option error;
  onCode : bytes
}.

Definition argByte (a : any) : byte :=
  match a with
  | Bool true => x01
  | Bool false => x00
  | _ => xff
  end.

Definition world (s : Script) : Collaborators := {|
  Transaction := bytes;
  TxOrCall := NetworkRecord;
  zeroTxOrCall := NoRecord;
  ZERO_ADDRESS := 0;
  OMNES_MULTICALL_ADDRESS := 51966;
  abi_EncodeWithSignature := fun _ args => (map argByte args, None);
  abi_Decode := onDecode s;
  abi_DecodeWithSignature := fun _ data => onDecodeWithSignature s data;
  parseRevertData := fun _ => onRevertData s;
  toAnyArray := fun l =>
    Slice (map (fun a => match a with Some x => Addr x | None => Nil end) l);
  FromTxToTxOrCall := OfTx;
  FromCallToTxOrCall := OfCall;
  rpc_createTransaction := fun _ _ _ data => (Some data, onCreate s);
  rpc_ChainID := (Some 1, None);
  rpc_CallContract := fun _ _ => onDryRun s;
  rpc_BlockNumber := onBlockNumber s;
  rpc_CodeAt := fun _ _ => (onCode s, None);
  rpc_sendSignedTransaction := fun _ => onSend s;
  rpc_readContract := fun from to data _ =>
    (fst (onRead s), mkCallMsg from to data, snd (onRead s));
  rpc_deployless := fun which _ =>
    mkResult true (Slice []) None NoRecord
|}.

(** The payload [01] decodes to the number 5 under [uint256]; an outer
    response decodes to the list of the one-byte payloads it is made of, each
    paired with a success flag under [(bool,bytes)[]]. *)
Definition decodeOuter (t : types) (data : bytes) : list any * option error :=
  match t with
  | Some ["uint256"] => ([BigInt 5], None)
  | Some ["bytes[]"] => ([Slice (map (fun b => Bytes [b]) data)], None)
  | Some ["(bool,bytes)[]"] =>
      ([Slice (map (fun b => Slice [Bool true; Bytes [b]]) data)], None)
  | _ => ([], Some (ErrText "abi: cannot decode"))
  end.

(** Every collaborator answers without error; the batching contract answers
    two payloads. *)
Definition quiet : Script := {|
  onDecode := decodeOuter;
  onDecodeWithSignature := fun _ => ([], Some (ErrText "abi: cannot decode"));
  onRevertData := ([], false);
  onCreate := None;
  onDryRun := ([x01; x01], None);
  onBlockNumber := (100, None);
  onSend := (Some (mkReceipt 1 (Some 101)), None);
  onRead := ([x01; x01], None);
  onCode := [x60]
|}.

(** A simulation: the transport reports the revert that carries the
    per-call triples. *)
Definition reverting : Script := {|
  onDecode := decodeOuter;
  onDecodeWithSignature := fun _ =>
    ([Slice [Slice [Bool true; Bytes [xab]; BigInt 21000];
             Slice [Bool false; Bytes []; BigInt 9521]]], None);
  onRevertData := ([x01], true);
  onCreate := None;
  onDryRun := ([x01; x01], None);
  onBlockNumber := (100, None);
  onSend := (Some (mkReceipt 1 (Some 101)), None);
  onRead := ([], Some (ErrText "execution reverted: MultiCall__Simulation"));
  onCode := [x60]
|}.

(** A mutating batch whose dry run fails. *)
Definition dryRunFails : Script := {|
  onDecode := decodeOuter;
  onDecodeWithSignature := fun _ => ([], Some (ErrText "abi: cannot decode"));
  onRevertData := ([], false);
  onCreate := None;
  onDryRun := ([], Some (ErrText "execution reverted: insufficient balance"));
  onBlockNumber := (100, None);
  onSend := (Some (mkReceipt 1 (Some 101)), None);
  onRead := ([x01; x01], None);
  onCode := [x60]
|}.

(** A mutating batch whose broadcast fails and leaves no receipt. *)
Definition sendFails : Script := {|
  onDecode := decodeOuter;
  onDecodeWithSignature := fun _ => ([], Some (ErrText "abi: cannot decode"));
  onRevertData := ([], false);
  onCreate := None;
  onDryRun := ([x01; x01], None);
  onBlockNumber := (100, None);
  onSend := (None, Some (ErrText "nonce too low"));
  onRead := ([x01; x01], None);
  onCode := [x60]
|}.

(** A mutating batch mined with status 0. *)
Definition minedFailed : Script := {|
  onDecode := decodeOuter;
  onDecodeWithSignature := fun _ => ([], Some (ErrText "abi: cannot decode"));
  onRevertData := ([], false);
  onCreate := None;
  onDryRun := ([x01; x01], None);
  onBlockNumber := (100, None);
  onSend := (Some (mkReceipt 0 (Some 101)), None);
  onRead := ([x01; x01], None);
  onCode := [x60]
|}.

(** A mutating batch whose dry run decodes to no value at all. *)
Definition emptyAnswer : Script := {|
  onDecode := fun _ _ => ([], None);
  onDecodeWithSignature := fun _ => ([], Some (ErrText "abi: cannot decode"));
  onRevertData := ([], false);
  onCreate := None;
  onDryRun := ([], None);
  onBlockNumber := (100, None);
  onSend := (Some (mkReceipt 1 (Some 101)), None);
  onRead := ([], None);
  onCode := [x60]
|}.

(** The batching contract answers one payload, whatever was asked. *)
Definition shortAnswer : Script := {|
  onDecode := decodeOuter;
  onDecodeWithSignature := fun _ => ([], Some (ErrText "abi: cannot decode"));
  onRevertData := ([], false);
  onCreate := None;
  onDryRun := ([x01], None);
  onBlockNumber := (100, None);
  onSend := (Some (mkReceipt 1 (Some 101)), None);
  onRead := ([x01], None);
  onCode := [x60]
|}.

(** The batching contract answers an empty array. *)
Definition emptyRead : Script := {|
  onDecode := decodeOuter;
  onDecodeWithSignature := fun _ => ([], Some (ErrText "abi: cannot decode"));
  onRevertData := ([], false);
  onCreate := None;
  onDryRun := ([], None);
  onBlockNumber := (100, None);
  onSend := (Some (mkReceipt 1 (Some 101)), None);
  onRead := ([], None);
  onCode := [x60]
|}.

(** Two calls to [balanceOf(address)], with and without declared return
    types. *)
Definition arrayfied : any :=
  Slice [Slice [Addr 7; Bytes [x70]]; Slice [Addr 7; Bytes [x70]]].

Definition twoCalls : CallsInterface :=
  mkCalls 2 (fun _ => Some ["uint256"]) (fun _ _ => (arrayfied, None, None)).

Definition twoUntypedCalls : CallsInterface :=
  mkCalls 2 (fun _ => None) (fun _ _ => (arrayfied, None, None)).

Definition noCalls : CallsInterface :=
  mkCalls 0 (fun _ => None) (fun _ _ => (Slice [], None, None)).

Definition signer (s : Script) : @SignerInterface (world s) :=
  @mkSigner (world s) (Some 9) (fun tx _ => (tx, None)).

Definition deployed (s : Script) : @MultiCall (world s) :=
  @mkMultiCall (world s) (Some 51966) (Some (signer s)).

Definition undeployed (s : Script) : @MultiCall (world s) :=
  @mkMultiCall (world s) None (Some (signer s)).

(** The transport is down. *)
Definition transportDown : Script := {|
  onDecode := decodeOuter;
  onDecodeWithSignature := fun _ => ([], Some (ErrText "abi: cannot decode"));
  onRevertData := ([], false);
  onCreate := None;
  onDryRun := ([], Some (ErrText "connection refused"));
  onBlockNumber := (100, None);
  onSend := (None, Some (ErrText "connection refused"));
  onRead := ([], Some (ErrText "connection refused"));
  onCode := [x60]
|}.

(** A broadcast that fails and still hands back a receipt. *)
Definition sendRejected : Script := {|
  onDecode := decodeOuter;
  onDecodeWithSignature := fun _ => ([], Some (ErrText "abi: cannot decode"));
  onRevertData := ([], false);
  onCreate := None;
  onDryRun := ([x01; x01], None);
  onBlockNumber := (100, None);
  onSend := (Some (mkReceipt 0 (Some 101)), Some (ErrText "nonce too low"));
  onRead := ([x01; x01], None);
  onCode := [x60]
|}.

(** No bytecode at the well-known address. *)
Definition noContract : Script := {|
  onDecode := decodeOuter;
  onDecodeWithSignature := fun _ => ([], Some (ErrText "abi: cannot decode"));
  onRevertData := ([], false);
  onCreate := None;
  onDryRun := ([x01; x01], None);
  onBlockNumber := (100, None);
  onSend := (Some (mkReceipt 1 (Some 101)), None);
  onRead := ([x01; x01], None);
  onCode := []
|}.

(** A call set that cannot be normalized, one call that declares [uint256],
    and a signer that has no address. *)
Definition badCalls : CallsInterface :=
  mkCalls 1 (fun _ => Some ["uint256"])
    (fun _ _ => (Nil, None, Some (ErrText "nil target address"))).

Definition oneCall : CallsInterface :=
  mkCalls 1 (fun _ => Some ["uint256"])
    (fun _ _ => (Slice [Slice [Addr 7; Bytes [x70]]], None, None)).

Definition anonymous (s : Script) : @SignerInterface (world s) :=
  @mkSigner (world s) None (fun tx _ => (tx, None)).

(** Two calls whose second declares a type the codec does not decode. *)
Definition mixedCalls : CallsInterface :=
  mkCalls 2 (fun i => match i with
                      | O => Some ["uint256"]
                      | S _ => Some ["string"]
                      end)
    (fun _ _ => (arrayfied, None, None)).

(** The answer decodes, and the block-number lookup that follows fails. *)
Definition lookupFails : Script := {|
  onDecode := decodeOuter;
  onDecodeWithSignature := fun _ => ([], Some (ErrText "abi: cannot decode"));
  onRevertData := ([], false);
  onCreate := None;
  onDryRun := ([x01; x01], None);
  onBlockNumber := (0, Some (ErrText "header not found"));
  onSend := (Some (mkReceipt 1 (Some 101)), None);
  onRead := ([x01; x01], None);
  onCode := [x60]
|}.

(** Two calls whose serialization follows the flags: the value is a third
    field when [includeValue] is set, the failure flag a last field when
    [useFailureShape] is set. *)
Definition tupleOf (includeValue useFailureShape : bool) : any :=
  Slice ([Addr 7; Bytes [x70]]
           ++ (if includeValue then [BigInt 5] else [])
           ++ (if useFailureShape then [Bool true] else [])).

Definition valuedCalls : CallsInterface :=
  mkCalls 2 (fun _ => Some ["uint256"])
    (fun includeValue useFailureShape =>
       (Slice [tupleOf includeValue useFailureShape;
               tupleOf includeValue useFailureShape],
        if includeValue then Some 10 else None,
        None)).

(** The scripted collaborators, with a dry run that answers by the message
    it is given. *)
Definition worldWithDryRun (s : Script) (dryRun : CallMsg -> bytes * option error)
    : Collaborators := {|
  Transaction := bytes;
  TxOrCall := NetworkRecord;
  zeroTxOrCall := NoRecord;
  ZERO_ADDRESS := 0;
  OMNES_MULTICALL_ADDRESS := 51966;
  abi_EncodeWithSignature := fun _ args => (map argByte args, None);
  abi_Decode := onDecode s;
  abi_DecodeWithSignature := fun _ data => onDecodeWithSignature s data;
  parseRevertData := fun _ => onRevertData s;
  toAnyArray := fun l =>
    Slice (map (fun a => match a with Some x => Addr x | None => Nil end) l);
  FromTxToTxOrCall := OfTx;
  FromCallToTxOrCall := OfCall;
  rpc_createTransaction := fun _ _ _ data => (Some data, onCreate s);
  rpc_ChainID := (Some 1, None);
  rpc_CallContract := fun msg _ => dryRun msg;
  rpc_BlockNumber := onBlockNumber s;
  rpc_CodeAt := fun _ _ => (onCode s, None);
  rpc_sendSignedTransaction := fun _ => onSend s;
  rpc_readContract := fun from to data _ =>
    (fst (onRead s), mkCallMsg from to data, snd (onRead s));
  rpc_deployless := fun which _ =>
    mkResult true (Slice []) None NoRecord
|}.

(** The call reverts for the sender 9 and goes through for every other. *)
Definition revertsForNine (msg : CallMsg) : bytes * option error :=
  if From msg =? 9
  then ([], Some (ErrText "execution reverted: insufficient balance"))
  else ([x01; x01], None).

End Sample.


(** ** Vocabulary of further properties *)

(** A request that reads the chain and changes nothing. *)
Definition isStateless {W : Collaborators} (e : Event) : bool :=
  match e with
  | EvReadContract _ _ _ _ => true
  | EvBlockNumber => true
  | _ => false
  end.

Definition isSlice (v : any) : bool :=
  match v with
  | Slice _ => true
  | _ => false
  end.

Definition isMutating (ep : EntryPoint) : bool :=
  match ep with
  | EpAggregateCalls | EpTryAggregateCalls | EpTryAggregateCalls3 => true
  | _ => false
  end.

Definition isMetadata (ep : EntryPoint) : bool :=
  match ep with
  | EpCodeLengths | EpBalances | EpAddressesData | EpChainData => true
  | _ => false
  end.

(** The signature each entry point hands to the encoder on a deployed
    contract, and the arguments that go with it: the tuple array, followed
    by [requireSuccess] for the two entry points that take one; for a
    metadata query the address array, or nothing when the address list is
    nil. *)
Definition signatureOf (ep : EntryPoint) : string :=
  match ep with
  | EpAggregateCalls => "aggregateCalls((address,bytes,uint256)[])"
  | EpTryAggregateCalls => "tryAggregateCalls((address,bytes,uint256)[],bool)"
  | EpTryAggregateCalls3 => "tryAggregateCalls((address,bytes,uint256,bool)[])"
  | EpSimulateCall => "simulateCalls((address,bytes)[])"
  | EpAggregateStatic => "aggregateStatic((address,bytes)[])"
  | EpTryAggregateStatic => "tryAggregateStatic((address,bytes)[],bool)"
  | EpTryAggregateStatic3 => "tryAggregateStatic((address,bytes,bool)[])"
  | EpCodeLengths => "getCodeLengths(address[])"
  | EpBalances => "getBalances(address[])"
  | EpAddressesData => "getAddressesData(address[])"
  | EpChainData => "getChainData()"
  end.

Definition argumentsOf {W : Collaborators} (ep : EntryPoint) (a : Args)
    (arrayfiedCalls : any) : list any :=
  match ep with
  | EpTryAggregateCalls | EpTryAggregateStatic =>
      [arrayfiedCalls; Bool (a_requireSuccess a)]
  | EpAggregateCalls | EpTryAggregateCalls3 | EpSimulateCall | EpAggregateStatic
  | EpTryAggregateStatic3 => [arrayfiedCalls]
  | EpCodeLengths | EpBalances | EpAddressesData =>
      match a_addresses a with
      | Some l => [toAnyArray l]
      | None => []
      end
  | EpChainData => []
  end.

(** The errors a mutating dispatch hands back as it got them. *)
Definition collaboratorError {W : Collaborators} (calls : CallsInterface)
    (signer : SignerInterface) (withValue isMultiCall3Type : bool) (err : error)
    : Prop :=
  snd (ToArray calls withValue isMultiCall3Type) = Some err \/
  (exists funcSignature args, snd (abi_EncodeWithSignature funcSignature args) = Some err) \/
  (exists from to value data, snd (rpc_createTransaction from to value data) = Some err) \/
  snd rpc_ChainID = Some err \/
  (exists tx chainId, snd (SignTx signer tx chainId) = Some err) \/
  snd rpc_BlockNumber = Some err.

(** ** Vocabulary of the responses *)

(** The flag [read] hands to [makeCall]: cleared for the two
    [tryAggregateStatic] signatures. *)
Definition simulates (funcSignature : string) (isSimulation : bool) : bool :=
  if (funcSignature =? "tryAggregateStatic((address,bytes,bool)[])")%string then false
  else if (funcSignature =? "tryAggregateStatic((address,bytes)[],bool)")%string
       then false
       else isSimulation.

(** [raw] is what a read helper decodes: the call set is serialized with the
    flags of the helper and encoded under the signature, the encoding is
    read from the contract without error, and the answer decodes to [raw]
    under the outer return types.  In simulate mode nothing is decoded and
    [raw] is the empty list. *)
Definition readsResponse {W : Collaborators} (p : Path) (calls : CallsInterface)
    (requireSuccess : bool) (to : option Address) (funcSignature : string)
    (txReturnTypes : types) (blockNumber : option Z) (simulation : bool)
    (raw : list any) : Prop :=
  exists arrayfiedCalls msgValue callData,
    ToArray calls (match p with ViaRead => false | _ => true end) false
      = (arrayfiedCalls, msgValue, None) /\
    encodingOf funcSignature
      (encoderArguments p funcSignature arrayfiedCalls requireSuccess)
      = Some callData /\
    if simulation then raw = []
    else snd (rpc_readContract ZERO_ADDRESS to callData blockNumber) = None /\
         abi_Decode txReturnTypes
           (fst (fst (rpc_readContract ZERO_ADDRESS to callData blockNumber)))
         = (raw, None).

(** [raw] and [receipt] are what a mutating dispatch got: the answer of its
    dry run (made from the signer's address, on the target and the calldata
    of the transaction) decodes to [raw], and [receipt] is what the broadcast
    of the signed transaction returned. *)
Definition dryRunAndReceipt {W : Collaborators} (calls : CallsInterface)
    (requireSuccess : bool) (signer : SignerInterface) (to : option Address)
    (funcSignature : string) (txReturnTypes : types)
    (withValue isMultiCall3Type : bool) (raw : list any) (receipt : Receipt) : Prop :=
  exists arrayfiedCalls msgValue callData from tx chainId signedTx,
    ToArray calls withValue isMultiCall3Type = (arrayfiedCalls, msgValue, None) /\
    encodingOf funcSignature
      (encoderArguments ViaWrite funcSignature arrayfiedCalls requireSuccess)
      = Some callData /\
    GetAddress signer = Some from /\
    rpc_createTransaction (Some from) to msgValue callData = (tx, None) /\
    rpc_ChainID = (chainId, None) /\
    SignTx signer tx chainId = (signedTx, None) /\
    snd (rpc_CallContract (mkCallMsg from to callData) None) = None /\
    abi_Decode txReturnTypes (fst (rpc_CallContract (mkCallMsg from to callData) None))
      = (raw, None) /\
    rpc_sendSignedTransaction signedTx = (Some receipt, None).

(** The value a metadata read decodes. *)
Definition metadataResponse {W : Collaborators}
    (addresses : option (list (option Address))) (to : option Address)
    (funcSignature : string) (returnTypes : types) (blockNumber : option Z)
    (raw : list any) : Prop :=
  exists callData,
    encodingOf funcSignature
      match addresses with
      | Some l => [toAnyArray l]
      | None => []
      end = Some callData /\
    snd (rpc_readContract ZERO_ADDRESS to callData blockNumber) = None /\
    abi_Decode returnTypes
      (fst (fst (rpc_readContract ZERO_ADDRESS to callData blockNumber)))
    = (raw, None).

(** The entries of [perCall] follow the slots of [matched]: as many, and the
    entry at each index is the slot at that index under the return types
    declared for that position. *)
Definition entriesFollow {W : Collaborators} (calls : CallsInterface)
    (matched perCall : list any) : Prop :=
  List.length perCall = List.length matched /\
  forall i res, nth_error matched i = Some res ->
    exists o, nth_error perCall i = Some o /\
              slotOutput (GetReturnTypes calls i) res = Some o.

(** The requests of a dispatch that sends [sent] in one read, or nothing. *)
Definition oneRead {W : Collaborators} (to : option Address) (blockNumber : option Z)
    (sent : option bytes) (t : list Event) : Prop :=
  match sent with
  | None => t = []
  | Some callData =>
      t = [EvReadContract ZERO_ADDRESS to callData blockNumber] \/
      (blockNumber = None /\
       t = [EvReadContract ZERO_ADDRESS to callData None; EvBlockNumber])
  end.


(** The calldata a dispatch puts on the wire on a deployed contract, if it
    gets that far: the encoding, under the signature of the entry point, of
    its arguments.  The call set is serialized with [includeValue] set on
    the three mutating entry points only, and never in the failure shape;
    nothing is sent when it cannot be serialized or when the encoder
    fails.  A metadata query has no call set to serialize. *)
Definition wireCalldata {W : Collaborators} (ep : EntryPoint) (a : Args)
    : option bytes :=
  if isMetadata ep
  then encodingOf (signatureOf ep) (argumentsOf ep a Nil)
  else
    let '(arrayfiedCalls, _, err) := ToArray (a_calls a) (isMutating ep) false in
    match err with
    | Some _ => None
    | None => encodingOf (signatureOf ep) (argumentsOf ep a arrayfiedCalls)
    end.
(** ** Properties *)

(** *** Count matching *)

(** Induction along first elements. *)
Lemma any_first_ind (P : any -> Prop) :
  (forall v, (forall l, v <> Slice l) -> P v) ->
  P (Slice []) ->
  (forall first rest, P first -> P (Slice (first :: rest))) ->
  forall v, P v.
Proof.
  intros Hatom Hnil Hcons. fix IH 1. intros v.
  destruct v as [ | b | b | s | z | a | l | r ];
    try (apply Hatom; intros l' Heq; discriminate Heq).
  destruct l as [ | first rest ].
  - exact Hnil.
  - apply Hcons. apply IH.
Qed.

Lemma descend_find (n : Z) (v : any) :
  match find (hasCount n) (spine v) with
  | Some l => descend n v = Returns l
  | None => exists p, descend n v = Panics p
  end.
Proof.
  induction v as [ v Hatom | | first rest IH ] using any_first_ind.
  - destruct v; try (cbn; eexists; reflexivity). exfalso. eapply Hatom. reflexivity.
  - cbn [spine find descend]. unfold hasCount.
    destruct (len (@nil any) =? n); cbn [negb]; [reflexivity | eexists; reflexivity].
  - cbn [descend spine find]. unfold hasCount at 1.
    destruct (len (first :: rest) =? n); cbn [negb]; [reflexivity | exact IH].
Qed.

Lemma find_hasCount (n : Z) (ls : list (list any)) (l : list any) :
  find (hasCount n) ls = Some l -> len l = n.
Proof.
  intros H. apply find_some in H. destruct H as [_ H].
  unfold hasCount in H. apply Z.eqb_eq in H. exact H.
Qed.

Lemma unwrap_returns_iff (n : Z) (decoded l : list any) :
  unwrap n decoded = Returns l <->
  find (hasCount n) (spine (Slice decoded)) = Some l.
Proof.
  unfold unwrap. pose proof (descend_find n (Slice decoded)) as H.
  destruct (find (hasCount n) (spine (Slice decoded))) as [l'|].
  - rewrite H. split; intros E; inversion E; reflexivity.
  - destruct H as [p H]. rewrite H. split; intros E; discriminate E.
Qed.

Lemma unwrap_length (n : Z) (decoded l : list any) :
  unwrap n decoded = Returns l -> len l = n.
Proof.
  intros H. apply unwrap_returns_iff in H. eapply find_hasCount. exact H.
Qed.

Lemma spine_ends_before_a_non_list (v : any) :
  forall first rest, last (spine v) [] = first :: rest -> isSlice first = false.
Proof.
  induction v as [ v Hatom | | head tail IH ] using any_first_ind;
    intros first rest Hlast.
  - destruct v; try discriminate Hlast. exfalso. eapply Hatom. reflexivity.
  - discriminate Hlast.
  - cbn [spine] in Hlast.
    destruct (spine head) as [ | l ls ] eqn:Hspine.
    + cbn in Hlast. inversion Hlast; subst.
      destruct first; try reflexivity. discriminate Hspine.
    + apply (IH first rest). exact Hlast.
Qed.

Lemma descend_abort (n : Z) (v : any) :
  find (hasCount n) (spine v) = None ->
  descend n v = Panics match v with
                       | Slice _ =>
                           match last (spine v) [] with
                           | [] => IndexOutOfRange
                           | _ :: _ => TypeAssertion
                           end
                       | _ => TypeAssertion
                       end.
Proof.
  induction v as [ v Hatom | | head tail IH ] using any_first_ind; intros Hnone.
  - destruct v; try reflexivity. exfalso. eapply Hatom. reflexivity.
  - cbn [spine find] in Hnone. cbn [descend spine last].
    unfold hasCount in Hnone.
    destruct (len (@nil any) =? n); [discriminate Hnone | reflexivity].
  - cbn [spine find] in Hnone. cbn [descend].
    unfold hasCount at 1 in Hnone.
    destruct (len (head :: tail) =? n); [discriminate Hnone |].
    cbn [negb]. rewrite (IH Hnone). cbn [spine].
    destruct head; reflexivity.
Qed.

(** C1, as amended.  The count-matching loop always ends.  It returns the
    first list on the first-element spine of the decoded response whose
    count is [C.Len()], and that list has this count.  When the spine has no
    such list the loop yields nothing and ends in a panic: index out of
    range when the spine ends in an empty list, and a failed [[]any]
    assertion when it ends in a list whose first element is not a list. *)
Theorem unwrap_returns_first_matching (n : Z) (decoded : list any) :
  (forall l, unwrap n decoded = Returns l <->
             find (hasCount n) (spine (Slice decoded)) = Some l) /\
  (forall l, unwrap n decoded = Returns l -> len l = n) /\
  (find (hasCount n) (spine (Slice decoded)) = None ->
   unwrap n decoded = Panics match last (spine (Slice decoded)) [] with
                             | [] => IndexOutOfRange
                             | _ :: _ => TypeAssertion
                             end) /\
  (forall first rest,
     last (spine (Slice decoded)) [] = first :: rest -> isSlice first = false).
Proof.
  split; [intros l; apply unwrap_returns_iff |].
  split; [intros l; apply unwrap_length |].
  split; [intros Hnone; exact (descend_abort n (Slice decoded) Hnone) |].
  apply spine_ends_before_a_non_list.
Qed.

Example unwrap_one_level :
  unwrap 2 [Slice [Bytes [x01]; Bytes [x02]]] = Returns [Bytes [x01]; Bytes [x02]].
Proof. reflexivity. Qed.

(** C1, as stated, fails: two calls were submitted and the batching contract
    answered with one payload; the loop goes past the per-call array into the
    payload itself and the type assertion panics, and so does the static
    aggregate that runs it. *)
Lemma unwrap_mismatch_panics :
  unwrap 2 [Slice [Bytes [x01]]] = Panics TypeAssertion /\
  ~ (exists l, unwrap 2 [Slice [Bytes [x01]]] = Returns l /\ len l = 2) /\
  @abi_Decode (Sample.world Sample.shortAnswer) (Some ["bytes[]"]) [x01]
    = ([Slice [Bytes [x01]]], None) /\
  @AggregateStatic (Sample.world Sample.shortAnswer) (Sample.deployed _)
     Sample.twoCalls None
    = ([EvReadContract 0 (Some 51966) [xff] None], Panics TypeAssertion).
Proof.
  split; [reflexivity |]. split; [| split; reflexivity].
  intros [l [H _]]. vm_compute in H. discriminate H.
Qed.

(** *** Order of the per-call results *)

Lemma declared_types_test (t : types) :
  (match t with Some _ => true | None => false end || (0 <? len_types t)) = isSome t.
Proof.
  destruct t as [l|]; reflexivity.
Qed.

Lemma decodeSlots_invariant {W : Collaborators} (calls : CallsInterface) :
  forall (slots : list any) (i : nat) (acc out : list any),
    decodeSlots calls i slots acc = Returns (out, None) ->
    exists outs,
      out = acc ++ outs /\
      List.length outs = List.length slots /\
      forall k res, nth_error slots k = Some res ->
        exists o, nth_error outs k = Some o /\
                  slotOutput (GetReturnTypes calls (i + k)) res = Some o.
Proof.
  induction slots as [ | res rest IH ]; intros i acc out H.
  - cbn in H. inversion H; subst. exists []. rewrite app_nil_r.
    repeat split. intros [|k] res Hk; discriminate Hk.
  - cbn [decodeSlots] in H. rewrite declared_types_test in H.
    assert (Hstep : exists o,
               decodeSlots calls (S i) rest (acc ++ [o]) = Returns (out, None) /\
               slotOutput (GetReturnTypes calls i) res = Some o).
    { destruct (GetReturnTypes calls i) as [ts|] eqn:Hts; cbn [isSome] in H;
        destruct res; try discriminate H;
        try (eexists; split; [exact H | reflexivity]).
      cbn [slotOutput].
      destruct (abi_Decode (Some ts) b) as [decodedR [e|]]; [discriminate H |].
      eexists; split; [exact H | reflexivity]. }
    destruct Hstep as [o [Hrest Ho]].
    destruct (IH _ _ _ Hrest) as [outs [Hout [Hlen Hnth]]].
    exists (o :: outs). split; [| split].
    + rewrite Hout, <- app_assoc. reflexivity.
    + cbn. rewrite Hlen. reflexivity.
    + intros [|k] r Hk.
      * cbn in Hk. inversion Hk; subst. exists o.
        rewrite Nat.add_0_r. split; [reflexivity | exact Ho].
      * cbn in Hk. destruct (Hnth _ _ Hk) as [o' [Ho' Hs]].
        exists o'. split; [exact Ho' |].
        replace (i + S k)%nat with (S i + k)%nat by lia. exact Hs.
Qed.

(** *** The signer gate of the mutating entry points *)

(** C9.  With no signer and [isCall = false], each of [AggregateCalls],
    [TryAggregateCalls] and [TryAggregateCalls3] returns the failure
    "no signer configured" and issues no network request, whatever the
    contract address.  With [isCall = true] the signer is not consulted:
    the run is the same for every signer, and on a deployed contract it is
    the read-style dispatch. *)
Theorem nil_signer_is_refused_unless_call {W : Collaborators}
    (contract : option Address) (deployedAt : Address) (calls : CallsInterface)
    (requireSuccess : bool) (blockNumber : option Z) :
  let unsigned := mkMultiCall contract None in
  let refused : M Result :=
    ([], Returns (mkResult false Nil (Some (ErrText "no signer configured"))
                           zeroTxOrCall)) in
  (AggregateCalls unsigned calls blockNumber false = refused /\
   TryAggregateCalls unsigned calls requireSuccess blockNumber false = refused /\
   TryAggregateCalls3 unsigned calls blockNumber false = refused) /\
  (forall signer : option SignerInterface,
     let signed := mkMultiCall contract signer in
     AggregateCalls unsigned calls blockNumber true =
       AggregateCalls signed calls blockNumber true /\
     TryAggregateCalls unsigned calls requireSuccess blockNumber true =
       TryAggregateCalls signed calls requireSuccess blockNumber true /\
     TryAggregateCalls3 unsigned calls blockNumber true =
       TryAggregateCalls3 signed calls blockNumber true) /\
  (let live := mkMultiCall (Some deployedAt) None in
   AggregateCalls live calls blockNumber true =
     asRead calls false (Some deployedAt) "aggregateCalls((address,bytes,uint256)[])"
            (Some ["bytes[]"]) blockNumber /\
   TryAggregateCalls live calls requireSuccess blockNumber true =
     asRead calls requireSuccess (Some deployedAt)
            "tryAggregateCalls((address,bytes,uint256)[],bool)"
            (Some ["(bool,bytes)[]"]) blockNumber /\
   TryAggregateCalls3 live calls blockNumber true =
     asRead calls false (Some deployedAt)
            "tryAggregateCalls((address,bytes,uint256,bool)[])"
            (Some ["(bool,bytes)[]"]) blockNumber).
Proof.
  cbv zeta. split; [| split].
  - repeat split.
  - intros signer. destruct signer as [s|]; destruct contract as [c|]; repeat split.
  - repeat split.
Qed.

(** *** The deployless fallback *)

Lemma deploylessOf_invoke {W : Collaborators} (ep : EntryPoint) (which : Deployless)
    (m : MultiCall) (a : Args) :
  deploylessOf ep = Some which ->
  ContractAddress m = None ->
  exists args, invoke ep m a = deployless which args.
Proof.
  intros Hep Hnil.
  destruct ep; cbn in Hep; inversion Hep; subst; cbn [invoke];
    unfold SimulateCall, AggregateStatic, TryAggregateStatic, TryAggregateStatic3,
           CodeLengths, Balances, AddressesData, ChainData;
    rewrite Hnil; cbn [isNil isSome negb]; eexists; reflexivity.
Qed.

Lemma mutating_without_contract {W : Collaborators} (ep : EntryPoint)
    (m : MultiCall) (a : Args) :
  deploylessOf ep = None ->
  ContractAddress m = None ->
  trace (invoke ep m a) = [] /\
  exists e, result (invoke ep m a) = Returns (failure e zeroTxOrCall).
Proof.
  intros Hep Hnil.
  destruct ep; cbn in Hep; try discriminate Hep; cbn [invoke];
    unfold AggregateCalls, TryAggregateCalls, TryAggregateCalls3;
    rewrite Hnil; cbn [isNil isSome negb];
    destruct (isNil (Signer m) && negb (a_isCall a));
    (split; [reflexivity | eexists; reflexivity]).
Qed.

Lemma usesDeployless_iff (ep : EntryPoint) :
  usesDeployless ep <-> deploylessOf ep <> None.
Proof.
  split.
  - intros Huses Hnone.
    pose (W := Sample.world Sample.quiet).
    pose (m := @mkMultiCall W None None).
    pose (a := @mkArgs Sample.twoCalls None false None false).
    destruct (Huses W m a eq_refl) as [which [args Hrun]].
    destruct (@mutating_without_contract W ep m a Hnone eq_refl) as [Htrace _].
    rewrite Hrun in Htrace. discriminate Htrace.
  - intros Hsome W m a Hnil.
    destruct (deploylessOf ep) as [which|] eqn:Hep; [| contradiction].
    exists which. eapply deploylessOf_invoke; eassumption.
Qed.

(** C7, as amended.  Eight public entry points have a deployless variant:
    [SimulateCall], the three static aggregates and the four metadata
    queries.  Each of them runs its deployless function, and nothing else,
    whenever the contract address is nil; the address is nil exactly when the
    constructor found no bytecode at the well-known address.  The three
    mutating entry points have no such variant: on a nil address they return
    a failure without any network request. *)
Theorem eight_entry_points_fall_back :
  (forall ep, usesDeployless ep <-> deploylessOf ep <> None) /\
  List.length (filter (fun ep => isSome (deploylessOf ep)) entryPoints) = 8%nat /\
  List.length (filter (fun ep => isNil (deploylessOf ep)) entryPoints) = 3%nat /\
  (forall (W : Collaborators) ep which m a,
     deploylessOf ep = Some which -> ContractAddress m = None ->
     exists args, invoke ep m a = deployless which args) /\
  (forall (W : Collaborators) ep m a,
     deploylessOf ep = None -> ContractAddress m = None ->
     trace (invoke ep m a) = [] /\
     exists e, result (invoke ep m a) = Returns (failure e zeroTxOrCall)) /\
  (forall (W : Collaborators) signer m,
     result (NewMultiCall signer) = Returns (Some m, None) ->
     (ContractAddress m = None <->
      len (fst (rpc_CodeAt OMNES_MULTICALL_ADDRESS None)) = 0)).
Proof.
  split; [exact usesDeployless_iff |].
  split; [reflexivity |]. split; [reflexivity |].
  split; [intros; eapply deploylessOf_invoke; eassumption |].
  split; [intros; eapply mutating_without_contract; eassumption |].
  intros W signer m H. unfold NewMultiCall, CodeAt, bind, request, ret, result in H.
  destruct (rpc_CodeAt OMNES_MULTICALL_ADDRESS None) as [bytecode [e|]];
    cbn in H; [discriminate H |].
  inversion H; subst; clear H. cbn [fst ContractAddress].
  destruct (len bytecode =? 0) eqn:Hlen.
  - apply Z.eqb_eq in Hlen. split; intros _; [exact Hlen | reflexivity].
  - apply Z.eqb_neq in Hlen. split; intros H; [discriminate H | contradiction].
Qed.

Example undeployed_static_runs_deployless :
  @AggregateStatic (Sample.world Sample.quiet) (Sample.undeployed _) Sample.twoCalls None
    = ([EvDeployless DlAggregateStatic (mkDlArgs (Some Sample.twoCalls) None false None)],
       Returns (mkResult true (Slice []) None Sample.NoRecord)).
Proof. reflexivity. Qed.

Example undeployed_transaction_is_refused :
  @AggregateCalls (Sample.world Sample.quiet) (Sample.undeployed _) Sample.twoCalls None
     false
    = ([], Returns (mkResult false Nil
                      (Some (ErrText "no multicall contract on this chain"))
                      Sample.NoRecord)).
Proof. reflexivity. Qed.

(** C7, as stated, fails: no list of three entry points holds all those that
    use the deployless fallback. *)
Lemma deployless_variants_are_not_three :
  ~ (exists l : list EntryPoint,
       NoDup l /\ List.length l = 3%nat /\ forall ep, In ep l <-> usesDeployless ep).
Proof.
  intros [l [Hnodup [Hlen Hin]]].
  pose (four := [EpSimulateCall; EpAggregateStatic; EpCodeLengths; EpChainData]).
  assert (Hincl : incl four l).
  { intros ep Hep. apply Hin. apply usesDeployless_iff.
    cbn in Hep. destruct Hep as [<-|[<-|[<-|[<-|[]]]]]; discriminate. }
  assert (Hfour : NoDup four).
  { unfold four. repeat constructor; cbn; intuition discriminate. }
  pose proof (NoDup_incl_length Hfour Hincl) as Hle.
  rewrite Hlen in Hle. cbn in Hle. lia.
Qed.

(** *** Success and error of the read paths *)

Lemma failure_flag {W : Collaborators} (e : error) (t : TxOrCall) :
  flagMatchesError (failure e t).
Proof.
  unfold flagMatchesError. cbn. split; intros H; discriminate H.
Qed.

Lemma parseResults_flag {W : Collaborators} d (v : any) (t : TxOrCall) :
  flagMatchesError (parseResults d true v t).
Proof.
  unfold flagMatchesError, parseResults.
  destruct (0 <? len d); cbn; split; reflexivity.
Qed.

Ltac returned H :=
  cbn in H; inversion H; subst; clear H;
  first [ apply failure_flag | apply parseResults_flag
        | unfold flagMatchesError; cbn; split; reflexivity ].

Lemma asRead_flag {W : Collaborators} calls requireSuccess to funcSignature
    txReturnTypes blockNumber (r : Result) :
  result (asRead calls requireSuccess to funcSignature txReturnTypes blockNumber)
    = Returns r ->
  flagMatchesError r.
Proof.
  unfold asRead. intros H.
  destruct (ToArray calls true false) as [[arrayfiedCalls msgValue] [e|]];
    [returned H |].
  destruct (if (funcSignature =? _)%string then _ else _) as [callData [e|]];
    [returned H |].
  unfold bind, result in H.
  destruct (makeCall calls to callData txReturnTypes false None blockNumber)
    as [t [[[[d agg] c] [e|]] | p]]; cbn in H; [returned H | returned H | discriminate H].
Qed.

Lemma read_flag {W : Collaborators} calls requireSuccess to funcSignature
    txReturnTypes multicallAddress blockNumber isSimulation (r : Result) :
  result (read calls requireSuccess to funcSignature txReturnTypes multicallAddress
               blockNumber isSimulation) = Returns r ->
  flagMatchesError r.
Proof.
  unfold read. intros H.
  destruct (ToArray calls false false) as [[arrayfiedCalls msgValue] [e|]];
    [returned H |].
  destruct (if (funcSignature =? "tryAggregateStatic((address,bytes)[],bool)")%string
            then _ else _) as [sim [callData [e|]]];
    [returned H |].
  unfold bind, result in H.
  destruct (makeCall calls to callData txReturnTypes sim multicallAddress blockNumber)
    as [t [[[[d agg] c] [e|]] | p]]; cbn in H; [returned H | returned H | discriminate H].
Qed.

Lemma getData_flag {W : Collaborators} addresses to funcSignature returnTypes
    blockNumber (r : Result) :
  result (getData addresses to funcSignature returnTypes blockNumber) = Returns r ->
  flagMatchesError r.
Proof.
  unfold getData. intros H.
  destruct (match addresses with Some _ => _ | None => _ end) as [callData [e|]];
    [returned H |].
  unfold bind, result, readContract, client_BlockNumber, request, ret in H.
  destruct (rpc_readContract ZERO_ADDRESS to callData blockNumber)
    as [[encoded c] [e|]]; [returned H |].
  destruct (abi_Decode returnTypes encoded) as [decoded [e|]]; [returned H |].
  destruct blockNumber as [bn|]; [returned H |].
  destruct rpc_BlockNumber as [bn [e|]]; returned H.
Qed.

(** C10.  Every [Result] returned by [asRead], [read] or [getData] has its
    success flag set exactly when its error is nil. *)
Theorem read_paths_success_iff_no_error {W : Collaborators} (r : Result) :
  (exists calls requireSuccess to funcSignature txReturnTypes blockNumber,
     result (asRead calls requireSuccess to funcSignature txReturnTypes blockNumber)
       = Returns r) \/
  (exists calls requireSuccess to funcSignature txReturnTypes multicallAddress
          blockNumber isSimulation,
     result (read calls requireSuccess to funcSignature txReturnTypes multicallAddress
                  blockNumber isSimulation) = Returns r) \/
  (exists addresses to funcSignature returnTypes blockNumber,
     result (getData addresses to funcSignature returnTypes blockNumber) = Returns r) ->
  (Success r = true <-> Error_ r = None).
Proof.
  intros [H | [H | H]].
  - destruct H as (calls & rs & to & sig & ts & bn & H). exact (asRead_flag _ _ _ _ _ _ H).
  - destruct H as (calls & rs & to & sig & ts & ma & bn & sim & H).
    exact (read_flag _ _ _ _ _ _ _ _ H).
  - destruct H as (addrs & to & sig & ts & bn & H). exact (getData_flag _ _ _ _ _ H).
Qed.

Lemma read_paths_success_iff_no_error_witness :
  let r := mkResult true (Slice [Slice [BigInt 5]; Slice [BigInt 5]]) None
             (Sample.OfCall (mkCallMsg 0 (Some 51966) [xff]) (Some 100)) in
  Success r = true <-> Error_ r = None.
Proof.
  apply (@read_paths_success_iff_no_error (Sample.world Sample.quiet)).
  right; left.
  exists Sample.twoCalls, false, (Some 51966), "aggregateStatic((address,bytes)[])",
         (Some ["bytes[]"]), (Some 51966), None, false.
  reflexivity.
Defined.

(** The one way to a false flag with a nil error: a receipt mined with
    status 0 on the mutating path. *)
Example mined_with_status_zero :
  result (@AggregateCalls (Sample.world Sample.minedFailed) (Sample.deployed _)
            Sample.twoCalls None false)
  = Returns (mkResult false (Slice [Slice [Bytes [x01]; Bytes [x01]]]) None
               (Sample.OfTx (Some [xff]) 9 (Some 101))).
Proof. reflexivity. Qed.

(** *** Runs of the read helper *)

Lemma trace_bind {W : Collaborators} {A B} (m : M A) (f : A -> M B) :
  trace (bind m f) =
  trace m ++ match result m with
             | Returns a => trace (f a)
             | Panics _ => []
             end.
Proof.
  destruct m as [t [a|p]]; cbn.
  - destruct (f a) as [t' r]. reflexivity.
  - rewrite app_nil_r. reflexivity.
Qed.

Lemma result_bind {W : Collaborators} {A B} (m : M A) (f : A -> M B) :
  result (bind m f) =
  match result m with
  | Returns a => result (f a)
  | Panics p => Panics p
  end.
Proof.
  destruct m as [t [a|p]]; cbn; [| reflexivity].
  destruct (f a) as [t' r]. reflexivity.
Qed.

Lemma makeCall_success {W : Collaborators} calls to callData txReturnTypes
    (isSimulation : bool) multicallAddress blockNumber d agg (t : TxOrCall) :
  result (makeCall calls to callData txReturnTypes isSimulation multicallAddress
                   blockNumber) = Returns (d, agg, t, None) ->
  exists raw,
    (if isSimulation then raw = []
     else abi_Decode txReturnTypes
            (fst (fst (rpc_readContract ZERO_ADDRESS to callData blockNumber)))
          = (raw, None)) /\
    unwrap (Len calls) raw = Returns d /\
    decodeAggregateCallsResult d calls = Returns (agg, None).
Proof.
  unfold makeCall, readContract, client_BlockNumber. intros H.
  rewrite result_bind in H. cbn [result snd request] in H.
  destruct (rpc_readContract ZERO_ADDRESS to callData blockNumber)
    as [[encoded c] err]. cbn [fst].
  destruct isSimulation.
  - rewrite andb_false_r in H. rewrite result_bind in H. cbn [result snd lift] in H.
    destruct (revertBlock err) as [[early local]|p]; [| discriminate H].
    cbn [fst] in H. destruct early as [e|]; [discriminate H |].
    cbn [negb] in H. exists []. split; [reflexivity |].
    rewrite result_bind in H. cbn [result snd lift] in H.
    destruct (unwrap (Len calls) []) as [d'|p] eqn:Hu; [| discriminate H].
    rewrite result_bind in H. cbn [result snd lift] in H.
    destruct (decodeAggregateCallsResult d' calls) as [[agg' [e|]]|p] eqn:Hd;
      try discriminate H.
    destruct blockNumber as [bn|].
    + cbn in H. inversion H; subst. split; [reflexivity | exact Hd].
    + rewrite result_bind in H. cbn [result snd request] in H.
      destruct rpc_BlockNumber as [bn [e|]]; [discriminate H |].
      cbn in H. inversion H; subst. split; [reflexivity | exact Hd].
  - rewrite andb_true_r in H. destruct err as [e|]; [discriminate H |].
    cbn [isSome] in H. rewrite result_bind in H. cbn [result snd ret fst negb] in H.
    destruct (abi_Decode txReturnTypes encoded) as [raw [e|]]; [discriminate H |].
    exists raw. split; [reflexivity |].
    rewrite result_bind in H. cbn [result snd lift] in H.
    destruct (unwrap (Len calls) raw) as [d'|p] eqn:Hu; [| discriminate H].
    rewrite result_bind in H. cbn [result snd lift] in H.
    destruct (decodeAggregateCallsResult d' calls) as [[agg' [e|]]|p] eqn:Hd;
      try discriminate H.
    destruct blockNumber as [bn|].
    + cbn in H. inversion H; subst. split; [reflexivity | exact Hd].
    + rewrite result_bind in H. cbn [result snd request] in H.
      destruct rpc_BlockNumber as [bn [e|]]; [discriminate H |].
      cbn in H. inversion H; subst. split; [reflexivity | exact Hd].
Qed.

(** *** Simulation *)

(** In simulate mode the list that [makeCall] hands on is the one declared at
    its top, which no statement assigns: a run that returns normally returns
    nothing per call, and only for an empty call set. *)
Lemma makeCall_simulation_yields_nothing {W : Collaborators} calls to callData
    txReturnTypes multicallAddress blockNumber d agg (t : TxOrCall) :
  result (makeCall calls to callData txReturnTypes true multicallAddress blockNumber)
    = Returns (d, agg, t, None) ->
  d = [] /\ agg = [] /\ Len calls = 0.
Proof.
  intros H. apply makeCall_success in H. destruct H as [raw [Hraw [Hu Hd]]].
  subst raw. unfold unwrap in Hu. cbn [descend] in Hu.
  destruct (len (@nil any) =? Len calls) eqn:Hlen; cbn [negb] in Hu; [| discriminate Hu].
  inversion Hu; subst. cbn in Hd. inversion Hd; subst.
  apply Z.eqb_eq in Hlen. cbn in Hlen. repeat split. symmetry. exact Hlen.
Qed.

Lemma SimulateCall_payload_is_empty {W : Collaborators} (m : MultiCall) calls
    blockNumber (r : Result) :
  ContractAddress m <> None ->
  result (SimulateCall m calls blockNumber) = Returns r ->
  Error_ r = None ->
  Result_ r = Slice [] /\ Len calls = 0.
Proof.
  intros Hlive H Herr. unfold SimulateCall, call, read in H.
  destruct (ContractAddress m) as [a|]; [| contradiction]. cbn [isNil isSome negb] in H.
  destruct (ToArray calls false false) as [[arrayfiedCalls msgValue] [e|]];
    [cbn in H; inversion H; subst; discriminate Herr |].
  cbn [String.eqb Ascii.eqb Bool.eqb] in H.
  destruct (abi_EncodeWithSignature _ _) as [callData [e|]];
    [cbn in H; inversion H; subst; discriminate Herr |].
  rewrite result_bind in H.
  destruct (result (makeCall calls (Some a) callData None true (Some a) blockNumber))
    as [[[[d agg] c] err]|p] eqn:Hmake; [| discriminate H].
  destruct err as [e|]; [cbn in H; inversion H; subst; discriminate Herr |].
  apply makeCall_simulation_yields_nothing in Hmake.
  destruct Hmake as [-> [-> Hlen]]. cbn in H. inversion H; subst.
  split; [reflexivity | exact Hlen].
Qed.

(** C2, at the failing input.  Two calls are simulated on a deployed
    contract and the transport reports "execution reverted" with the revert
    data of the simulation.  The block that handles the revert does decode
    the two triples and rewrites their return data as hex text, but into
    variables of its own; the run then panics in the count-matching loop, on
    the empty list, and no [Result] is produced. *)
Theorem simulate_revert_payload_is_lost :
  let transportError := ErrText "execution reverted: MultiCall__Simulation" in
  Contains (Error transportError) "execution reverted" = true /\
  @revertBlock (Sample.world Sample.reverting) (Some transportError)
    = Returns (None, [Slice [Bool true; Str "ab"; BigInt 21000];
                      Slice [Bool false; Str ""; BigInt 9521]]) /\
  @SimulateCall (Sample.world Sample.reverting) (Sample.deployed _) Sample.twoCalls None
    = ([EvReadContract 0 (Some 51966) [xff] None], Panics IndexOutOfRange).
Proof.
  repeat split.
Qed.

(** *** The mutating path *)

(** The requests of a mutating dispatch, in order: the transaction is
    built, the chain identifier is read, the dry run is made, and then either
    the block number is read (the dry run failed) or the signed transaction
    is sent (the dry run succeeded). *)
Lemma write_requests {W : Collaborators} calls requireSuccess signer to funcSignature
    txReturnTypes withValue isMultiCall3Type :
  let t := trace (write calls requireSuccess signer to funcSignature txReturnTypes
                        withValue isMultiCall3Type) in
  t = [] \/
  (exists value data,
     let create := EvCreateTransaction (GetAddress signer) to value data in
     t = [create] \/
     t = [create; EvChainID] \/
     exists from,
       let dryRun := mkCallMsg from to data in
       GetAddress signer = Some from /\
       ((t = [create; EvChainID; EvCallContract dryRun None; EvBlockNumber] /\
         snd (rpc_CallContract dryRun None) <> None) \/
        (exists signedTx,
           t = [create; EvChainID; EvCallContract dryRun None;
                EvSendSignedTransaction signedTx] /\
           snd (rpc_CallContract dryRun None) = None))).
Proof.
  cbv zeta. unfold write.
  destruct (ToArray calls withValue isMultiCall3Type) as [[arrayfiedCalls msgValue] [e|]];
    [left; reflexivity |].
  destruct (if (funcSignature =? _)%string then _ else _) as [callData [e|]];
    [left; reflexivity |].
  right. exists msgValue, callData.
  unfold createTransaction, ChainID, CallContract, client_BlockNumber,
         sendSignedTransaction, deref, receiptBlockNumber, bind, request, ret, throw,
         trace.
  destruct (rpc_createTransaction (GetAddress signer) to msgValue callData)
    as [tx [e|]].
  { left. destruct (GetAddress signer); reflexivity. }
  destruct rpc_ChainID as [chainId [e|]].
  { right; left. destruct (GetAddress signer); reflexivity. }
  destruct (SignTx signer tx chainId) as [signedTx [e|]].
  { right; left. destruct (GetAddress signer); reflexivity. }
  destruct (GetAddress signer) as [from|]; [| right; left; reflexivity].
  right; right. exists from. split; [reflexivity |].
  destruct (rpc_CallContract (mkCallMsg from to callData) None)
    as [encoded [e|]] eqn:Hdry.
  - left. split; [| discriminate]. cbn.
    destruct rpc_BlockNumber as [bn [e'|]]; reflexivity.
  - right. exists signedTx. split; [| reflexivity]. cbn.
    destruct (rpc_sendSignedTransaction signedTx) as [[r|] [e|]]; cbn;
      try reflexivity;
      destruct (abi_Decode txReturnTypes encoded) as [decoded [e'|]]; reflexivity.
Qed.

(** A broadcast is the last request of the run and comes right after a dry
    run that succeeded. *)
Lemma write_broadcast_follows_dry_run {W : Collaborators} calls requireSuccess
    signer to funcSignature txReturnTypes withValue isMultiCall3Type signedTx :
  In (EvSendSignedTransaction signedTx)
     (trace (write calls requireSuccess signer to funcSignature txReturnTypes
                   withValue isMultiCall3Type)) ->
  exists before dryRun,
    trace (write calls requireSuccess signer to funcSignature txReturnTypes
                 withValue isMultiCall3Type)
      = before ++ [EvCallContract dryRun None; EvSendSignedTransaction signedTx] /\
    snd (rpc_CallContract dryRun None) = None.
Proof.
  intros Hin.
  destruct (write_requests calls requireSuccess signer to funcSignature txReturnTypes
                           withValue isMultiCall3Type)
    as [Ht | [value [data [Ht | [Ht | [from [_ [[Ht _] | [tx [Ht Hok]]]]]]]]]];
    rewrite Ht in Hin |- *; cbn in Hin;
    repeat (destruct Hin as [Hin | Hin]; try discriminate Hin); try contradiction.
  inversion Hin; subst.
  eexists [_; _], _. split; [reflexivity | exact Hok].
Qed.

(** What a failed dry run leaves in the [Result]: the error is built from the
    [err] declared next to [blockNumber], which is nil once the block number
    is known, so the error is the same whatever the dry run reported. *)
Lemma write_failed_dry_run_result {W : Collaborators} calls requireSuccess signer to
    funcSignature txReturnTypes withValue isMultiCall3Type
    arrayfiedCalls msgValue callData tx chainId signedTx from encoded dryRunError
    blockNumber :
  ToArray calls withValue isMultiCall3Type = (arrayfiedCalls, msgValue, None) ->
  (if (funcSignature =? "tryAggregateCalls((address,bytes,uint256)[],bool)")%string
   then abi_EncodeWithSignature funcSignature [arrayfiedCalls; Bool requireSuccess]
   else abi_EncodeWithSignature funcSignature [arrayfiedCalls]) = (callData, None) ->
  rpc_createTransaction (GetAddress signer) to msgValue callData = (tx, None) ->
  rpc_ChainID = (chainId, None) ->
  SignTx signer tx chainId = (signedTx, None) ->
  GetAddress signer = Some from ->
  rpc_CallContract (mkCallMsg from to callData) None = (encoded, Some dryRunError) ->
  rpc_BlockNumber = (blockNumber, None) ->
  result (write calls requireSuccess signer to funcSignature txReturnTypes
                withValue isMultiCall3Type)
  = Returns (failure
               (ErrWrap "error calling contract: " None
                        (", with data: " ++ Bytes2Hex callData)%string)
               (FromTxToTxOrCall tx from (Some (int64 blockNumber)))).
Proof.
  intros HtoArray Hencode Hcreate Hchain Hsign Hfrom Hdry Hblock.
  unfold write. rewrite HtoArray, Hencode.
  unfold createTransaction, ChainID, CallContract, client_BlockNumber, deref, bind,
         request, ret, result.
  rewrite Hcreate, Hchain, Hsign, Hfrom. cbn. rewrite Hdry, Hblock. reflexivity.
Qed.

(** C3, at the failing input.  The dry run of a mutating batch fails with
    "execution reverted: insufficient balance".  No transaction is sent, and
    the [Result] is a failure; but its error wraps nil, and neither its text
    nor its chain holds the error of the dry run. *)
Theorem dry_run_error_is_not_carried :
  let dryRunError := ErrText "execution reverted: insufficient balance" in
  let run := @AggregateCalls (Sample.world Sample.dryRunFails) (Sample.deployed _)
               Sample.twoCalls None false in
  let reported := ErrWrap "error calling contract: " None ", with data: ff" in
  @rpc_CallContract (Sample.world Sample.dryRunFails)
     (mkCallMsg 9 (Some 51966) [xff]) None = ([], Some dryRunError) /\
  existsb isBroadcast (trace run) = false /\
  result run = Returns (mkResult false Nil (Some reported)
                          (Sample.OfTx (Some [xff]) 9 (Some 100))) /\
  Error reported = "error calling contract: %!w(<nil>), with data: ff" /\
  ~ carries reported dryRunError /\
  Contains (Error reported) (Error dryRunError) = false.
Proof.
  cbv zeta. repeat split.
  unfold carries. cbn. intros [H | []]. discriminate H.
Qed.

(** *** What is encoded *)

Lemma sentCalldata_makeCall {W : Collaborators} {B} calls to callData txReturnTypes
    isSimulation multicallAddress blockNumber
    (k : list any * list any * TxOrCall * option error -> M B) :
  sentCalldata (trace (bind (makeCall calls to callData txReturnTypes isSimulation
                                      multicallAddress blockNumber) k))
  = Some callData.
Proof.
  rewrite trace_bind. unfold makeCall. rewrite trace_bind. reflexivity.
Qed.

Lemma write_sentCalldata {W : Collaborators} calls requireSuccess signer to
    funcSignature txReturnTypes withValue isMultiCall3Type arrayfiedCalls msgValue :
  ToArray calls withValue isMultiCall3Type = (arrayfiedCalls, msgValue, None) ->
  sentCalldata (trace (write calls requireSuccess signer to funcSignature
                             txReturnTypes withValue isMultiCall3Type))
  = encodingOf funcSignature
      (encoderArguments ViaWrite funcSignature arrayfiedCalls requireSuccess).
Proof.
  intros HtoArray. unfold write, encodingOf, encoderArguments. rewrite HtoArray.
  cbn [trailingBoolSignature].
  destruct (funcSignature =? _)%string;
    destruct (abi_EncodeWithSignature funcSignature _) as [callData [e|]];
    try reflexivity; rewrite trace_bind; reflexivity.
Qed.

Lemma asRead_sentCalldata {W : Collaborators} calls requireSuccess to funcSignature
    txReturnTypes blockNumber arrayfiedCalls msgValue :
  ToArray calls true false = (arrayfiedCalls, msgValue, None) ->
  sentCalldata (trace (asRead calls requireSuccess to funcSignature txReturnTypes
                              blockNumber))
  = encodingOf funcSignature
      (encoderArguments ViaAsRead funcSignature arrayfiedCalls requireSuccess).
Proof.
  intros HtoArray. unfold asRead, encodingOf, encoderArguments. rewrite HtoArray.
  cbn [trailingBoolSignature].
  destruct (funcSignature =? _)%string;
    destruct (abi_EncodeWithSignature funcSignature _) as [callData [e|]];
    try reflexivity; apply sentCalldata_makeCall.
Qed.

Lemma read_sentCalldata {W : Collaborators} calls requireSuccess to funcSignature
    txReturnTypes multicallAddress blockNumber isSimulation arrayfiedCalls msgValue :
  ToArray calls false false = (arrayfiedCalls, msgValue, None) ->
  sentCalldata (trace (read calls requireSuccess to funcSignature txReturnTypes
                            multicallAddress blockNumber isSimulation))
  = encodingOf funcSignature
      (encoderArguments ViaRead funcSignature arrayfiedCalls requireSuccess).
Proof.
  intros HtoArray. unfold read, encodingOf, encoderArguments. rewrite HtoArray.
  cbn [trailingBoolSignature].
  destruct (funcSignature =? "tryAggregateStatic((address,bytes)[],bool)")%string;
    destruct (abi_EncodeWithSignature funcSignature _) as [callData [e|]];
    try reflexivity; apply sentCalldata_makeCall.
Qed.

(** C5, as stated, fails: the static try-aggregate is not the three-field
    signature, and its calldata encodes [requireSuccess] after the tuple
    array. *)
Lemma static_try_aggregate_encodes_requireSuccess :
  let signature := "tryAggregateStatic((address,bytes)[],bool)" in
  let run := @TryAggregateStatic (Sample.world Sample.quiet) (Sample.deployed _)
               Sample.twoCalls true None in
  signature <> "tryAggregateCalls((address,bytes,uint256)[],bool)" /\
  sentCalldata (trace run)
    = @encodingOf (Sample.world Sample.quiet) signature [Sample.arrayfied; Bool true] /\
  sentCalldata (trace run)
    <> @encodingOf (Sample.world Sample.quiet) signature [Sample.arrayfied].
Proof.
  cbv zeta. split; [discriminate |]. split; [reflexivity |].
  vm_compute. discriminate.
Qed.

(** *** The payload *)

Lemma parseResults_payload {W : Collaborators} d status (v : any) (t : TxOrCall) :
  Result_ (parseResults d status v t) = if 0 <? len d then Slice d else v.
Proof.
  unfold parseResults. destruct (0 <? len d); reflexivity.
Qed.

Lemma asRead_payload {W : Collaborators} calls requireSuccess to funcSignature
    txReturnTypes blockNumber (r : Result) :
  result (asRead calls requireSuccess to funcSignature txReturnTypes blockNumber)
    = Returns r ->
  Error_ r = None ->
  exists encoded raw matched perCall,
    abi_Decode txReturnTypes encoded = (raw, None) /\
    reconciles calls raw matched perCall /\
    Result_ r = if 0 <? len perCall then Slice perCall else Slice matched.
Proof.
  unfold asRead. intros H Herr.
  destruct (ToArray calls true false) as [[arrayfiedCalls msgValue] [e|]];
    [cbn in H; inversion H; subst; discriminate Herr |].
  destruct (if (funcSignature =? _)%string then _ else _) as [callData [e|]];
    [cbn in H; inversion H; subst; discriminate Herr |].
  rewrite result_bind in H.
  destruct (result (makeCall calls to callData txReturnTypes false None blockNumber))
    as [[[[d agg] c] err]|p] eqn:Hmake; [| discriminate H].
  destruct err as [e|]; [cbn in H; inversion H; subst; discriminate Herr |].
  apply makeCall_success in Hmake. destruct Hmake as [raw [Hraw [Hu Hd]]].
  cbn in H. inversion H; subst.
  eexists _, raw, d, agg. split; [exact Hraw |]. split; [split; assumption |].
  apply parseResults_payload.
Qed.

Lemma read_payload {W : Collaborators} calls requireSuccess to funcSignature
    txReturnTypes multicallAddress blockNumber isSimulation (r : Result) :
  result (read calls requireSuccess to funcSignature txReturnTypes multicallAddress
               blockNumber isSimulation) = Returns r ->
  Error_ r = None ->
  exists raw matched perCall,
    (raw = [] \/ exists encoded, abi_Decode txReturnTypes encoded = (raw, None)) /\
    reconciles calls raw matched perCall /\
    Result_ r = if 0 <? len perCall then Slice perCall else Slice matched.
Proof.
  unfold read. intros H Herr.
  destruct (ToArray calls false false) as [[arrayfiedCalls msgValue] [e|]];
    [cbn in H; inversion H; subst; discriminate Herr |].
  destruct (if (funcSignature =? "tryAggregateStatic((address,bytes)[],bool)")%string
            then _ else _) as [sim [callData [e|]]];
    [cbn in H; inversion H; subst; discriminate Herr |].
  rewrite result_bind in H.
  destruct (result (makeCall calls to callData txReturnTypes sim multicallAddress
                             blockNumber))
    as [[[[d agg] c] err]|p] eqn:Hmake; [| discriminate H].
  destruct err as [e|]; [cbn in H; inversion H; subst; discriminate Herr |].
  apply makeCall_success in Hmake. destruct Hmake as [raw [Hraw [Hu Hd]]].
  cbn in H. inversion H; subst.
  exists raw, d, agg. split; [| split; [split; assumption | apply parseResults_payload]].
  destruct sim; [left; exact Hraw | right; eexists; exact Hraw].
Qed.

(** On the mutating path the flag of a [Result] without error is the status
    bit of the receipt. *)
Lemma write_flag_is_receipt_status {W : Collaborators} calls requireSuccess signer to
    funcSignature txReturnTypes withValue isMultiCall3Type (r : Result) :
  result (write calls requireSuccess signer to funcSignature txReturnTypes withValue
                isMultiCall3Type) = Returns r ->
  Error_ r = None ->
  exists signedTx receipt,
    rpc_sendSignedTransaction signedTx = (Some receipt, None) /\
    Success r = (Status receipt =? 1).
Proof.
  unfold write. intros H Herr.
  destruct (ToArray calls withValue isMultiCall3Type) as [[arrayfiedCalls msgValue] [e|]];
    [cbn in H; inversion H; subst; discriminate Herr |].
  destruct (if (funcSignature =? _)%string then _ else _) as [callData [e|]];
    [cbn in H; inversion H; subst; discriminate Herr |].
  unfold createTransaction, ChainID, CallContract, client_BlockNumber,
         sendSignedTransaction, deref, receiptBlockNumber, bind, request, ret, throw,
         result in H.
  destruct (rpc_createTransaction (GetAddress signer) to msgValue callData)
    as [tx [e|]];
    [destruct (GetAddress signer); cbn in H; inversion H; subst; discriminate Herr |].
  destruct rpc_ChainID as [chainId [e|]];
    [destruct (GetAddress signer); cbn in H; inversion H; subst; discriminate Herr |].
  destruct (SignTx signer tx chainId) as [signedTx [e|]];
    [destruct (GetAddress signer); cbn in H; inversion H; subst; discriminate Herr |].
  destruct (GetAddress signer) as [from|]; [| discriminate H].
  destruct (rpc_CallContract (mkCallMsg from to callData) None) as [encoded [e|]].
  { destruct rpc_BlockNumber as [bn [e'|]];
      cbn in H; inversion H; subst; discriminate Herr. }
  destruct (rpc_sendSignedTransaction signedTx) as [receipt [e|]] eqn:Hsend.
  { destruct receipt; cbn in H; inversion H; subst; discriminate Herr. }
  destruct (abi_Decode txReturnTypes encoded) as [raw [e|]].
  { destruct receipt; cbn in H; inversion H; subst; discriminate Herr. }
  destruct receipt as [rc|]; [| discriminate H].
  cbn in H. inversion H; subst.
  exists signedTx, rc. split; [exact Hsend |].
  unfold parseResults. destruct (0 <? len raw); reflexivity.
Qed.

(** The mutating path does not reconcile.  With two calls that declare
    [uint256], the payload is the decoded value of the dry run as it came,
    though its reconciliation is a list of two decoded numbers; and when the
    dry run decodes to nothing, the payload is the receipt, not the decoded
    value. *)
Lemma mutating_payload_is_not_reconciled :
  let raw := [Slice [Bytes [x01]; Bytes [x01]]] in
  let perCall := [Slice [BigInt 5]; Slice [BigInt 5]] in
  result (@AggregateCalls (Sample.world Sample.quiet) (Sample.deployed _)
            Sample.twoCalls None false)
    = Returns (mkResult true (Slice raw) None
                 (Sample.OfTx (Some [xff]) 9 (Some 101))) /\
  @reconciles (Sample.world Sample.quiet) Sample.twoCalls raw
     [Bytes [x01]; Bytes [x01]] perCall /\
  (0 <? len perCall) = true /\
  Slice raw <> Slice perCall /\
  result (@AggregateCalls (Sample.world Sample.emptyAnswer) (Sample.deployed _)
            Sample.twoCalls None false)
    = Returns (mkResult true (ReceiptOf (mkReceipt 1 (Some 101))) None
                 (Sample.OfTx (Some [xff]) 9 (Some 101))).
Proof.
  cbv zeta. split; [reflexivity |]. split; [split; reflexivity |].
  split; [reflexivity |]. split; [discriminate | reflexivity].
Qed.

(** On a read path with no call, the payload is the unwrapped empty list,
    not the decoded response that wrapped it. *)
Example empty_batch_payload_is_the_matched_list :
  @abi_Decode (Sample.world Sample.emptyRead) (Some ["bytes[]"]) [] = ([Slice []], None) /\
  result (@AggregateStatic (Sample.world Sample.emptyRead) (Sample.deployed _)
            Sample.noCalls None)
    = Returns (mkResult true (Slice []) None
                 (Sample.OfCall (mkCallMsg 0 (Some 51966) [xff]) (Some 100))).
Proof. split; reflexivity. Qed.

(** *** Runs that panic *)

(** C6, at the failing input.  A static aggregate of two calls that declare
    no return types: the response is decoded and unwrapped to the two
    payloads, and the decode step asserts that the first payload, a byte
    string, is a list.  The run ends in a panic after its one request and
    returns no [Result].  Two more runs end the same way: a simulation whose
    transport call succeeds (the text of a nil error is asked for), and a
    mutating batch whose broadcast fails without a receipt (the block number
    of a nil receipt is read). *)
Theorem dispatch_paths_that_panic :
  @AggregateStatic (Sample.world Sample.quiet) (Sample.deployed _)
     Sample.twoUntypedCalls None
    = ([EvReadContract 0 (Some 51966) [xff] None], Panics TypeAssertion) /\
  @SimulateCall (Sample.world Sample.quiet) (Sample.deployed _) Sample.twoCalls None
    = ([EvReadContract 0 (Some 51966) [xff] None], Panics NilDereference) /\
  @AggregateCalls (Sample.world Sample.sendFails) (Sample.deployed _) Sample.twoCalls
     None false
    = ([EvCreateTransaction (Some 9) (Some 51966) None [xff]; EvChainID;
        EvCallContract (mkCallMsg 9 (Some 51966) [xff]) None;
        @EvSendSignedTransaction (Sample.world Sample.sendFails) (Some [xff])],
       Panics NilDereference).
Proof.
  repeat split.
Qed.

(** None of these is the assertion on the decoded revert payload: that one
    is reached only after the decode has succeeded, and a failed decode is
    returned as an error. *)
Lemma revertBlock_failed_decode_is_returned {W : Collaborators} (e e' : error)
    (encodedRevert : bytes) (decoded : list any) :
  Contains (Error e) "execution reverted" = true ->
  parseRevertData e = (encodedRevert, true) ->
  abi_DecodeWithSignature "MultiCall__Simulation((bool,bytes,uint256)[])" encodedRevert
    = (decoded, Some e') ->
  revertBlock (Some e) = Returns (Some e', []).
Proof.
  intros Htext Hdata Hdecode. unfold revertBlock.
  rewrite Htext, Hdata, Hdecode. reflexivity.
Qed.

(** *** The length of what the read helper returns *)

Lemma makeCall_lengths {W : Collaborators} calls to callData txReturnTypes
    isSimulation multicallAddress blockNumber d agg (t : TxOrCall) :
  result (makeCall calls to callData txReturnTypes isSimulation multicallAddress
                   blockNumber) = Returns (d, agg, t, None) ->
  len d = Len calls /\ len agg = Len calls.
Proof.
  intros H. apply makeCall_success in H. destruct H as [raw [_ [Hu Hd]]].
  pose proof (unwrap_length _ _ Hu) as Hlen. split; [exact Hlen |].
  unfold decodeAggregateCallsResult in Hd.
  destruct (decodeSlots_invariant _ _ _ _ Hd) as [outs [Hout [Hsame _]]].
  cbn in Hout. subst outs. unfold len in *. rewrite Hsame. exact Hlen.
Qed.

(** *** Requests of the read helper *)

Ltac makeCall_tail :=
  rewrite trace_bind; cbn [trace result lift fst snd app];
  match goal with
  | |- context [unwrap ?n ?raw] => destruct (unwrap n raw) as [d|p]
  end; [| left; reflexivity];
  rewrite trace_bind; cbn [trace result lift fst snd app];
  match goal with
  | |- context [decodeAggregateCallsResult ?d ?calls] =>
      destruct (decodeAggregateCallsResult d calls) as [[agg [e|]]|p]
  end; try (left; reflexivity);
  match goal with
  | |- context [match ?bn with Some _ => _ | None => _ end] =>
      destruct bn as [bn|]
  end; [left; reflexivity |];
  right; split; [reflexivity |];
  rewrite trace_bind; cbn [trace result request fst snd app];
  destruct rpc_BlockNumber as [bn [e|]]; reflexivity.

Lemma makeCall_requests {W : Collaborators} calls to callData txReturnTypes
    isSimulation multicallAddress blockNumber :
  let t := trace (makeCall calls to callData txReturnTypes isSimulation
                           multicallAddress blockNumber) in
  t = [EvReadContract ZERO_ADDRESS to callData blockNumber] \/
  (blockNumber = None /\
   t = [EvReadContract ZERO_ADDRESS to callData None; EvBlockNumber]).
Proof.
  cbv zeta. unfold makeCall, readContract, client_BlockNumber.
  rewrite trace_bind. cbn [trace result request fst snd app].
  destruct (rpc_readContract ZERO_ADDRESS to callData blockNumber) as [[encoded c] err].
  destruct isSimulation.
  - rewrite andb_false_r. rewrite trace_bind. cbn [trace result lift fst snd app].
    destruct (revertBlock err) as [[[e|] local]|p]; cbn [fst negb];
      try (left; reflexivity).
    makeCall_tail.
  - rewrite andb_true_r. destruct err as [e|]; [left; reflexivity |].
    cbn [isSome]. rewrite trace_bind. cbn [trace result ret fst snd app negb].
    destruct (abi_Decode txReturnTypes encoded) as [raw [e|]]; [left; reflexivity |].
    makeCall_tail.
Qed.

Lemma stateless_makeCall {W : Collaborators} {B} calls to callData txReturnTypes
    isSimulation multicallAddress blockNumber
    (k : list any * list any * TxOrCall * option error -> M B) :
  (forall x, trace (k x) = []) ->
  forallb isStateless
    (trace (bind (makeCall calls to callData txReturnTypes isSimulation
                           multicallAddress blockNumber) k)) = true.
Proof.
  intros Hk. rewrite trace_bind.
  replace (match result (makeCall calls to callData txReturnTypes isSimulation
                                  multicallAddress blockNumber) with
           | Returns a => trace (k a)
           | Panics _ => []
           end) with (@nil Event)
    by (destruct (result _); [rewrite Hk |]; reflexivity).
  rewrite app_nil_r.
  destruct (makeCall_requests calls to callData txReturnTypes isSimulation
                              multicallAddress blockNumber) as [-> | [_ ->]];
    reflexivity.
Qed.

Lemma asRead_stateless {W : Collaborators} calls requireSuccess to funcSignature
    txReturnTypes blockNumber :
  forallb isStateless
    (trace (asRead calls requireSuccess to funcSignature txReturnTypes blockNumber))
  = true.
Proof.
  unfold asRead.
  destruct (ToArray calls true false) as [[arrayfiedCalls msgValue] [e|]];
    [reflexivity |].
  destruct (if (funcSignature =? _)%string then _ else _) as [callData [e|]];
    [reflexivity |].
  apply stateless_makeCall. intros [[[d agg] c] [e|]]; reflexivity.
Qed.

Lemma read_stateless {W : Collaborators} calls requireSuccess to funcSignature
    txReturnTypes multicallAddress blockNumber isSimulation :
  forallb isStateless
    (trace (read calls requireSuccess to funcSignature txReturnTypes multicallAddress
                 blockNumber isSimulation)) = true.
Proof.
  unfold read.
  destruct (ToArray calls false false) as [[arrayfiedCalls msgValue] [e|]];
    [reflexivity |].
  destruct (if (funcSignature =? "tryAggregateStatic((address,bytes)[],bool)")%string
            then _ else _) as [sim [callData [e|]]];
    [reflexivity |].
  apply stateless_makeCall. intros [[[d agg] c] [e|]]; reflexivity.
Qed.

(** The requests of a metadata read: none when the encoding fails, else the
    one read, followed by a block-number lookup when the caller pinned no
    block and the answer decoded. *)
Lemma getData_requests {W : Collaborators} addresses to funcSignature returnTypes
    blockNumber :
  let t := trace (getData addresses to funcSignature returnTypes blockNumber) in
  t = [] \/
  (exists callData,
     t = [EvReadContract ZERO_ADDRESS to callData blockNumber] \/
     (blockNumber = None /\
      t = [EvReadContract ZERO_ADDRESS to callData None; EvBlockNumber])).
Proof.
  cbv zeta. unfold getData.
  destruct (match addresses with Some _ => _ | None => _ end) as [callData [e|]];
    [left; reflexivity |].
  right. exists callData.
  unfold readContract, client_BlockNumber, bind, request, ret, trace.
  destruct (rpc_readContract ZERO_ADDRESS to callData blockNumber)
    as [[encoded c] [e|]]; [left; reflexivity |].
  destruct (abi_Decode returnTypes encoded) as [raw [e|]]; [left; reflexivity |].
  destruct blockNumber as [bn|]; [left; reflexivity |].
  right. split; [reflexivity |].
  destruct rpc_BlockNumber as [bn [e|]]; reflexivity.
Qed.

Lemma getData_stateless {W : Collaborators} addresses to funcSignature returnTypes
    blockNumber :
  forallb isStateless
    (trace (getData addresses to funcSignature returnTypes blockNumber)) = true.
Proof.
  destruct (getData_requests addresses to funcSignature returnTypes blockNumber)
    as [-> | [callData [-> | [_ ->]]]]; reflexivity.
Qed.

(** On a deployed contract, every entry point other than the three mutating
    ones, and each of those three when [isCall] is set, issues only stateless
    requests (the read and the block-number lookup): it builds no
    transaction, asks for no chain identifier and sends nothing. *)
Theorem read_only_dispatch_is_stateless {W : Collaborators} (ep : EntryPoint)
    (m : MultiCall) (a : Args) :
  ContractAddress m <> None ->
  isMutating ep = false \/ a_isCall a = true ->
  forallb isStateless (trace (invoke ep m a)) = true.
Proof.
  intros Hlive Hread.
  destruct (ContractAddress m) as [c|] eqn:Hc; [| contradiction].
  destruct ep; cbn [invoke];
    unfold AggregateCalls, TryAggregateCalls, TryAggregateCalls3, SimulateCall,
           AggregateStatic, TryAggregateStatic, TryAggregateStatic3, CodeLengths,
           Balances, AddressesData, ChainData, txAsRead, txAsReadWithFailure, call,
           callWithFailure;
    rewrite ?Hc; cbn [isNil isSome negb];
    try apply read_stateless; try apply getData_stateless.
  all: destruct Hread as [Hmut | Hcall]; [discriminate Hmut |].
  all: rewrite Hcall, andb_false_r; apply asRead_stateless.
Qed.

Lemma read_only_dispatch_is_stateless_witness :
  forallb isStateless
    (trace (@invoke (Sample.world Sample.quiet) EpTryAggregateCalls (Sample.deployed _)
              (mkArgs Sample.twoCalls None false None true))) = true.
Proof.
  apply (@read_only_dispatch_is_stateless (Sample.world Sample.quiet)).
  - discriminate.
  - right. reflexivity.
Defined.

(** A metadata read on a deployed contract never panics: whatever the
    codec and the client answer, it returns a [Result], whose flag is set
    exactly when its error is nil. *)
Theorem metadata_read_always_returns {W : Collaborators} (ep : EntryPoint)
    (m : MultiCall) (a : Args) :
  ContractAddress m <> None ->
  isMetadata ep = true ->
  exists r : Result,
    result (invoke ep m a) = Returns r /\ (Success r = true <-> Error_ r = None).
Proof.
  intros Hlive Hmeta.
  destruct (ContractAddress m) as [c|] eqn:Hc; [| contradiction].
  assert (Hget : forall addresses to funcSignature returnTypes blockNumber,
             exists r : Result,
               result (getData addresses to funcSignature returnTypes blockNumber)
                 = Returns r).
  { intros. unfold getData.
    destruct (match addresses with Some _ => _ | None => _ end) as [callData [e|]];
      [eexists; reflexivity |].
    unfold readContract, client_BlockNumber, bind, request, ret, result.
    destruct (rpc_readContract ZERO_ADDRESS to callData blockNumber)
      as [[encoded call] [e|]]; [eexists; reflexivity |].
    destruct (abi_Decode returnTypes encoded) as [raw [e|]]; [eexists; reflexivity |].
    destruct blockNumber as [bn|]; [eexists; reflexivity |].
    destruct rpc_BlockNumber as [bn [e|]]; eexists; reflexivity. }
  destruct ep; try discriminate Hmeta; cbn [invoke];
    unfold CodeLengths, Balances, AddressesData, ChainData;
    rewrite Hc; cbn [isNil isSome negb];
    match goal with
    | |- context [getData ?x ?y ?z ?u ?v] =>
        destruct (Hget x y z u v) as [r Hr]; exists r; split;
        [exact Hr | exact (getData_flag _ _ _ _ _ Hr)]
    end.
Qed.

Lemma metadata_read_always_returns_witness :
  exists r : @Result (Sample.world Sample.transportDown),
    result (@invoke (Sample.world Sample.transportDown) EpBalances (Sample.deployed _)
              (mkArgs Sample.twoCalls (Some [Some 7; Some 7]) false None false))
      = Returns r /\
    (Success r = true <-> Error_ r = None).
Proof.
  apply (@metadata_read_always_returns (Sample.world Sample.transportDown)).
  - discriminate.
  - reflexivity.
Defined.

(** *** Failed reads *)

Lemma makeCall_failure {W : Collaborators} calls to callData txReturnTypes
    isSimulation multicallAddress blockNumber d agg (t : TxOrCall) (e : error) :
  result (makeCall calls to callData txReturnTypes isSimulation multicallAddress
                   blockNumber) = Returns (d, agg, t, Some e) ->
  d = [] /\ agg = [] /\ t = zeroTxOrCall.
Proof.
  unfold makeCall, readContract, client_BlockNumber. intros H.
  rewrite result_bind in H. cbn [result snd request] in H.
  destruct (rpc_readContract ZERO_ADDRESS to callData blockNumber)
    as [[encoded c] err].
  assert (Hdone : forall x : list any * list any * TxOrCall * option error,
             Returns ([], [], zeroTxOrCall, Some e) = Returns x ->
             x = (d, agg, t, Some e) -> d = [] /\ agg = [] /\ t = zeroTxOrCall).
  { intros x Hx Heq. subst x. inversion Hx; subst. repeat split. }
  destruct isSimulation.
  - rewrite andb_false_r in H. rewrite result_bind in H. cbn [result snd lift] in H.
    destruct (revertBlock err) as [[early local]|p]; [| discriminate H].
    cbn [fst] in H. destruct early as [e'|];
      [cbn in H; inversion H; subst; repeat split |].
    cbn [negb] in H.
    rewrite result_bind in H. cbn [result snd lift] in H.
    destruct (unwrap (Len calls) []) as [d'|p]; [| discriminate H].
    rewrite result_bind in H. cbn [result snd lift] in H.
    destruct (decodeAggregateCallsResult d' calls) as [[agg' [e'|]]|p];
      try discriminate H; [cbn in H; inversion H; subst; repeat split |].
    destruct blockNumber as [bn|]; [cbn in H; inversion H |].
    rewrite result_bind in H. cbn [result snd request] in H.
    destruct rpc_BlockNumber as [bn [e'|]]; cbn in H; inversion H; subst.
    repeat split.
  - rewrite andb_true_r in H. destruct err as [e'|];
      [cbn in H; inversion H; subst; repeat split |].
    cbn [isSome] in H. rewrite result_bind in H. cbn [result snd ret fst negb] in H.
    destruct (abi_Decode txReturnTypes encoded) as [raw [e'|]];
      [cbn in H; inversion H; subst; repeat split |].
    rewrite result_bind in H. cbn [result snd lift] in H.
    destruct (unwrap (Len calls) raw) as [d'|p]; [| discriminate H].
    rewrite result_bind in H. cbn [result snd lift] in H.
    destruct (decodeAggregateCallsResult d' calls) as [[agg' [e'|]]|p];
      try discriminate H; [cbn in H; inversion H; subst; repeat split |].
    destruct blockNumber as [bn|]; [cbn in H; inversion H |].
    rewrite result_bind in H. cbn [result snd request] in H.
    destruct rpc_BlockNumber as [bn [e'|]]; cbn in H; inversion H; subst.
    repeat split.
Qed.

Lemma asRead_failure {W : Collaborators} calls requireSuccess to funcSignature
    txReturnTypes blockNumber (r : Result) :
  result (asRead calls requireSuccess to funcSignature txReturnTypes blockNumber)
    = Returns r ->
  Error_ r <> None ->
  Success r = false /\ Result_ r = Nil /\ TxOrCall_ r = zeroTxOrCall.
Proof.
  unfold asRead. intros H Herr.
  destruct (ToArray calls true false) as [[arrayfiedCalls msgValue] [e|]];
    [cbn in H; inversion H; subst; repeat split |].
  destruct (if (funcSignature =? _)%string then _ else _) as [callData [e|]];
    [cbn in H; inversion H; subst; repeat split |].
  rewrite result_bind in H.
  destruct (result (makeCall calls to callData txReturnTypes false None blockNumber))
    as [[[[d agg] c] err]|p] eqn:Hmake; [| discriminate H].
  destruct err as [e|].
  - apply makeCall_failure in Hmake. destruct Hmake as [_ [_ ->]].
    cbn in H. inversion H; subst. repeat split.
  - cbn in H. inversion H; subst. exfalso. apply Herr.
    unfold parseResults. destruct (0 <? len agg); reflexivity.
Qed.

Lemma read_failure {W : Collaborators} calls requireSuccess to funcSignature
    txReturnTypes multicallAddress blockNumber isSimulation (r : Result) :
  result (read calls requireSuccess to funcSignature txReturnTypes multicallAddress
               blockNumber isSimulation) = Returns r ->
  Error_ r <> None ->
  Success r = false /\ Result_ r = Nil /\ TxOrCall_ r = zeroTxOrCall.
Proof.
  unfold read. intros H Herr.
  destruct (ToArray calls false false) as [[arrayfiedCalls msgValue] [e|]];
    [cbn in H; inversion H; subst; repeat split |].
  destruct (if (funcSignature =? "tryAggregateStatic((address,bytes)[],bool)")%string
            then _ else _) as [sim [callData [e|]]];
    [cbn in H; inversion H; subst; repeat split |].
  rewrite result_bind in H.
  destruct (result (makeCall calls to callData txReturnTypes sim multicallAddress
                             blockNumber))
    as [[[[d agg] c] err]|p] eqn:Hmake; [| discriminate H].
  destruct err as [e|].
  - apply makeCall_failure in Hmake. destruct Hmake as [_ [_ ->]].
    cbn in H. inversion H; subst. repeat split.
  - cbn in H. inversion H; subst. exfalso. apply Herr.
    unfold parseResults. destruct (0 <? len agg); reflexivity.
Qed.

(** A failed [Result] of [asRead] or [read] holds the error and nothing
    else: no payload, and the zero network record, also when the failure
    came after the read request had been made. *)
Theorem failed_read_carries_no_record {W : Collaborators} (r : Result) :
  (exists calls requireSuccess to funcSignature txReturnTypes blockNumber,
     result (asRead calls requireSuccess to funcSignature txReturnTypes blockNumber)
       = Returns r) \/
  (exists calls requireSuccess to funcSignature txReturnTypes multicallAddress
          blockNumber isSimulation,
     result (read calls requireSuccess to funcSignature txReturnTypes multicallAddress
                  blockNumber isSimulation) = Returns r) ->
  Error_ r <> None ->
  Success r = false /\ Result_ r = Nil /\ TxOrCall_ r = zeroTxOrCall.
Proof.
  intros [H | H] Herr.
  - destruct H as (calls & rs & to & sig & ts & bn & H).
    exact (asRead_failure _ _ _ _ _ _ H Herr).
  - destruct H as (calls & rs & to & sig & ts & ma & bn & sim & H).
    exact (read_failure _ _ _ _ _ _ _ _ H Herr).
Qed.

Lemma failed_read_carries_no_record_witness :
  let r := mkResult false Nil (Some (ErrText "connection refused")) Sample.NoRecord in
  Success r = false /\ Result_ r = Nil /\ TxOrCall_ r = Sample.NoRecord.
Proof.
  apply (@failed_read_carries_no_record (Sample.world Sample.transportDown)).
  - right.
    exists Sample.twoCalls, false, (Some 51966), "aggregateStatic((address,bytes)[])",
           (Some ["bytes[]"]), (Some 51966), None, false.
    reflexivity.
  - discriminate.
Defined.

(** *** One entry for each call *)

(** A [Result] of [asRead] or [read] without error holds a list with exactly
    [Len()] entries. *)
Theorem read_result_has_one_entry_per_call {W : Collaborators} (r : Result)
    (calls : CallsInterface) :
  (exists requireSuccess to funcSignature txReturnTypes blockNumber,
     result (asRead calls requireSuccess to funcSignature txReturnTypes blockNumber)
       = Returns r) \/
  (exists requireSuccess to funcSignature txReturnTypes multicallAddress
          blockNumber isSimulation,
     result (read calls requireSuccess to funcSignature txReturnTypes multicallAddress
                  blockNumber isSimulation) = Returns r) ->
  Error_ r = None ->
  exists perCall, Result_ r = Slice perCall /\ len perCall = Len calls.
Proof.
  intros Hrun Herr.
  assert (Hrec : exists raw matched perCall,
             reconciles calls raw matched perCall /\
             Result_ r = if 0 <? len perCall then Slice perCall else Slice matched).
  { destruct Hrun as [H | H].
    - destruct H as (rs & to & sig & ts & bn & H).
      destruct (asRead_payload _ _ _ _ _ _ H Herr)
        as (encoded & raw & matched & perCall & _ & Hrec & Hpay).
      exists raw, matched, perCall. split; assumption.
    - destruct H as (rs & to & sig & ts & ma & bn & sim & H).
      destruct (read_payload _ _ _ _ _ _ _ _ H Herr)
        as (raw & matched & perCall & _ & Hrec & Hpay).
      exists raw, matched, perCall. split; assumption. }
  destruct Hrec as (raw & matched & perCall & [Hu Hd] & Hpay).
  pose proof (unwrap_length _ _ Hu) as Hlen.
  unfold decodeAggregateCallsResult in Hd.
  destruct (decodeSlots_invariant _ _ _ _ Hd) as [outs [Hout [Hsame _]]].
  cbn in Hout. subst outs.
  assert (Hper : len perCall = Len calls).
  { unfold len in *. rewrite Hsame. exact Hlen. }
  exists perCall. split; [| exact Hper].
  rewrite Hpay. destruct (0 <? len perCall) eqn:Hpos; [reflexivity |].
  destruct perCall as [|x xs]; [| discriminate Hpos].
  destruct matched as [|y ys]; [reflexivity | discriminate Hsame].
Qed.

Lemma read_result_has_one_entry_per_call_witness :
  exists perCall,
    Slice [Slice [BigInt 5]; Slice [BigInt 5]] = Slice perCall /\
    len perCall = Len Sample.twoCalls.
Proof.
  apply (@read_result_has_one_entry_per_call (Sample.world Sample.quiet)
           (mkResult true (Slice [Slice [BigInt 5]; Slice [BigInt 5]]) None
              (Sample.OfCall (mkCallMsg 0 (Some 51966) [xff]) (Some 100)))
           Sample.twoCalls).
  - right.
    exists false, (Some 51966), "aggregateStatic((address,bytes)[])",
           (Some ["bytes[]"]), (Some 51966), None, false.
    reflexivity.
  - reflexivity.
Defined.

(** *** Simulation on a deployed contract *)

Lemma SimulateCall_payload_is_empty_witness :
  Slice [] = Slice [] /\ Len Sample.noCalls = 0.
Proof.
  apply (@SimulateCall_payload_is_empty (Sample.world Sample.reverting)
           (Sample.deployed _) Sample.noCalls None
           (mkResult true (Slice []) None
              (Sample.OfCall (mkCallMsg 0 (Some 51966) [xff]) (Some 100)))).
  - discriminate.
  - reflexivity.
  - reflexivity.
Defined.

(** *** The per-call decode step at its edges *)

Lemma decodeSlots_passes_lists {W : Collaborators} (calls : CallsInterface) :
  forall (slots : list any) (i : nat) (acc : list any),
    forallb isSlice slots = true ->
    decodeSlots calls i slots acc = Returns (acc ++ slots, None).
Proof.
  induction slots as [ | res rest IH ]; intros i acc Hall.
  - cbn. rewrite app_nil_r. reflexivity.
  - cbn [forallb] in Hall. apply andb_prop in Hall. destruct Hall as [Hres Hrest].
    destruct res; try discriminate Hres.
    cbn [decodeSlots].
    replace (acc ++ Slice l :: rest) with ((acc ++ [Slice l]) ++ rest)
      by (rewrite <- app_assoc; reflexivity).
    destruct (_ || _); apply IH; exact Hrest.
Qed.

(** Slots that are lists already (the pairs of a failure-tolerant
    aggregate) pass through the decode step unchanged, whatever return types
    the calls declare: the decoder is not called on what they hold. *)
Theorem structured_slots_pass_through {W : Collaborators} (calls : CallsInterface)
    (slots : list any) :
  forallb isSlice slots = true ->
  decodeAggregateCallsResult slots calls = Returns (slots, None).
Proof.
  intros Hall. unfold decodeAggregateCallsResult.
  rewrite (decodeSlots_passes_lists calls slots 0 [] Hall). reflexivity.
Qed.

Lemma structured_slots_pass_through_witness :
  let slots := [Slice [Bool true; Bytes [x01]]; Slice [Bool false; Bytes []]] in
  @decodeAggregateCallsResult (Sample.world Sample.quiet) slots Sample.twoCalls
  = Returns (slots, None).
Proof.
  apply (@structured_slots_pass_through (Sample.world Sample.quiet) Sample.twoCalls).
  reflexivity.
Defined.

Lemma decodeSlots_untyped {W : Collaborators} (calls : CallsInterface) :
  (forall i, GetReturnTypes calls i = None) ->
  forall (slots : list any) (i : nat) (acc : list any),
    decodeSlots calls i slots acc =
    if forallb isSlice slots then Returns (acc ++ slots, None)
    else Panics TypeAssertion.
Proof.
  intros Hnone. induction slots as [ | res rest IH ]; intros i acc.
  - cbn. rewrite app_nil_r. reflexivity.
  - cbn [decodeSlots forallb]. rewrite Hnone. cbn [orb len_types Z.ltb Z.compare].
    destruct res; try reflexivity.
    cbn [isSlice andb]. rewrite IH. rewrite <- app_assoc. reflexivity.
Qed.

(** For a call set that declares no return types the decode step never
    calls the decoder and never returns an error: it hands the slots back
    when all of them are lists, and panics as soon as one is not (a byte
    payload included). *)
Theorem untyped_calls_pass_or_panic {W : Collaborators} (calls : CallsInterface)
    (slots : list any) :
  (forall i, GetReturnTypes calls i = None) ->
  decodeAggregateCallsResult slots calls =
  if forallb isSlice slots then Returns (slots, None) else Panics TypeAssertion.
Proof.
  intros Hnone. unfold decodeAggregateCallsResult.
  rewrite (decodeSlots_untyped calls Hnone slots 0 []). reflexivity.
Qed.

Lemma untyped_calls_pass_or_panic_witness :
  @decodeAggregateCallsResult (Sample.world Sample.quiet)
     [Slice [Bool true]; Bytes [x01]] Sample.twoUntypedCalls
  = Panics TypeAssertion.
Proof.
  apply (@untyped_calls_pass_or_panic (Sample.world Sample.quiet)
           Sample.twoUntypedCalls [Slice [Bool true]; Bytes [x01]]).
  reflexivity.
Defined.

Lemma decodeSlots_error {W : Collaborators} (calls : CallsInterface) :
  forall (slots : list any) (i : nat) (acc out : list any) (e : error),
    decodeSlots calls i slots acc = Returns (out, Some e) ->
    out = [] /\
    exists k r,
      nth_error slots k = Some (Bytes r) /\
      GetReturnTypes calls (i + k) <> None /\
      snd (abi_Decode (GetReturnTypes calls (i + k)) r) = Some e /\
      forall j res, (j < k)%nat -> nth_error slots j = Some res ->
                    slotOutput (GetReturnTypes calls (i + j)) res <> None.
Proof.
  induction slots as [ | res rest IH ]; intros i acc out e H.
  - cbn in H. discriminate H.
  - cbn [decodeSlots] in H. rewrite declared_types_test in H.
    assert (Hlater : forall o,
               slotOutput (GetReturnTypes calls i) res = Some o ->
               decodeSlots calls (S i) rest (acc ++ [o]) = Returns (out, Some e) ->
               out = [] /\
               exists k r,
                 nth_error (res :: rest) k = Some (Bytes r) /\
                 GetReturnTypes calls (i + k) <> None /\
                 snd (abi_Decode (GetReturnTypes calls (i + k)) r) = Some e /\
                 forall j res', (j < k)%nat -> nth_error (res :: rest) j = Some res' ->
                   slotOutput (GetReturnTypes calls (i + j)) res' <> None).
    { intros o Ho Hrest.
      destruct (IH _ _ _ _ Hrest) as [Hout (k & r & Hk & Hts & Herr & Hbefore)].
      split; [exact Hout |]. exists (S k), r.
      replace (i + S k)%nat with (S i + k)%nat by lia.
      split; [exact Hk |]. split; [exact Hts |]. split; [exact Herr |].
      intros [|j] res' Hj Hnth.
      - cbn in Hnth. inversion Hnth; subst. rewrite Nat.add_0_r, Ho. discriminate.
      - cbn in Hnth. replace (i + S j)%nat with (S i + j)%nat by lia.
        apply (Hbefore j res'); [lia | exact Hnth]. }
    destruct (GetReturnTypes calls i) as [ts|] eqn:Hts; cbn [isSome] in H.
    + destruct res; try discriminate H.
      * destruct (abi_Decode (Some ts) b) as [decodedR [e'|]] eqn:Hdec.
        -- inversion H; subst. split; [reflexivity |].
           exists 0%nat, b. rewrite Nat.add_0_r, Hts, Hdec.
           split; [reflexivity |]. split; [discriminate |]. split; [reflexivity |].
           intros j res' Hj. lia.
        -- apply (Hlater (Slice decodedR)); [| exact H].
           cbn [slotOutput]. rewrite Hdec. reflexivity.
      * apply (Hlater (Slice l)); [reflexivity | exact H].
    + destruct res; try discriminate H.
      apply (Hlater (Slice l)); [reflexivity | exact H].
Qed.

(** When the decode step returns an error it returns no list at all, not
    the outputs made so far.  The error is the decoder's, on the first byte
    payload that does not decode under the return types declared for its
    position; every slot before it went through. *)
Theorem decode_error_discards_earlier_outputs {W : Collaborators}
    (calls : CallsInterface) (slots out : list any) (e : error) :
  decodeAggregateCallsResult slots calls = Returns (out, Some e) ->
  out = [] /\
  exists k r,
    nth_error slots k = Some (Bytes r) /\
    GetReturnTypes calls k <> None /\
    snd (abi_Decode (GetReturnTypes calls k) r) = Some e /\
    forall j res, (j < k)%nat -> nth_error slots j = Some res ->
                  slotOutput (GetReturnTypes calls j) res <> None.
Proof.
  intros H. unfold decodeAggregateCallsResult in H.
  exact (decodeSlots_error calls slots 0 [] H).
Qed.

Lemma decode_error_discards_earlier_outputs_witness :
  @nil any = [] /\
  exists k r,
    nth_error [Bytes [x01]; Bytes [x02]] k = Some (Bytes r) /\
    GetReturnTypes Sample.mixedCalls k <> None /\
    snd (@abi_Decode (Sample.world Sample.quiet) (GetReturnTypes Sample.mixedCalls k) r)
      = Some (ErrText "abi: cannot decode") /\
    forall j res, (j < k)%nat -> nth_error [Bytes [x01]; Bytes [x02]] j = Some res ->
      @slotOutput (Sample.world Sample.quiet) (GetReturnTypes Sample.mixedCalls j) res
        <> None.
Proof.
  apply (@decode_error_discards_earlier_outputs (Sample.world Sample.quiet)
           Sample.mixedCalls [Bytes [x01]; Bytes [x02]] []
           (ErrText "abi: cannot decode")).
  reflexivity.
Defined.

(** *** The constructor *)

(** [NewMultiCall] makes one request, for the bytecode at the well-known
    address at the latest block, and never panics.  If that request fails it
    returns no [MultiCall] and an error whose text is the client's behind
    "error getting bytecode: ".  Otherwise it returns a [MultiCall] that keeps
    the signer it was given, and [IsDeployed] holds exactly when the bytecode
    is not empty, [IsDeployless] exactly when it is. *)
Theorem NewMultiCall_checks_bytecode_once {W : Collaborators}
    (signer : option SignerInterface) :
  trace (NewMultiCall signer) = [EvCodeAt OMNES_MULTICALL_ADDRESS None] /\
  match rpc_CodeAt OMNES_MULTICALL_ADDRESS None with
  | (_, Some e) =>
      result (NewMultiCall signer)
      = Returns (None, Some (ErrText ("error getting bytecode: " ++ Error e)%string))
  | (bytecode, None) =>
      exists m,
        result (NewMultiCall signer) = Returns (Some m, None) /\
        Signer m = signer /\
        IsDeployed m = negb (len bytecode =? 0) /\
        IsDeployless m = (len bytecode =? 0) /\
        (IsDeployed m = true -> ContractAddress m = Some OMNES_MULTICALL_ADDRESS)
  end.
Proof.
  unfold NewMultiCall, CodeAt, bind, request, ret, trace, result.
  destruct (rpc_CodeAt OMNES_MULTICALL_ADDRESS None) as [bytecode [e|]]; cbn.
  - split; reflexivity.
  - split; [reflexivity |]. eexists. split; [reflexivity |].
    unfold IsDeployed, IsDeployless, isNil. cbn.
    destruct (len bytecode =? 0); cbn; repeat split; intros H; discriminate H.
Qed.

(** *** Signatures that switch simulation off *)

(** For the two [tryAggregateStatic] signatures [read] clears the
    simulation flag: a caller that sets it gets the run of a caller that
    does not, so a revert is an error there and never a carrier of data. *)
Theorem static_try_signatures_clear_simulation {W : Collaborators} calls
    requireSuccess to funcSignature txReturnTypes multicallAddress blockNumber :
  funcSignature = "tryAggregateStatic((address,bytes,bool)[])" \/
  funcSignature = "tryAggregateStatic((address,bytes)[],bool)" ->
  read calls requireSuccess to funcSignature txReturnTypes multicallAddress
       blockNumber true
  = read calls requireSuccess to funcSignature txReturnTypes multicallAddress
         blockNumber false.
Proof.
  intros [-> | ->]; unfold read;
    destruct (ToArray calls false false) as [[arrayfiedCalls msgValue] [e|]];
    reflexivity.
Qed.

Lemma static_try_signatures_clear_simulation_witness :
  @read (Sample.world Sample.reverting) Sample.twoCalls true (Some 51966)
     "tryAggregateStatic((address,bytes)[],bool)" (Some ["(bool,bytes)[]"])
     (Some 51966) None true
  = @read (Sample.world Sample.reverting) Sample.twoCalls true (Some 51966)
      "tryAggregateStatic((address,bytes)[],bool)" (Some ["(bool,bytes)[]"])
      (Some 51966) None false.
Proof.
  apply (@static_try_signatures_clear_simulation (Sample.world Sample.reverting)).
  right. reflexivity.
Defined.

(** *** What a mutating dispatch returns *)

Ltac write_leaf H leaf :=
  cbn in H; first [ discriminate H | inversion H; subst; clear H; leaf ].

Ltac write_runs H leaf :=
  unfold write in H;
  match type of H with
  | context [ToArray ?c ?a ?b] =>
      destruct (ToArray c a b) as [[arrayfiedCalls msgValue] [e|]] eqn:HtoArray
  end; [write_leaf H leaf |];
  match type of H with
  | context [if ?c then abi_EncodeWithSignature ?s ?x else abi_EncodeWithSignature ?s ?y] =>
      destruct (if c then abi_EncodeWithSignature s x else abi_EncodeWithSignature s y)
        as [callData [e|]] eqn:Hencode
  end; [write_leaf H leaf |];
  unfold createTransaction, ChainID, CallContract, client_BlockNumber,
         sendSignedTransaction, deref, receiptBlockNumber, bind, request, ret, throw,
         result in H;
  match type of H with
  | context [GetAddress ?s] => destruct (GetAddress s) as [from|] eqn:Hfrom
  end;
  match type of H with
  | context [rpc_createTransaction ?f ?t ?v ?d] =>
      destruct (rpc_createTransaction f t v d) as [tx [e|]] eqn:Hcreate
  end; try (write_leaf H leaf; fail);
  destruct rpc_ChainID as [chainId [e|]] eqn:Hchain; try (write_leaf H leaf; fail);
  match type of H with
  | context [SignTx ?s ?t ?c] =>
      destruct (SignTx s t c) as [signedTx [e|]] eqn:Hsign
  end; try (write_leaf H leaf; fail);
  try (discriminate H);
  match type of H with
  | context [rpc_CallContract ?m ?b] =>
      destruct (rpc_CallContract m b) as [encoded [e|]] eqn:Hdry
  end;
  [destruct rpc_BlockNumber as [bn [e'|]] eqn:Hblock; write_leaf H leaf |];
  match type of H with
  | context [rpc_sendSignedTransaction ?t] =>
      destruct (rpc_sendSignedTransaction t) as [[rc|] [e|]] eqn:Hsend
  end; try (write_leaf H leaf; fail);
  match type of H with
  | context [abi_Decode ?t ?d] =>
      destruct (abi_Decode t d) as [raw [e|]] eqn:Hdecode
  end; write_leaf H leaf.

(** A [Result] of a mutating dispatch without error was made after the
    broadcast: its flag is the status bit of the receipt the broadcast
    returned, and its network record is built from the signed transaction,
    the signer's address and the receipt's block number. *)
Theorem mutating_success_reports_the_receipt {W : Collaborators} calls requireSuccess
    signer to funcSignature txReturnTypes withValue isMultiCall3Type (r : Result) :
  result (write calls requireSuccess signer to funcSignature txReturnTypes withValue
                isMultiCall3Type) = Returns r ->
  Error_ r = None ->
  exists signedTx receipt from,
    rpc_sendSignedTransaction signedTx = (Some receipt, None) /\
    GetAddress signer = Some from /\
    Success r = (Status receipt =? 1) /\
    TxOrCall_ r = FromTxToTxOrCall signedTx from (BlockNumber receipt).
Proof.
  intros H Herr.
  write_runs H ltac:(try discriminate Herr).
  exists signedTx, rc, from.
  split; [exact Hsend |]. split; [reflexivity |].
  unfold parseResults. destruct (0 <? len raw); split; reflexivity.
Qed.

Lemma mutating_success_reports_the_receipt_witness :
  exists signedTx receipt from,
    @rpc_sendSignedTransaction (Sample.world Sample.minedFailed) signedTx
      = (Some receipt, None) /\
    GetAddress (Sample.signer Sample.minedFailed) = Some from /\
    false = (Status receipt =? 1) /\
    Sample.OfTx (Some [xff]) 9 (Some 101)
      = @FromTxToTxOrCall (Sample.world Sample.minedFailed) signedTx from
          (BlockNumber receipt).
Proof.
  apply (@mutating_success_reports_the_receipt (Sample.world Sample.minedFailed)
           Sample.twoCalls false (Sample.signer _) (Some 51966)
           "aggregateCalls((address,bytes,uint256)[])" (Some ["bytes[]"]) true false
           (mkResult false (Slice [Slice [Bytes [x01]; Bytes [x01]]]) None
              (Sample.OfTx (Some [xff]) 9 (Some 101))));
    reflexivity.
Defined.

Ltac name_the_error Herr :=
  cbn in Herr;
  first
    [ exfalso; unfold parseResults in Herr;
      match type of Herr with
      | context [if ?c then _ else _] => destruct c
      end; discriminate Herr
    | inversion Herr; subst; clear Herr;
      split; [reflexivity |]; split; [reflexivity |];
      first
        [ left; unfold collaboratorError;
          first
            [ left; match goal with
                    | Ht : ToArray _ _ _ = _ |- _ => rewrite Ht; reflexivity
                    end
            | right; left;
              match goal with
              | He : (if ?c then _ else _) = _ |- _ =>
                  destruct c; eexists _, _; rewrite He; reflexivity
              end
            | right; right; right; right; right;
              match goal with
              | Hb : rpc_BlockNumber = (_, Some _) |- _ => rewrite Hb; reflexivity
              end
            | right; right; right; right; left;
              match goal with
              | Hs : SignTx _ _ _ = (_, Some _) |- _ =>
                  eexists _, _; rewrite Hs; reflexivity
              end
            | right; right; right; left;
              match goal with
              | Hc : rpc_ChainID = (_, Some _) |- _ => rewrite Hc; reflexivity
              end
            | right; right; left;
              match goal with
              | Hc : rpc_createTransaction _ _ _ _ = (_, Some _) |- _ =>
                  eexists _, _, _, _; rewrite Hc; reflexivity
              end ]
        | right; left; eexists; reflexivity
        | right; right; left;
          match goal with
          | Hs : rpc_sendSignedTransaction _ = (_, Some _) |- _ =>
              eexists _, _; split; [reflexivity | rewrite Hs; reflexivity]
          end
        | right; right; right;
          match goal with
          | Hd : abi_Decode _ _ = (_, Some _) |- _ =>
              eexists _, _; split; [reflexivity | rewrite Hd; reflexivity]
          end ] ].

(** Every error of a mutating dispatch comes with a false flag and no
    payload, and is of one of four kinds: an error of a collaborator (the
    call set, the encoder, the transaction builder, the chain-identifier or
    block-number lookup, the signer) handed back as it is; "error calling
    contract", which wraps nothing; "error sending signed transaction",
    which wraps the error of the broadcast; "error decoding call result",
    which wraps the error of the decoder. *)
Theorem mutating_failure_kinds {W : Collaborators} calls requireSuccess signer to
    funcSignature txReturnTypes withValue isMultiCall3Type (r : Result) (err : error) :
  result (write calls requireSuccess signer to funcSignature txReturnTypes withValue
                isMultiCall3Type) = Returns r ->
  Error_ r = Some err ->
  Success r = false /\
  Result_ r = Nil /\
  (collaboratorError calls signer withValue isMultiCall3Type err \/
   (exists data,
      err = ErrWrap "error calling contract: " None
                    (", with data: " ++ Bytes2Hex data)%string) \/
   (exists cause signedTx,
      err = ErrWrap "error sending signed transaction: " (Some cause) "" /\
      snd (rpc_sendSignedTransaction signedTx) = Some cause) \/
   (exists cause encoded,
      err = ErrWrap "error decoding call result: " (Some cause) "" /\
      snd (abi_Decode txReturnTypes encoded) = Some cause)).
Proof.
  intros H Herr.
  write_runs H ltac:(name_the_error Herr).
Qed.

Lemma mutating_failure_kinds_witness :
  let err := ErrWrap "error sending signed transaction: "
               (Some (ErrText "nonce too low")) "" in
  false = false /\
  Nil = Nil /\
  (@collaboratorError (Sample.world Sample.sendRejected) Sample.twoCalls
     (Sample.signer _) true false err \/
   (exists data,
      err = ErrWrap "error calling contract: " None
                    (", with data: " ++ Bytes2Hex data)%string) \/
   (exists cause signedTx,
      err = ErrWrap "error sending signed transaction: " (Some cause) "" /\
      snd (@rpc_sendSignedTransaction (Sample.world Sample.sendRejected) signedTx)
        = Some cause) \/
   (exists cause encoded,
      err = ErrWrap "error decoding call result: " (Some cause) "" /\
      snd (@abi_Decode (Sample.world Sample.sendRejected) (Some ["bytes[]"]) encoded)
        = Some cause)).
Proof.
  apply (@mutating_failure_kinds (Sample.world Sample.sendRejected)
           Sample.twoCalls false (Sample.signer _) (Some 51966)
           "aggregateCalls((address,bytes,uint256)[])" (Some ["bytes[]"]) true false
           (mkResult false Nil
              (Some (ErrWrap "error sending signed transaction: "
                             (Some (ErrText "nonce too low")) ""))
              (Sample.OfTx (Some [xff]) 9 (Some 101))));
    reflexivity.
Defined.

(** *** The dry run and the broadcast *)

(** A run of [write] that sends the signed transaction made exactly four
    requests, in this order: the transaction was built, the chain identifier
    read, the dry run made from the signer's address with the target and the
    calldata of the transaction, and the transaction sent; and the dry run
    had returned no error. *)
Theorem broadcast_is_the_fourth_request {W : Collaborators} calls requireSuccess
    signer to funcSignature txReturnTypes withValue isMultiCall3Type signedTx :
  In (EvSendSignedTransaction signedTx)
     (trace (write calls requireSuccess signer to funcSignature txReturnTypes
                   withValue isMultiCall3Type)) ->
  exists from value data,
    GetAddress signer = Some from /\
    trace (write calls requireSuccess signer to funcSignature txReturnTypes
                 withValue isMultiCall3Type)
    = [EvCreateTransaction (Some from) to value data; EvChainID;
       EvCallContract (mkCallMsg from to data) None;
       EvSendSignedTransaction signedTx] /\
    snd (rpc_CallContract (mkCallMsg from to data) None) = None.
Proof.
  intros Hin.
  destruct (write_requests calls requireSuccess signer to funcSignature txReturnTypes
                           withValue isMultiCall3Type)
    as [Ht | [value [data [Ht | [Ht | [from [Hfrom [[Ht _] | [tx [Ht Hok]]]]]]]]]];
    rewrite Ht in Hin |- *; cbn in Hin;
    repeat (destruct Hin as [Hin | Hin]; try discriminate Hin); try contradiction.
  inversion Hin; subst.
  exists from, value, data. rewrite Hfrom. repeat split. exact Hok.
Qed.

Lemma broadcast_is_the_fourth_request_witness :
  exists from value data,
    GetAddress (Sample.signer Sample.quiet) = Some from /\
    trace (@write (Sample.world Sample.quiet) Sample.twoCalls false (Sample.signer _)
             (Some 51966) "aggregateCalls((address,bytes,uint256)[])"
             (Some ["bytes[]"]) true false)
    = [EvCreateTransaction (Some from) (Some 51966) value data; EvChainID;
       EvCallContract (mkCallMsg from (Some 51966) data) None;
       @EvSendSignedTransaction (Sample.world Sample.quiet) (Some [xff])] /\
    snd (@rpc_CallContract (Sample.world Sample.quiet)
           (mkCallMsg from (Some 51966) data) None) = None.
Proof.
  apply (@broadcast_is_the_fourth_request (Sample.world Sample.quiet)).
  cbn. right; right; right; left. reflexivity.
Defined.

(** A signer whose [GetAddress] is nil: once the call set is normalized and
    encoded, [write] cannot return.  It panics on the nil address, after
    building the transaction or after reading the chain identifier, and
    before any dry run or broadcast. *)
Theorem signer_without_address_panics {W : Collaborators} calls requireSuccess
    signer to funcSignature txReturnTypes withValue isMultiCall3Type
    arrayfiedCalls msgValue callData :
  GetAddress signer = None ->
  ToArray calls withValue isMultiCall3Type = (arrayfiedCalls, msgValue, None) ->
  encodingOf funcSignature
    (encoderArguments ViaWrite funcSignature arrayfiedCalls requireSuccess)
    = Some callData ->
  let run := write calls requireSuccess signer to funcSignature txReturnTypes
                   withValue isMultiCall3Type in
  result run = Panics NilDereference /\
  (trace run = [EvCreateTransaction None to msgValue callData] \/
   trace run = [EvCreateTransaction None to msgValue callData; EvChainID]).
Proof.
  intros Hnil HtoArray Hencode. cbv zeta.
  unfold write. rewrite HtoArray.
  unfold encodingOf, encoderArguments in Hencode. cbn [trailingBoolSignature] in Hencode.
  assert (Hcd : (if (funcSignature =? "tryAggregateCalls((address,bytes,uint256)[],bool)")%string
                 then abi_EncodeWithSignature funcSignature
                        [arrayfiedCalls; Bool requireSuccess]
                 else abi_EncodeWithSignature funcSignature [arrayfiedCalls])
                = (callData, None)).
  { destruct (funcSignature =? _)%string;
      destruct (abi_EncodeWithSignature funcSignature _) as [cd [e|]];
      inversion Hencode; reflexivity. }
  rewrite Hcd, Hnil.
  unfold createTransaction, ChainID, deref, bind, request, ret, throw, trace, result.
  destruct (rpc_createTransaction None to msgValue callData) as [tx [e|]];
    [split; [reflexivity | left; reflexivity] |].
  destruct rpc_ChainID as [chainId [e|]];
    [split; [reflexivity | right; reflexivity] |].
  destruct (SignTx signer tx chainId) as [signedTx [e|]];
    split; try reflexivity; right; reflexivity.
Qed.

Lemma signer_without_address_panics_witness :
  let run := @write (Sample.world Sample.quiet) Sample.twoCalls false
               (Sample.anonymous _) (Some 51966)
               "aggregateCalls((address,bytes,uint256)[])" (Some ["bytes[]"]) true
               false in
  result run = Panics NilDereference /\
  (trace run = [EvCreateTransaction None (Some 51966) None [xff]] \/
   trace run = [EvCreateTransaction None (Some 51966) None [xff]; EvChainID]).
Proof.
  apply (@signer_without_address_panics (Sample.world Sample.quiet) Sample.twoCalls
           false (Sample.anonymous _) (Some 51966)
           "aggregateCalls((address,bytes,uint256)[])" (Some ["bytes[]"]) true false
           Sample.arrayfied None [xff]); reflexivity.
Defined.

(** *** A call set that cannot be normalized *)

(** When [ToArray] returns an error, every entry point that takes a call
    set returns that error as a failure with the zero network record, and
    makes no request at all. *)
Theorem normalization_failure_makes_no_request {W : Collaborators} (ep : EntryPoint)
    (m : MultiCall) (a : Args) (e : error) :
  ContractAddress m <> None ->
  Signer m <> None \/ a_isCall a = true ->
  isMetadata ep = false ->
  (forall includeValue useFailureShape,
     snd (ToArray (a_calls a) includeValue useFailureShape) = Some e) ->
  invoke ep m a = ([], Returns (failure e zeroTxOrCall)).
Proof.
  intros Hlive Hsigner Hmeta Hbad.
  destruct (ContractAddress m) as [c|] eqn:Hc; [| contradiction].
  assert (Hwrite : forall rs s to sig ts,
             write (a_calls a) rs s to sig ts true false
             = ([], Returns (failure e zeroTxOrCall))).
  { intros. unfold write. pose proof (Hbad true false) as Hb.
    destruct (ToArray (a_calls a) true false) as [[arr v] err]. cbn in Hb. subst err.
    reflexivity. }
  assert (HasRead : forall rs to sig ts bn,
             asRead (a_calls a) rs to sig ts bn
             = ([], Returns (failure e zeroTxOrCall))).
  { intros. unfold asRead. pose proof (Hbad true false) as Hb.
    destruct (ToArray (a_calls a) true false) as [[arr v] err]. cbn in Hb. subst err.
    reflexivity. }
  assert (Hread : forall rs to sig ts ma bn sim,
             read (a_calls a) rs to sig ts ma bn sim
             = ([], Returns (failure e zeroTxOrCall))).
  { intros. unfold read. pose proof (Hbad false false) as Hb.
    destruct (ToArray (a_calls a) false false) as [[arr v] err]. cbn in Hb. subst err.
    reflexivity. }
  destruct ep; try discriminate Hmeta; cbn [invoke];
    unfold AggregateCalls, TryAggregateCalls, TryAggregateCalls3, SimulateCall,
           AggregateStatic, TryAggregateStatic, TryAggregateStatic3, txAsRead,
           txAsReadWithFailure, transact, transactWithFailure, call, callWithFailure;
    rewrite ?Hc; cbn [isNil isSome negb]; rewrite ?Hread; try reflexivity.
  all: destruct (a_isCall a) eqn:Hcall;
    [ rewrite andb_false_r; apply HasRead
    | destruct (Signer m) as [s|];
      [ cbn [isNil isSome negb andb derefSigner]; unfold bind, ret;
        rewrite Hwrite; reflexivity
      | destruct Hsigner; [contradiction | discriminate] ] ].
Qed.

Lemma normalization_failure_makes_no_request_witness :
  @invoke (Sample.world Sample.quiet) EpTryAggregateCalls3 (Sample.deployed _)
     (mkArgs Sample.badCalls None false None false)
  = ([], Returns (mkResult false Nil (Some (ErrText "nil target address"))
                    Sample.NoRecord)).
Proof.
  apply (@normalization_failure_makes_no_request (Sample.world Sample.quiet)
           EpTryAggregateCalls3 (Sample.deployed _)
           (mkArgs Sample.badCalls None false None false)
           (ErrText "nil target address")).
  - discriminate.
  - left. discriminate.
  - reflexivity.
  - intros includeValue useFailureShape. reflexivity.
Defined.

(** When the caller pins no block, a metadata read whose answer decoded
    still fails if the block-number lookup that follows fails: the decoded
    values are dropped and the lookup's error is returned, with the record of
    the call at a nil block. *)
Theorem failed_lookup_discards_the_answer {W : Collaborators} addresses to
    funcSignature returnTypes callData encoded c (raw : list any) (latest : Z)
    (e : error) :
  encodingOf funcSignature
    match addresses with
    | Some l => [toAnyArray l]
    | None => []
    end = Some callData ->
  rpc_readContract ZERO_ADDRESS to callData None = (encoded, c, None) ->
  abi_Decode returnTypes encoded = (raw, None) ->
  rpc_BlockNumber = (latest, Some e) ->
  getData addresses to funcSignature returnTypes None
  = ([EvReadContract ZERO_ADDRESS to callData None; EvBlockNumber],
     Returns (mkResult false Nil (Some e) (FromCallToTxOrCall c None))).
Proof.
  intros Hencode Hread Hdecode Hblock. unfold getData.
  unfold encodingOf in Hencode.
  destruct (abi_EncodeWithSignature funcSignature
              match addresses with
              | Some l => [toAnyArray l]
              | None => []
              end) as [cd [e'|]] eqn:Hcd; [discriminate Hencode |].
  inversion Hencode; subst cd.
  replace (match addresses with
           | Some a => abi_EncodeWithSignature funcSignature [toAnyArray a]
           | None => abi_EncodeWithSignature funcSignature []
           end) with (callData, @None error)
    by (destruct addresses; symmetry; exact Hcd).
  unfold readContract, client_BlockNumber, bind, request, ret.
  rewrite Hread, Hdecode, Hblock. reflexivity.
Qed.

Lemma failed_lookup_discards_the_answer_witness :
  @getData (Sample.world Sample.lookupFails) (Some [Some 7; Some 7]) (Some 51966)
     "getBalances(address[])" (Some ["bytes[]"]) None
  = ([EvReadContract 0 (Some 51966) [xff] None; EvBlockNumber],
     Returns (mkResult false Nil (Some (ErrText "header not found"))
                (Sample.OfCall (mkCallMsg 0 (Some 51966) [xff]) None))).
Proof.
  apply (@failed_lookup_discards_the_answer (Sample.world Sample.lookupFails)
           (Some [Some 7; Some 7]) (Some 51966) "getBalances(address[])"
           (Some ["bytes[]"]) [xff] [x01; x01] (mkCallMsg 0 (Some 51966) [xff])
           [Slice [Bytes [x01]; Bytes [x01]]] 0 (ErrText "header not found"));
    reflexivity.
Defined.

(** *** The response behind a payload *)

Lemma encodingOf_aggregate {W : Collaborators} funcSignature arrayfiedCalls
    requireSuccess callData (e : option error) :
  (if (funcSignature =? "tryAggregateCalls((address,bytes,uint256)[],bool)")%string
   then abi_EncodeWithSignature funcSignature [arrayfiedCalls; Bool requireSuccess]
   else abi_EncodeWithSignature funcSignature [arrayfiedCalls]) = (callData, e) ->
  encodingOf funcSignature
    (encoderArguments ViaWrite funcSignature arrayfiedCalls requireSuccess)
  = match e with None => Some callData | Some _ => None end /\
  encodingOf funcSignature
    (encoderArguments ViaAsRead funcSignature arrayfiedCalls requireSuccess)
  = match e with None => Some callData | Some _ => None end.
Proof.
  intros H. unfold encodingOf, encoderArguments. cbn [trailingBoolSignature].
  destruct (funcSignature =? _)%string; rewrite H; split; reflexivity.
Qed.

Lemma encodingOf_static {W : Collaborators} funcSignature arrayfiedCalls
    requireSuccess (isSimulation sim : bool) callData (e : option error) :
  (if (funcSignature =? "tryAggregateStatic((address,bytes)[],bool)")%string
   then (false,
         abi_EncodeWithSignature funcSignature [arrayfiedCalls; Bool requireSuccess])
   else (if (funcSignature =? "tryAggregateStatic((address,bytes,bool)[])")%string
         then false else isSimulation,
         abi_EncodeWithSignature funcSignature [arrayfiedCalls]))
  = (sim, (callData, e)) ->
  sim = simulates funcSignature isSimulation /\
  encodingOf funcSignature
    (encoderArguments ViaRead funcSignature arrayfiedCalls requireSuccess)
  = match e with None => Some callData | Some _ => None end.
Proof.
  intros H. unfold encodingOf, encoderArguments, simulates.
  cbn [trailingBoolSignature].
  destruct (funcSignature =? "tryAggregateStatic((address,bytes)[],bool)")%string;
    inversion H as [[Hsim Henc]]; rewrite Henc.
  - destruct (funcSignature =? _)%string; split; reflexivity.
  - split; reflexivity.
Qed.

Lemma makeCall_response {W : Collaborators} calls to callData txReturnTypes
    (isSimulation : bool) multicallAddress blockNumber d agg (t : TxOrCall) :
  result (makeCall calls to callData txReturnTypes isSimulation multicallAddress
                   blockNumber) = Returns (d, agg, t, None) ->
  exists raw,
    (if isSimulation then raw = []
     else snd (rpc_readContract ZERO_ADDRESS to callData blockNumber) = None /\
          abi_Decode txReturnTypes
            (fst (fst (rpc_readContract ZERO_ADDRESS to callData blockNumber)))
          = (raw, None)) /\
    reconciles calls raw d agg.
Proof.
  intros H. pose proof (makeCall_success _ _ _ _ _ _ _ H) as [raw [Hraw [Hu Hd]]].
  exists raw. split; [| split; assumption].
  destruct isSimulation; [exact Hraw |]. split; [| exact Hraw].
  unfold makeCall, readContract in H.
  rewrite result_bind in H. cbn [result snd request] in H.
  destruct (rpc_readContract ZERO_ADDRESS to callData blockNumber)
    as [[encoded c] [e|]]; [discriminate H | reflexivity].
Qed.

Lemma asRead_returns {W : Collaborators} calls requireSuccess to funcSignature
    txReturnTypes blockNumber (r : Result) :
  result (asRead calls requireSuccess to funcSignature txReturnTypes blockNumber)
    = Returns r ->
  Error_ r = None ->
  exists raw matched perCall,
    readsResponse ViaAsRead calls requireSuccess to funcSignature txReturnTypes
                  blockNumber false raw /\
    reconciles calls raw matched perCall /\
    Result_ r = if 0 <? len perCall then Slice perCall else Slice matched.
Proof.
  unfold asRead. intros H Herr.
  destruct (ToArray calls true false) as [[arrayfiedCalls msgValue] [e|]] eqn:HtoArray;
    [cbn in H; inversion H; subst; discriminate Herr |].
  destruct (if (funcSignature =? _)%string then _ else _) as [callData [e|]] eqn:Henc;
    [cbn in H; inversion H; subst; discriminate Herr |].
  apply encodingOf_aggregate in Henc. destruct Henc as [_ Henc].
  rewrite result_bind in H.
  destruct (result (makeCall calls to callData txReturnTypes false None blockNumber))
    as [[[[d agg] c] err]|p] eqn:Hmake; [| discriminate H].
  destruct err as [e|]; [cbn in H; inversion H; subst; discriminate Herr |].
  apply makeCall_response in Hmake. destruct Hmake as [raw [Hraw Hrec]].
  cbn in H. inversion H; subst.
  exists raw, d, agg. split; [| split; [exact Hrec | apply parseResults_payload]].
  exists arrayfiedCalls, msgValue, callData. split; [exact HtoArray |].
  split; [exact Henc | exact Hraw].
Qed.

Lemma read_returns {W : Collaborators} calls requireSuccess to funcSignature
    txReturnTypes multicallAddress blockNumber isSimulation (r : Result) :
  result (read calls requireSuccess to funcSignature txReturnTypes multicallAddress
               blockNumber isSimulation) = Returns r ->
  Error_ r = None ->
  exists raw matched perCall,
    readsResponse ViaRead calls requireSuccess to funcSignature txReturnTypes
                  blockNumber (simulates funcSignature isSimulation) raw /\
    reconciles calls raw matched perCall /\
    Result_ r = if 0 <? len perCall then Slice perCall else Slice matched.
Proof.
  unfold read. intros H Herr.
  destruct (ToArray calls false false) as [[arrayfiedCalls msgValue] [e|]] eqn:HtoArray;
    [cbn in H; inversion H; subst; discriminate Herr |].
  destruct (if (funcSignature =? "tryAggregateStatic((address,bytes)[],bool)")%string
            then _ else _) as [sim [callData [e|]]] eqn:Henc;
    [cbn in H; inversion H; subst; discriminate Herr |].
  apply encodingOf_static in Henc. destruct Henc as [Hsim Henc].
  rewrite result_bind in H.
  destruct (result (makeCall calls to callData txReturnTypes sim multicallAddress
                             blockNumber))
    as [[[[d agg] c] err]|p] eqn:Hmake; [| discriminate H].
  destruct err as [e|]; [cbn in H; inversion H; subst; discriminate Herr |].
  apply makeCall_response in Hmake. destruct Hmake as [raw [Hraw Hrec]].
  cbn in H. inversion H; subst.
  exists raw, d, agg. split; [| split; [exact Hrec | apply parseResults_payload]].
  exists arrayfiedCalls, msgValue, callData. split; [exact HtoArray |].
  split; [exact Henc | exact Hraw].
Qed.

Lemma write_returns {W : Collaborators} calls requireSuccess signer to funcSignature
    txReturnTypes withValue isMultiCall3Type (r : Result) :
  result (write calls requireSuccess signer to funcSignature txReturnTypes withValue
                isMultiCall3Type) = Returns r ->
  Error_ r = None ->
  exists raw receipt,
    dryRunAndReceipt calls requireSuccess signer to funcSignature txReturnTypes
                     withValue isMultiCall3Type raw receipt /\
    Result_ r = if 0 <? len raw then Slice raw else ReceiptOf receipt.
Proof.
  intros H Herr.
  write_runs H ltac:(try discriminate Herr).
  apply encodingOf_aggregate in Hencode. destruct Hencode as [Hencode _].
  exists raw, rc. split; [| apply parseResults_payload].
  exists arrayfiedCalls, msgValue, callData, from, tx, chainId, signedTx.
  rewrite Hdry. cbn [fst snd]. repeat split; assumption.
Qed.

Lemma getData_returns {W : Collaborators} addresses to funcSignature returnTypes
    blockNumber (r : Result) :
  result (getData addresses to funcSignature returnTypes blockNumber) = Returns r ->
  Error_ r = None ->
  exists raw,
    metadataResponse addresses to funcSignature returnTypes blockNumber raw /\
    Result_ r = Slice raw.
Proof.
  unfold getData, metadataResponse, encodingOf. intros H Herr.
  replace (match addresses with
           | Some a => abi_EncodeWithSignature funcSignature [toAnyArray a]
           | None => abi_EncodeWithSignature funcSignature []
           end)
    with (abi_EncodeWithSignature funcSignature
            match addresses with
            | Some l => [toAnyArray l]
            | None => []
            end) in H by (destruct addresses; reflexivity).
  destruct (abi_EncodeWithSignature funcSignature _) as [callData [e|]];
    [cbn in H; inversion H; subst; discriminate Herr |].
  unfold bind, result, readContract, client_BlockNumber, request, ret in H.
  destruct (rpc_readContract ZERO_ADDRESS to callData blockNumber)
    as [[encoded c] [e|]] eqn:Hread;
    [cbn in H; inversion H; subst; discriminate Herr |].
  destruct (abi_Decode returnTypes encoded) as [raw [e|]] eqn:Hraw;
    [cbn in H; inversion H; subst; discriminate Herr |].
  assert (Hres : Result_ r = Slice raw).
  { destruct blockNumber as [bn|].
    - cbn in H. inversion H; subst. reflexivity.
    - destruct rpc_BlockNumber as [bn [e|]]; cbn in H; inversion H; subst;
        [discriminate Herr | reflexivity]. }
  exists raw. split; [| exact Hres].
  exists callData. rewrite Hread. cbn [fst snd]. repeat split. exact Hraw.
Qed.

(** *** Order of the results *)

Lemma reconciled_entries_follow {W : Collaborators} (calls : CallsInterface)
    (raw matched perCall : list any) :
  reconciles calls raw matched perCall ->
  find (hasCount (Len calls)) (spine (Slice raw)) = Some matched /\
  len perCall = Len calls /\
  entriesFollow calls matched perCall.
Proof.
  intros [Hu Hd].
  pose proof (unwrap_length _ _ Hu) as Hlen.
  apply unwrap_returns_iff in Hu.
  unfold decodeAggregateCallsResult in Hd.
  destruct (decodeSlots_invariant _ _ _ _ Hd) as [outs [Hout [Hsame Hnth]]].
  cbn in Hout. subst outs.
  split; [exact Hu |]. split.
  - unfold len in *. rewrite Hsame. exact Hlen.
  - split; [exact Hsame | exact Hnth].
Qed.

Lemma reconciled_payload {W : Collaborators} (calls : CallsInterface)
    (raw matched perCall : list any) :
  reconciles calls raw matched perCall ->
  (if 0 <? len perCall then Slice perCall else Slice matched) = Slice perCall.
Proof.
  intros Hrec. destruct (reconciled_entries_follow Hrec) as [_ [_ [Hsame _]]].
  destruct (0 <? len perCall) eqn:Hpos; [reflexivity |].
  destruct perCall as [|x xs]; [| discriminate Hpos].
  destruct matched as [|y ys]; [reflexivity | discriminate Hsame].
Qed.

(** C4, as amended.  The per-call decode step keeps the order: when it
    completes, its output at index [i] is made from the slot at index [i]
    with the return types declared for position [i].  The slots it is given
    are those of the count-matched list: a [Result] of [asRead] or [read]
    without error holds [C.Len()] entries, and the entry at index [i] is made
    from the element at index [i] of the first list, on the first-element
    spine of the decoded response, that has [C.Len()] elements. *)
Theorem read_results_follow_the_matched_list {W : Collaborators}
    (calls : CallsInterface) (r : Result) :
  (forall slots out,
     decodeAggregateCallsResult slots calls = Returns (out, None) ->
     entriesFollow calls slots out) /\
  (forall requireSuccess to funcSignature txReturnTypes blockNumber,
     result (asRead calls requireSuccess to funcSignature txReturnTypes blockNumber)
       = Returns r ->
     Error_ r = None ->
     exists raw matched perCall,
       readsResponse ViaAsRead calls requireSuccess to funcSignature txReturnTypes
                     blockNumber false raw /\
       find (hasCount (Len calls)) (spine (Slice raw)) = Some matched /\
       Result_ r = Slice perCall /\
       len perCall = Len calls /\
       entriesFollow calls matched perCall) /\
  (forall requireSuccess to funcSignature txReturnTypes multicallAddress blockNumber
          isSimulation,
     result (read calls requireSuccess to funcSignature txReturnTypes multicallAddress
                  blockNumber isSimulation) = Returns r ->
     Error_ r = None ->
     exists raw matched perCall,
       readsResponse ViaRead calls requireSuccess to funcSignature txReturnTypes
                     blockNumber (simulates funcSignature isSimulation) raw /\
       find (hasCount (Len calls)) (spine (Slice raw)) = Some matched /\
       Result_ r = Slice perCall /\
       len perCall = Len calls /\
       entriesFollow calls matched perCall).
Proof.
  split; [| split].
  - intros slots out H. unfold decodeAggregateCallsResult in H.
    destruct (decodeSlots_invariant _ _ _ _ H) as [outs [Hout [Hsame Hnth]]].
    cbn in Hout. subst outs. split; assumption.
  - intros rs to sig ts bn H Herr.
    destruct (asRead_returns _ _ _ _ _ _ H Herr)
      as (raw & matched & perCall & Hresp & Hrec & Hpay).
    rewrite (reconciled_payload Hrec) in Hpay.
    destruct (reconciled_entries_follow Hrec) as [Hfind [Hlen Hfollow]].
    exists raw, matched, perCall.
    split; [exact Hresp |]. split; [exact Hfind |]. split; [exact Hpay |].
    split; [exact Hlen | exact Hfollow].
  - intros rs to sig ts ma bn sim H Herr.
    destruct (read_returns _ _ _ _ _ _ _ _ H Herr)
      as (raw & matched & perCall & Hresp & Hrec & Hpay).
    rewrite (reconciled_payload Hrec) in Hpay.
    destruct (reconciled_entries_follow Hrec) as [Hfind [Hlen Hfollow]].
    exists raw, matched, perCall.
    split; [exact Hresp |]. split; [exact Hfind |]. split; [exact Hpay |].
    split; [exact Hlen | exact Hfollow].
Qed.

Lemma read_results_follow_the_matched_list_witness :
  let r := mkResult true (Slice [Slice [BigInt 5]; Slice [BigInt 5]]) None
             (Sample.OfCall (mkCallMsg 0 (Some 51966) [xff]) (Some 100)) in
  exists raw matched perCall,
    @readsResponse (Sample.world Sample.quiet) ViaRead Sample.valuedCalls false
       (Some 51966) "aggregateStatic((address,bytes)[])" (Some ["bytes[]"]) None
       (simulates "aggregateStatic((address,bytes)[])" false) raw /\
    find (hasCount (Len Sample.valuedCalls)) (spine (Slice raw)) = Some matched /\
    Result_ r = Slice perCall /\
    len perCall = Len Sample.valuedCalls /\
    @entriesFollow (Sample.world Sample.quiet) Sample.valuedCalls matched perCall.
Proof.
  refine (proj2 (proj2 (@read_results_follow_the_matched_list
                          (Sample.world Sample.quiet) Sample.valuedCalls _))
            false (Some 51966) "aggregateStatic((address,bytes)[])" (Some ["bytes[]"])
            (Some 51966) None false _ _); reflexivity.
Defined.

(** C4, as stated, fails.  One call that declares [uint256] is sent through
    the static aggregate and the contract answers the one payload [01].  The
    decoded response wraps the per-call array in a list of one element, which
    is as many as there are calls, so the loop leaves the wrapper in place:
    the entry at index 0 of the [Result] is the whole per-call array, not the
    number that the payload of call 0 decodes to. *)
Lemma one_call_result_is_the_wrapper :
  let run := @AggregateStatic (Sample.world Sample.shortAnswer) (Sample.deployed _)
               Sample.oneCall None in
  @abi_Decode (Sample.world Sample.shortAnswer) (Some ["bytes[]"]) [x01]
    = ([Slice [Bytes [x01]]], None) /\
  @slotOutput (Sample.world Sample.shortAnswer) (GetReturnTypes Sample.oneCall 0)
     (Bytes [x01]) = Some (Slice [BigInt 5]) /\
  result run = Returns (mkResult true (Slice [Slice [Bytes [x01]]]) None
                          (Sample.OfCall (mkCallMsg 0 (Some 51966) [xff]) (Some 100))) /\
  nth_error [Slice [Bytes [x01]]] 0 <> Some (Slice [BigInt 5]).
Proof.
  cbv zeta. repeat split. discriminate.
Qed.

(** *** What is encoded, one serialization for each helper *)

(** C5, as amended.  The calldata a helper sends is the encoding of the tuple
    array it serialized, followed by [requireSuccess] exactly when the
    signature is the one of that helper which ends in [bool]:
    [tryAggregateCalls((address,bytes,uint256)[],bool)] in [write] and
    [asRead], [tryAggregateStatic((address,bytes)[],bool)] in [read].  For
    every other signature the tuple array alone is encoded. *)
Theorem requireSuccess_is_encoded_for_the_bool_signatures {W : Collaborators}
    calls requireSuccess signer to funcSignature txReturnTypes withValue
    isMultiCall3Type multicallAddress blockNumber isSimulation
    forWrite valueForWrite forAsRead valueForAsRead forRead valueForRead :
  ToArray calls withValue isMultiCall3Type = (forWrite, valueForWrite, None) ->
  ToArray calls true false = (forAsRead, valueForAsRead, None) ->
  ToArray calls false false = (forRead, valueForRead, None) ->
  sentCalldata (trace (write calls requireSuccess signer to funcSignature
                             txReturnTypes withValue isMultiCall3Type))
    = encodingOf funcSignature
        (encoderArguments ViaWrite funcSignature forWrite requireSuccess) /\
  sentCalldata (trace (asRead calls requireSuccess to funcSignature txReturnTypes
                              blockNumber))
    = encodingOf funcSignature
        (encoderArguments ViaAsRead funcSignature forAsRead requireSuccess) /\
  sentCalldata (trace (read calls requireSuccess to funcSignature txReturnTypes
                            multicallAddress blockNumber isSimulation))
    = encodingOf funcSignature
        (encoderArguments ViaRead funcSignature forRead requireSuccess) /\
  forall p arrayfiedCalls,
    (funcSignature = trailingBoolSignature p ->
     encoderArguments p funcSignature arrayfiedCalls requireSuccess
     = [arrayfiedCalls; Bool requireSuccess]) /\
    (funcSignature <> trailingBoolSignature p ->
     encoderArguments p funcSignature arrayfiedCalls requireSuccess
     = [arrayfiedCalls]).
Proof.
  intros Hwrite HasRead Hread.
  split; [eapply write_sentCalldata; exact Hwrite |].
  split; [eapply asRead_sentCalldata; exact HasRead |].
  split; [eapply read_sentCalldata; exact Hread |].
  intros p arrayfiedCalls. unfold encoderArguments. split; intros H.
  - apply String.eqb_eq in H. rewrite H. reflexivity.
  - apply String.eqb_neq in H. rewrite H. reflexivity.
Qed.

Lemma requireSuccess_is_encoded_for_the_bool_signatures_witness :
  let signature := "tryAggregateStatic((address,bytes)[],bool)" in
  let forWrite := Slice [Sample.tupleOf true false; Sample.tupleOf true false] in
  let forRead := Slice [Sample.tupleOf false false; Sample.tupleOf false false] in
  forWrite <> forRead /\
  @sentCalldata (Sample.world Sample.quiet)
    (trace (write Sample.valuedCalls true (Sample.signer _) (Some 51966) signature
                  (Some ["(bool,bytes)[]"]) true false))
  = @encodingOf (Sample.world Sample.quiet) signature [forWrite] /\
  @sentCalldata (Sample.world Sample.quiet)
    (trace (read Sample.valuedCalls true (Some 51966) signature
                 (Some ["(bool,bytes)[]"]) (Some 51966) None false))
  = @encodingOf (Sample.world Sample.quiet) signature [forRead; Bool true].
Proof.
  cbv zeta. split; [discriminate |].
  pose proof (@requireSuccess_is_encoded_for_the_bool_signatures
                (Sample.world Sample.quiet) Sample.valuedCalls true (Sample.signer _)
                (Some 51966) "tryAggregateStatic((address,bytes)[],bool)"
                (Some ["(bool,bytes)[]"]) true false (Some 51966) None false
                _ _ _ _ _ _ eq_refl eq_refl eq_refl) as [Hw [_ [Hr _]]].
  split; [exact Hw | exact Hr].
Defined.

(** *** The payload and its fallback *)

(** C8, as amended.  [parseResults] takes its first list as the payload when
    that list is not empty, and otherwise its third argument, the result of
    the call or of the transaction.  On the read paths the first list is the
    reconciled per-call list of the response that was read and decoded, and
    the fallback is the count-matched list of that response.  On the mutating
    path the fallback, taken when the answer of the dry run decodes to
    nothing, is the receipt that the broadcast returned.  A metadata read
    does not reconcile: its payload is the value set that its response
    decodes to. *)
Theorem payload_by_path {W : Collaborators} (r : Result) :
  (forall d status v t,
     Result_ (parseResults d status v t) = if 0 <? len d then Slice d else v) /\
  (forall calls requireSuccess to funcSignature txReturnTypes blockNumber,
     result (asRead calls requireSuccess to funcSignature txReturnTypes blockNumber)
       = Returns r ->
     Error_ r = None ->
     exists raw matched perCall,
       readsResponse ViaAsRead calls requireSuccess to funcSignature txReturnTypes
                     blockNumber false raw /\
       reconciles calls raw matched perCall /\
       Result_ r = if 0 <? len perCall then Slice perCall else Slice matched) /\
  (forall calls requireSuccess to funcSignature txReturnTypes multicallAddress
          blockNumber isSimulation,
     result (read calls requireSuccess to funcSignature txReturnTypes multicallAddress
                  blockNumber isSimulation) = Returns r ->
     Error_ r = None ->
     exists raw matched perCall,
       readsResponse ViaRead calls requireSuccess to funcSignature txReturnTypes
                     blockNumber (simulates funcSignature isSimulation) raw /\
       reconciles calls raw matched perCall /\
       Result_ r = if 0 <? len perCall then Slice perCall else Slice matched) /\
  (forall calls requireSuccess signer to funcSignature txReturnTypes withValue
          isMultiCall3Type,
     result (write calls requireSuccess signer to funcSignature txReturnTypes
                   withValue isMultiCall3Type) = Returns r ->
     Error_ r = None ->
     exists raw receipt,
       dryRunAndReceipt calls requireSuccess signer to funcSignature txReturnTypes
                        withValue isMultiCall3Type raw receipt /\
       (len raw = 0 -> Result_ r = ReceiptOf receipt)) /\
  (forall addresses to funcSignature returnTypes blockNumber,
     result (getData addresses to funcSignature returnTypes blockNumber) = Returns r ->
     Error_ r = None ->
     exists raw,
       metadataResponse addresses to funcSignature returnTypes blockNumber raw /\
       Result_ r = Slice raw).
Proof.
  split; [intros; apply parseResults_payload |].
  split; [intros; eapply asRead_returns; eassumption |].
  split; [intros; eapply read_returns; eassumption |].
  split; [| intros; eapply getData_returns; eassumption].
  intros calls rs signer to sig ts withValue mc3 H Herr.
  destruct (write_returns _ _ _ _ _ _ _ _ H Herr) as (raw & receipt & Hrun & Hpay).
  exists raw, receipt. split; [exact Hrun |].
  intros Hempty. rewrite Hpay, Hempty. reflexivity.
Qed.

Lemma payload_by_path_witness :
  let r := mkResult true (ReceiptOf (mkReceipt 1 (Some 101))) None
             (Sample.OfTx (Some [xff]) 9 (Some 101)) in
  exists raw receipt,
    @dryRunAndReceipt (Sample.world Sample.emptyAnswer) Sample.valuedCalls false
       (Sample.signer _) (Some 51966) "aggregateCalls((address,bytes,uint256)[])"
       (Some ["bytes[]"]) true false raw receipt /\
    (len raw = 0 -> Result_ r = ReceiptOf receipt).
Proof.
  refine (proj1 (proj2 (proj2 (proj2
            (@payload_by_path (Sample.world Sample.emptyAnswer) _))))
            Sample.valuedCalls false (Sample.signer _) (Some 51966)
            "aggregateCalls((address,bytes,uint256)[])" (Some ["bytes[]"]) true false
            _ _); reflexivity.
Defined.

(** C8, as stated, fails: when the reconciled list is empty the payload is
    not the decoded outer value.  A static aggregate of no call, answered by
    an empty array, decodes to a list that holds one empty list, and its
    payload is the empty list the loop unwrapped it to.  A mutating batch
    whose dry run decodes to nothing has the receipt as its payload. *)
Lemma fallback_is_not_the_decoded_response :
  @abi_Decode (Sample.world Sample.emptyRead) (Some ["bytes[]"]) []
    = ([Slice []], None) /\
  @reconciles (Sample.world Sample.emptyRead) Sample.noCalls [Slice []] [] [] /\
  result (@AggregateStatic (Sample.world Sample.emptyRead) (Sample.deployed _)
            Sample.noCalls None)
    = Returns (mkResult true (Slice []) None
                 (Sample.OfCall (mkCallMsg 0 (Some 51966) [xff]) (Some 100))) /\
  Slice [] <> Slice [Slice []] /\
  @abi_Decode (Sample.world Sample.emptyAnswer) (Some ["bytes[]"]) [] = ([], None) /\
  result (@AggregateCalls (Sample.world Sample.emptyAnswer) (Sample.deployed _)
            Sample.twoCalls None false)
    = Returns (mkResult true (ReceiptOf (mkReceipt 1 (Some 101))) None
                 (Sample.OfTx (Some [xff]) 9 (Some 101))) /\
  ReceiptOf (mkReceipt 1 (Some 101)) <> Slice [].
Proof.
  split; [reflexivity |]. split; [split; reflexivity |]. split; [reflexivity |].
  split; [discriminate |]. split; [reflexivity |]. split; [reflexivity | discriminate].
Qed.

(** *** Simulation and the transport *)

(** In simulate mode a transport error whose text does not hold
    "execution reverted" is not returned: it is dropped and the run goes on
    with the empty list.  For a call set that is not empty the run panics in
    the count-matching loop.  For an empty call set the run ends as a read
    that got nothing would: a success with an empty payload, at the block
    the caller gave or at the latest block; and, when the caller gave no
    block and the block-number lookup fails, a failure with the error of the
    lookup. *)
Theorem simulation_drops_other_transport_errors {W : Collaborators}
    (m : MultiCall) (contract : Address) (calls : CallsInterface)
    (blockNumber : option Z) arrayfiedCalls msgValue callData encoded c (e : error) :
  ContractAddress m = Some contract ->
  ToArray calls false false = (arrayfiedCalls, msgValue, None) ->
  abi_EncodeWithSignature "simulateCalls((address,bytes)[])" [arrayfiedCalls]
    = (callData, None) ->
  rpc_readContract ZERO_ADDRESS (Some contract) callData blockNumber
    = (encoded, c, Some e) ->
  Contains (Error e) "execution reverted" = false ->
  result (SimulateCall m calls blockNumber) =
    if Len calls =? 0
    then match blockNumber with
         | Some _ =>
             Returns (mkResult true (Slice []) None (FromCallToTxOrCall c blockNumber))
         | None =>
             match rpc_BlockNumber with
             | (latest, None) =>
                 Returns (mkResult true (Slice []) None
                            (FromCallToTxOrCall c (Some (int64 latest))))
             | (_, Some lookupError) =>
                 Returns (mkResult false Nil (Some lookupError) zeroTxOrCall)
             end
         end
    else Panics IndexOutOfRange.
Proof.
  intros Hc HtoArray Hencode Hread Htext.
  unfold SimulateCall, call, read. rewrite Hc. cbn [isNil isSome negb].
  rewrite HtoArray. cbn [String.eqb Ascii.eqb Bool.eqb]. rewrite Hencode.
  unfold makeCall, readContract.
  rewrite !result_bind. cbn [result snd request]. rewrite Hread.
  cbn [isSome negb andb]. rewrite !result_bind. cbn [result snd lift revertBlock].
  rewrite Htext. cbn [fst result snd lift].
  rewrite !result_bind. cbn [result snd lift unwrap descend].
  replace (len (@nil any)) with 0 by reflexivity.
  rewrite Z.eqb_sym.
  destruct (Len calls =? 0); [| reflexivity].
  cbn [negb decodeAggregateCallsResult decodeSlots].
  destruct blockNumber as [bn|]; [reflexivity |].
  unfold client_BlockNumber. rewrite !result_bind. cbn [result snd request].
  destruct rpc_BlockNumber as [latest [lookupError|]]; reflexivity.
Qed.

Lemma simulation_drops_other_transport_errors_witness :
  result (@SimulateCall (Sample.world Sample.transportDown) (Sample.deployed _)
            Sample.noCalls None)
  = Returns (mkResult true (Slice []) None
               (Sample.OfCall (mkCallMsg 0 (Some 51966) [xff]) (Some 100))).
Proof.
  refine (@simulation_drops_other_transport_errors (Sample.world Sample.transportDown)
            (Sample.deployed _) 51966 Sample.noCalls None (Slice []) None [xff] []
            (mkCallMsg 0 (Some 51966) [xff]) (ErrText "connection refused")
            _ _ _ _ _); reflexivity.
Defined.

(** *** A batch of one call *)

(** When the decoded response already has [Len()] top-level elements the
    loop does not run.  So with one call and a response that decodes to one
    list value, the two lists of [makeCall] are that value as it is, wrapper
    and all: the wrapping list is not opened and the return types the call
    declares are not applied to what is inside.  This is what [makeCall]
    returns, at the block the caller gave or at the latest block, unless the
    caller gave no block and the block-number lookup fails; then it returns
    the error of the lookup and no list. *)
Theorem one_call_batch_is_not_unwrapped {W : Collaborators} (calls : CallsInterface)
    to callData txReturnTypes multicallAddress (blockNumber : option Z) encoded c
    (inner : list any) :
  Len calls = 1 ->
  rpc_readContract ZERO_ADDRESS to callData blockNumber = (encoded, c, None) ->
  abi_Decode txReturnTypes encoded = ([Slice inner], None) ->
  reconciles calls [Slice inner] [Slice inner] [Slice inner] /\
  makeCall calls to callData txReturnTypes false multicallAddress blockNumber
  = match blockNumber with
    | Some _ =>
        ([EvReadContract ZERO_ADDRESS to callData blockNumber],
         Returns ([Slice inner], [Slice inner], FromCallToTxOrCall c blockNumber,
                  None))
    | None =>
        ([EvReadContract ZERO_ADDRESS to callData None; EvBlockNumber],
         match rpc_BlockNumber with
         | (latest, None) =>
             Returns ([Slice inner], [Slice inner],
                      FromCallToTxOrCall c (Some (int64 latest)), None)
         | (_, Some lookupError) =>
             Returns ([], [], zeroTxOrCall, Some lookupError)
         end)
    end.
Proof.
  intros Hlen Hread Hdecode.
  assert (Hrec : reconciles calls [Slice inner] [Slice inner] [Slice inner]).
  { unfold reconciles, unwrap. cbn [descend]. rewrite Hlen. cbn.
    destruct (GetReturnTypes calls 0); split; reflexivity. }
  split; [exact Hrec |]. destruct Hrec as [Hu Hd].
  unfold makeCall, readContract, client_BlockNumber, bind, request, lift, ret.
  rewrite Hread. cbn [isSome andb negb fst]. rewrite Hdecode, Hu, Hd.
  destruct blockNumber as [bn|]; [reflexivity |].
  destruct rpc_BlockNumber as [latest [lookupError|]]; reflexivity.
Qed.

Lemma one_call_batch_is_not_unwrapped_witness :
  @reconciles (Sample.world Sample.shortAnswer) Sample.oneCall
     [Slice [Bytes [x01]]] [Slice [Bytes [x01]]] [Slice [Bytes [x01]]] /\
  @makeCall (Sample.world Sample.shortAnswer) Sample.oneCall (Some 51966) [xff]
    (Some ["bytes[]"]) false (Some 51966) None
  = ([EvReadContract 0 (Some 51966) [xff] None; EvBlockNumber],
     Returns ([Slice [Bytes [x01]]], [Slice [Bytes [x01]]],
              Sample.OfCall (mkCallMsg 0 (Some 51966) [xff]) (Some 100), None)).
Proof.
  apply (@one_call_batch_is_not_unwrapped (Sample.world Sample.shortAnswer)
           Sample.oneCall (Some 51966) [xff] (Some ["bytes[]"]) (Some 51966) None
           [x01] (mkCallMsg 0 (Some 51966) [xff]) [Bytes [x01]]);
    reflexivity.
Defined.

(** *** The requests of a dispatch that does not mutate *)

Lemma bind_makeCall_oneRead {W : Collaborators} {B} calls to callData txReturnTypes
    isSimulation multicallAddress blockNumber
    (k : list any * list any * TxOrCall * option error -> M B) :
  (forall x, trace (k x) = []) ->
  oneRead to blockNumber (Some callData)
    (trace (bind (makeCall calls to callData txReturnTypes isSimulation
                           multicallAddress blockNumber) k)).
Proof.
  intros Hk. unfold oneRead. rewrite trace_bind.
  replace (match result (makeCall calls to callData txReturnTypes isSimulation
                                  multicallAddress blockNumber) with
           | Returns x => trace (k x)
           | Panics _ => []
           end) with (@nil Event)
    by (destruct (result _); [rewrite Hk |]; reflexivity).
  rewrite app_nil_r. apply makeCall_requests.
Qed.

Lemma asRead_oneRead {W : Collaborators} calls requireSuccess to funcSignature
    txReturnTypes blockNumber :
  oneRead to blockNumber
    (let '(arrayfiedCalls, _, err) := ToArray calls true false in
     match err with
     | Some _ => None
     | None =>
         encodingOf funcSignature
           (encoderArguments ViaAsRead funcSignature arrayfiedCalls requireSuccess)
     end)
    (trace (asRead calls requireSuccess to funcSignature txReturnTypes blockNumber)).
Proof.
  unfold asRead, encodingOf, encoderArguments.
  destruct (ToArray calls true false) as [[arrayfiedCalls msgValue] [e|]];
    [reflexivity |].
  cbn [trailingBoolSignature].
  destruct (funcSignature =? _)%string;
    destruct (abi_EncodeWithSignature funcSignature _) as [callData [e|]];
    try reflexivity;
    apply bind_makeCall_oneRead; intros [[[d agg] t] [e|]]; reflexivity.
Qed.

Lemma read_oneRead {W : Collaborators} calls requireSuccess to funcSignature
    txReturnTypes multicallAddress blockNumber isSimulation :
  oneRead to blockNumber
    (let '(arrayfiedCalls, _, err) := ToArray calls false false in
     match err with
     | Some _ => None
     | None =>
         encodingOf funcSignature
           (encoderArguments ViaRead funcSignature arrayfiedCalls requireSuccess)
     end)
    (trace (read calls requireSuccess to funcSignature txReturnTypes multicallAddress
                 blockNumber isSimulation)).
Proof.
  unfold read, encodingOf, encoderArguments.
  destruct (ToArray calls false false) as [[arrayfiedCalls msgValue] [e|]];
    [reflexivity |].
  cbn [trailingBoolSignature].
  destruct (funcSignature =? "tryAggregateStatic((address,bytes)[],bool)")%string;
    destruct (abi_EncodeWithSignature funcSignature _) as [callData [e|]];
    try reflexivity;
    apply bind_makeCall_oneRead; intros [[[d agg] t] [e|]]; reflexivity.
Qed.

Lemma getData_oneRead {W : Collaborators} addresses to funcSignature returnTypes
    blockNumber :
  oneRead to blockNumber
    (encodingOf funcSignature
       match addresses with
       | Some l => [toAnyArray l]
       | None => []
       end)
    (trace (getData addresses to funcSignature returnTypes blockNumber)).
Proof.
  unfold getData, encodingOf, oneRead.
  destruct addresses as [l|];
    destruct (abi_EncodeWithSignature funcSignature _) as [callData [e|]];
    try reflexivity;
    unfold readContract, client_BlockNumber, bind, request, ret, trace;
    (destruct (rpc_readContract ZERO_ADDRESS to callData blockNumber)
       as [[encoded c] [e|]]; [left; reflexivity |]);
    (destruct (abi_Decode returnTypes encoded) as [raw [e|]]; [left; reflexivity |]);
    (destruct blockNumber as [bn|]; [left; reflexivity |]);
    right; (split; [reflexivity |]);
    destruct rpc_BlockNumber as [bn [e|]]; reflexivity.
Qed.

Lemma dispatch_oneRead {W : Collaborators} (ep : EntryPoint) (m : MultiCall)
    (a : Args) (c : Address) :
  ContractAddress m = Some c ->
  isMutating ep = false \/ a_isCall a = true ->
  oneRead (Some c) (a_blockNumber a) (wireCalldata ep a) (trace (invoke ep m a)).
Proof.
  intros Hc Hread.
  destruct ep; cbn [invoke wireCalldata isMetadata isMutating signatureOf argumentsOf];
    unfold AggregateCalls, TryAggregateCalls, TryAggregateCalls3, SimulateCall,
           AggregateStatic, TryAggregateStatic, TryAggregateStatic3, CodeLengths,
           Balances, AddressesData, ChainData, txAsRead, txAsReadWithFailure, call,
           callWithFailure;
    rewrite ?Hc; cbn [isNil isSome negb];
    try exact (read_oneRead _ _ _ _ _ _ _ _);
    try exact (getData_oneRead _ _ _ _ _).
  all: destruct Hread as [Hmut | Hcall]; [discriminate Hmut |].
  all: rewrite Hcall, andb_false_r; exact (asRead_oneRead _ _ _ _ _ _).
Qed.

(** The requests of a dispatch that does not mutate, on a deployed
    contract.  When the call set cannot be serialized or the encoder fails,
    the dispatch makes no request.  Otherwise it makes exactly one read, from
    the zero address to the contract at the block the caller gave, of the
    encoding under the entry point's signature of its arguments; the only
    request that can follow is one block-number lookup, and only when the
    caller gave no block.  With a pinned block the dispatch is a single
    round trip. *)
Theorem read_only_dispatch_requests {W : Collaborators} (ep : EntryPoint)
    (m : MultiCall) (a : Args) :
  ContractAddress m <> None ->
  isMutating ep = false \/ a_isCall a = true ->
  oneRead (ContractAddress m) (a_blockNumber a) (wireCalldata ep a)
          (trace (invoke ep m a)).
Proof.
  intros Hlive Hread.
  destruct (ContractAddress m) as [c|] eqn:Hc; [| contradiction].
  apply dispatch_oneRead; assumption.
Qed.

Lemma read_only_dispatch_requests_witness :
  let t := trace (@invoke (Sample.world Sample.quiet) EpTryAggregateStatic
                    (Sample.deployed _)
                    (mkArgs Sample.valuedCalls None true None false)) in
  t = [EvReadContract 0 (Some 51966) [xff; x01] None] \/
  (@None Z = None /\
   t = [EvReadContract 0 (Some 51966) [xff; x01] None; EvBlockNumber]).
Proof.
  apply (@read_only_dispatch_requests (Sample.world Sample.quiet)
           EpTryAggregateStatic (Sample.deployed _)
           (mkArgs Sample.valuedCalls None true None false)).
  - discriminate.
  - left. reflexivity.
Defined.

(** *** The network record of a metadata read *)

(** A metadata read that reached the network records in its [Result] the
    call it made, with the calldata it encoded: at the block the caller
    gave; or, when the caller gave none, at the latest block number as an
    [int64] if the read succeeded, and at a nil block if it failed. *)
Theorem metadata_read_records_the_call {W : Collaborators} addresses to funcSignature
    returnTypes blockNumber callData (r : Result) :
  encodingOf funcSignature
    match addresses with
    | Some l => [toAnyArray l]
    | None => []
    end = Some callData ->
  result (getData addresses to funcSignature returnTypes blockNumber) = Returns r ->
  TxOrCall_ r
  = FromCallToTxOrCall
      (snd (fst (rpc_readContract ZERO_ADDRESS to callData blockNumber)))
      match blockNumber, Error_ r with
      | None, None => Some (int64 (fst rpc_BlockNumber))
      | _, _ => blockNumber
      end.
Proof.
  unfold getData, encodingOf. intros Hencode H.
  replace (match addresses with
           | Some a => abi_EncodeWithSignature funcSignature [toAnyArray a]
           | None => abi_EncodeWithSignature funcSignature []
           end)
    with (abi_EncodeWithSignature funcSignature
            match addresses with
            | Some l => [toAnyArray l]
            | None => []
            end) in H by (destruct addresses; reflexivity).
  destruct (abi_EncodeWithSignature funcSignature _) as [sent [e|]];
    [discriminate Hencode |].
  inversion Hencode; subst sent.
  unfold readContract, client_BlockNumber, bind, request, ret, result in H.
  destruct (rpc_readContract ZERO_ADDRESS to callData blockNumber)
    as [[encoded c] [e|]];
    [cbn in H; inversion H; subst; destruct blockNumber; reflexivity |].
  destruct (abi_Decode returnTypes encoded) as [raw [e|]];
    [cbn in H; inversion H; subst; destruct blockNumber; reflexivity |].
  destruct blockNumber as [bn|]; [cbn in H; inversion H; subst; reflexivity |].
  destruct rpc_BlockNumber as [bn [e|]]; cbn in H; inversion H; subst; reflexivity.
Qed.

Lemma metadata_read_records_the_call_witness :
  Sample.OfCall (mkCallMsg 0 (Some 51966) [xff]) (Some 100)
  = @FromCallToTxOrCall (Sample.world Sample.quiet)
      (snd (fst (@rpc_readContract (Sample.world Sample.quiet) 0 (Some 51966) [xff]
                   None)))
      (Some (int64 (fst (@rpc_BlockNumber (Sample.world Sample.quiet))))).
Proof.
  refine (@metadata_read_records_the_call (Sample.world Sample.quiet)
            (Some [Some 7; Some 7]) (Some 51966) "getBalances(address[])"
            (Some ["bytes[]"]) None [xff]
            (mkResult true (Slice [Slice [Bytes [x01]; Bytes [x01]]]) None
               (Sample.OfCall (mkCallMsg 0 (Some 51966) [xff]) (Some 100)))
            _ _); reflexivity.
Defined.

(** *** A dry run that fails *)

Lemma write_returns_failure_or_broadcasts {W : Collaborators} calls requireSuccess
    signer to funcSignature txReturnTypes withValue isMultiCall3Type (r : Result) :
  result (write calls requireSuccess signer to funcSignature txReturnTypes
                withValue isMultiCall3Type) = Returns r ->
  (Success r = false /\ Error_ r <> None) \/
  existsb isBroadcast
    (trace (write calls requireSuccess signer to funcSignature txReturnTypes
                  withValue isMultiCall3Type)) = true.
Proof.
  intros H.
  write_runs H ltac:(first [ left; split; [reflexivity | discriminate] | idtac ]).
  right. unfold write. rewrite HtoArray, Hencode.
  unfold createTransaction, ChainID, CallContract, client_BlockNumber,
         sendSignedTransaction, deref, receiptBlockNumber, bind, request, ret, throw,
         trace.
  rewrite Hfrom, Hcreate, Hchain, Hsign. cbn. rewrite Hdry. cbn.
  rewrite Hsend. cbn. rewrite Hdecode. reflexivity.
Qed.

(** When the dry run that a mutating dispatch makes returns an error, the
    dispatch sends nothing, and what it returns, if it returns, is a
    failure.  The same holds for a dispatch that ends before its dry
    run. *)
Theorem failed_dry_run_ends_in_failure {W : Collaborators} calls requireSuccess
    signer to funcSignature txReturnTypes withValue isMultiCall3Type :
  (forall msg,
     In (EvCallContract msg None)
        (trace (write calls requireSuccess signer to funcSignature txReturnTypes
                      withValue isMultiCall3Type)) ->
     snd (rpc_CallContract msg None) <> None) ->
  existsb isBroadcast
    (trace (write calls requireSuccess signer to funcSignature txReturnTypes
                  withValue isMultiCall3Type)) = false /\
  forall r : Result,
    result (write calls requireSuccess signer to funcSignature txReturnTypes
                  withValue isMultiCall3Type) = Returns r ->
    Success r = false /\ Error_ r <> None.
Proof.
  intros Hfails.
  assert (Hquiet : existsb isBroadcast
                     (trace (write calls requireSuccess signer to funcSignature
                                   txReturnTypes withValue isMultiCall3Type)) = false).
  { destruct (write_requests calls requireSuccess signer to funcSignature txReturnTypes
                             withValue isMultiCall3Type)
      as [Ht | [value [data [Ht | [Ht | [from [_ [[Ht _] | [tx [Ht Hok]]]]]]]]]];
      try (rewrite Ht; reflexivity).
    exfalso. apply (Hfails (mkCallMsg from to data)); [| exact Hok].
    rewrite Ht. right; right; left. reflexivity. }
  split; [exact Hquiet |].
  intros r H.
  destruct (write_returns_failure_or_broadcasts _ _ _ _ _ _ _ _ H) as [Hf | Hsent];
    [exact Hf |].
  rewrite Hquiet in Hsent. discriminate Hsent.
Qed.

Lemma failed_dry_run_ends_in_failure_witness :
  let W := Sample.worldWithDryRun Sample.quiet Sample.revertsForNine in
  let nine := @mkSigner W (Some 9) (fun tx _ => (tx, None)) in
  let run := @write W Sample.valuedCalls false nine (Some 51966)
               "aggregateCalls((address,bytes,uint256)[])" (Some ["bytes[]"]) true
               false in
  snd (@rpc_CallContract W (mkCallMsg 8 (Some 51966) [xff]) None) = None /\
  existsb isBroadcast (trace run) = false /\
  forall r : @Result W, result run = Returns r -> Success r = false /\ Error_ r <> None.
Proof.
  cbv zeta. split; [reflexivity |].
  apply (@failed_dry_run_ends_in_failure
           (Sample.worldWithDryRun Sample.quiet Sample.revertsForNine)).
  intros msg Hin. cbn in Hin.
  destruct Hin as [Hin | [Hin | [Hin | [Hin | []]]]]; try discriminate Hin.
  inversion Hin; subst. discriminate.
Defined.

(** *** The wire signature of each entry point *)

Lemma write_sends_nothing_unserialized {W : Collaborators} calls requireSuccess signer
    to funcSignature txReturnTypes withValue isMultiCall3Type arrayfiedCalls msgValue
    (e : error) :
  ToArray calls withValue isMultiCall3Type = (arrayfiedCalls, msgValue, Some e) ->
  trace (write calls requireSuccess signer to funcSignature txReturnTypes withValue
               isMultiCall3Type) = [].
Proof.
  intros HtoArray. unfold write. rewrite HtoArray. reflexivity.
Qed.

(** On a deployed contract, with a signer where one is needed, the calldata
    of the first request of each entry point is the encoding, under the
    signature of that entry point, of its arguments: the tuple array, with
    [requireSuccess] after it for [TryAggregateCalls] and
    [TryAggregateStatic] only; the address array for a metadata query, and
    no argument at all when the address list is nil.  The tuple array is the
    call set serialized with its values on the three mutating entry points
    (dispatched as a transaction or as a call) and without them on the four
    static ones, never in the failure shape.  When the call set cannot be
    serialized or the encoder fails, there is no first request. *)
Theorem entry_points_encode_their_signature {W : Collaborators} (ep : EntryPoint)
    (m : MultiCall) (a : Args) :
  ContractAddress m <> None ->
  Signer m <> None \/ a_isCall a = true ->
  sentCalldata (trace (invoke ep m a)) = wireCalldata ep a.
Proof.
  intros Hlive Hsigner.
  destruct (ContractAddress m) as [c|] eqn:Hc; [| contradiction].
  assert (Hread : forall t, oneRead (Some c) (a_blockNumber a) (wireCalldata ep a) t ->
                            sentCalldata t = wireCalldata ep a).
  { intros t. unfold oneRead. destruct (wireCalldata ep a) as [callData|].
    - intros [-> | [_ ->]]; reflexivity.
    - intros ->. reflexivity. }
  assert (Hmutating : forall rs sig ts,
            sentCalldata
              (trace (if isNil (Signer m) && negb (a_isCall a)
                      then ret (failure (ErrText "no signer configured") zeroTxOrCall)
                      else if isNil (Some c)
                      then ret (failure (ErrText "no multicall contract on this chain")
                                        zeroTxOrCall)
                      else if a_isCall a
                      then asRead (a_calls a) rs (Some c) sig ts (a_blockNumber a)
                      else bind (derefSigner (Signer m))
                                (fun signer =>
                                   write (a_calls a) rs signer (Some c) sig ts true
                                         false)))
            = let '(arrayfiedCalls, _, err) := ToArray (a_calls a) true false in
              match err with
              | Some _ => None
              | None =>
                  encodingOf sig
                    (if (sig =? "tryAggregateCalls((address,bytes,uint256)[],bool)")%string
                     then [arrayfiedCalls; Bool rs] else [arrayfiedCalls])
              end).
  { intros rs sig ts. cbn [isNil isSome negb].
    destruct (a_isCall a) eqn:Hcall.
    - rewrite andb_false_r.
      pose proof (asRead_oneRead (a_calls a) rs (Some c) sig ts (a_blockNumber a))
        as Hone.
      unfold oneRead, encoderArguments in Hone. cbn [trailingBoolSignature] in Hone.
      destruct (ToArray (a_calls a) true false) as [[arr v] [e|]].
      + rewrite Hone. reflexivity.
      + destruct (encodingOf sig _) as [callData|].
        * destruct Hone as [-> | [_ ->]]; reflexivity.
        * rewrite Hone. reflexivity.
    - destruct (Signer m) as [s|]; [| destruct Hsigner; [contradiction | discriminate]].
      cbn [isNil isSome negb andb derefSigner]. rewrite trace_bind.
      cbn [trace result ret fst snd app].
      destruct (ToArray (a_calls a) true false) as [[arr v] [e|]] eqn:HtoArray.
      + rewrite (write_sends_nothing_unserialized _ rs s (Some c) sig ts _ _ HtoArray).
        reflexivity.
      + rewrite (write_sentCalldata _ rs s (Some c) sig ts _ _ HtoArray).
        reflexivity. }
  destruct ep;
    try (apply Hread;
         apply dispatch_oneRead; [exact Hc | left; reflexivity]);
    cbn [invoke wireCalldata isMetadata isMutating signatureOf argumentsOf];
    unfold AggregateCalls, TryAggregateCalls, TryAggregateCalls3, transact,
           transactWithFailure, txAsRead, txAsReadWithFailure;
    rewrite ?Hc; rewrite Hmutating; reflexivity.
Qed.

Lemma entry_points_encode_their_signature_witness :
  @sentCalldata (Sample.world Sample.quiet)
    (trace (invoke EpTryAggregateCalls (Sample.deployed _)
              (mkArgs Sample.valuedCalls None true None false)))
  = @encodingOf (Sample.world Sample.quiet)
      "tryAggregateCalls((address,bytes,uint256)[],bool)"
      [Slice [Sample.tupleOf true false; Sample.tupleOf true false]; Bool true].
Proof.
  apply (@entry_points_encode_their_signature (Sample.world Sample.quiet)
           EpTryAggregateCalls (Sample.deployed _)
           (mkArgs Sample.valuedCalls None true None false)).
  - discriminate.
  - left. discriminate.
Defined.
